(** * Product Hunt Analyzer: the streaming orchestration pipeline

    A shallow embedding of the request handlers of [src/server.js] (and of
    the variant of the same file kept in [src/test-server.js], which adds the
    [latestAnalysisResults] slot and its accessor) together with the two
    services they call, [ProductHuntService] and [ChatGPTService]
    ([src/services/productHuntService.js]).

    JavaScript promises are modelled by a clock-passing exception monad
    ([Async]): a computation takes the instant at which it is started and
    returns the instant at which it settles and how.  The handlers add the
    observable effects of a request (events written on the stream, timers
    awaited, responses) and the module-level slot.

    The other services of the repository follow: the token store
    ([AuthService]), the batches of [ChatGPTService], the stored files
    ([DataService]), the error middleware ([src/middleware/errorHandler.js])
    and the domain check ([src/middleware/internalAuth.js]). *)

From Stdlib Require Import String Ascii List ZArith NArith Lia Bool Arith.
From Stdlib Require Import DecimalString.
From Stdlib Require Import Sorted Permutation.
Import ListNotations.
Local Open Scope string_scope.

(* ====================================================================== *)
(** * JavaScript values and promises *)
(* ====================================================================== *)

Module JS.

(** JSON values, as produced by [JSON.parse] and consumed by
    [JSON.stringify].  Numbers are the integers; objects keep their keys
    in insertion order. *)
#[warnings="-register-all"] Inductive JSON : Type :=
| JNull
| JBool (b : bool)
| JNum (z : Z)
| JStr (s : string)
| JArr (items : list JSON)
| JObj (fields : list (string * JSON)).

(** [o.k] on the fields of an object; [None] is [undefined]. *)
Fixpoint getField (k : string) (fields : list (string * JSON)) : option JSON :=
  match fields with
  | [] => None
  | (k', v) :: rest => if String.eqb k k' then Some v else getField k rest
  end.

(** [o.k = v]: an existing key keeps its position, a new one is appended. *)
Fixpoint setField (k : string) (v : JSON) (fields : list (string * JSON))
  : list (string * JSON) :=
  match fields with
  | [] => [(k, v)]
  | (k', v') :: rest =>
      if String.eqb k k' then (k, v) :: rest else (k', v') :: setField k v rest
  end.

(** [v.k] read through a value; only objects have fields here. *)
Definition field (k : string) (v : JSON) : option JSON :=
  match v with
  | JObj fields => getField k fields
  | _ => None
  end.

(** [v !== null && v !== undefined]. *)
Definition nonNull (v : JSON) : bool :=
  match v with
  | JNull => false
  | _ => true
  end.

(** An [Error] as the code reads it: [message], and the [status] and
    [code] that HTTP clients attach to theirs. *)
Record Error : Type := mkError {
  message : string;
  status : option N;
  code : option string
}.

(** [new Error(msg)]. *)
Definition newError (msg : string) : Error :=
  {| message := msg; status := None; code := None |}.

(** How a promise settles. *)
Inductive Outcome (A : Type) : Type :=
| Resolve (a : A)
| Reject (e : Error).
Arguments Resolve {A} a.
Arguments Reject {A} e.

(** An asynchronous computation: started at an instant (milliseconds), it
    settles at a later instant with an outcome. *)
Definition Async (A : Type) : Type := N -> N * Outcome A.

Definition ret {A} (a : A) : Async A := fun t => (t, Resolve a).

Definition throw {A} (e : Error) : Async A := fun t => (t, Reject e).

Definition bind {A B} (m : Async A) (k : A -> Async B) : Async B :=
  fun t =>
    match m t with
    | (t', Resolve a) => k a t'
    | (t', Reject e) => (t', Reject e)
    end.

(** [try { m } catch (error) { h error }]. *)
Definition tryCatch {A} (m : Async A) (h : Error -> Async A) : Async A :=
  fun t =>
    match m t with
    | (t', Resolve a) => (t', Resolve a)
    | (t', Reject e) => h e t'
    end.

(** [Date.now()]. *)
Definition now : Async N := fun t => (t, Resolve t).

(** [await new Promise(resolve => setTimeout(resolve, ms))]. *)
Definition sleep (ms : N) : Async unit := fun t => ((t + ms)%N, Resolve tt).

(** The answer of the outside world to one call: how long it takes and
    what comes back. *)
Record Timed (A : Type) : Type := mkTimed {
  latency : N;
  answer : A
}.
Arguments mkTimed {A} latency answer.
Arguments latency {A} t.
Arguments answer {A} t.

(** Awaiting an external call. *)
Definition external {A} (r : Timed (Outcome A)) : Async A :=
  fun t => ((t + latency r)%N, answer r).

(** [Promise.race([m, new Promise((_, reject) =>
      setTimeout(() => reject(new Error(msg)), ms))])]:
    the operation, which is started before the timer is set, wins when it
    settles no later than the ceiling, the instant of the ceiling
    included; the timer wins when the ceiling elapses first.  The loser
    is abandoned. *)
Definition raceTimeout {A} (m : Async A) (ms : N) (msg : string) : Async A :=
  fun t =>
    let '(t', o) := m t in
    if (t' <=? t + ms)%N then (t', o) else ((t + ms)%N, Reject (newError msg)).

End JS.

Import JS.

Declare Scope async_scope.
Delimit Scope async_scope with async.
Notation "x <- m ;; k" := (bind m (fun x => k))
  (at level 61, m at next level, right associativity) : async_scope.
Notation "m ;; k" := (bind m (fun _ => k))
  (at level 61, right associativity) : async_scope.

(* ====================================================================== *)
(** * Strings and numbers as the templates use them *)
(* ====================================================================== *)

Module Text.

(** [`${n}`] for a non-negative count. *)
Definition ofNat (n : nat) : string := NilZero.string_of_uint (Nat.to_uint n).

(** [`${z}`] and [z.toString()] for an integer below 1e21 in absolute
    value, which JavaScript prints with all its digits; from 1e21 on it
    prints an exponent, and this function does not. *)
Definition ofZ (z : Z) : string := NilZero.string_of_int (Z.to_int z).

Definition lowerAscii (c : ascii) : ascii :=
  let n := nat_of_ascii c in
  if ((65 <=? n) && (n <=? 90))%nat then ascii_of_nat (n + 32)%nat else c.

(** [s.toLowerCase()] for a text whose letters are ASCII: the other
    bytes are kept, also those of a capital outside ASCII, which
    JavaScript lower-cases. *)
Fixpoint toLowerCase (s : string) : string :=
  match s with
  | EmptyString => EmptyString
  | String c rest => String (lowerAscii c) (toLowerCase rest)
  end.

(** [hay.includes(needle)]. *)
Fixpoint includes (needle hay : string) : bool :=
  if String.prefix needle hay then true
  else match hay with
       | EmptyString => false
       | String _ rest => includes needle rest
       end.

Definition isSpace (c : ascii) : bool :=
  let n := nat_of_ascii c in
  ((n =? 32) || ((9 <=? n) && (n <=? 13)))%nat.

(** [s.replace(/\s+/g, '-')] for a text whose white space is ASCII
    (U+00A0 and the other Unicode spaces of the class are kept here):
    [inRun] tells that the previous character already belonged to the run
    being replaced. *)
Fixpoint dashSpaces (inRun : bool) (s : string) : string :=
  match s with
  | EmptyString => EmptyString
  | String c rest =>
      if isSpace c
      then (if inRun then dashSpaces true rest else String "-" (dashSpaces true rest))
      else String c (dashSpaces false rest)
  end.

(** A string in a boolean position: the empty string is falsy. *)
Definition truthy (s : string) : bool :=
  match s with
  | EmptyString => false
  | _ => true
  end.

(** [a || b] on optional strings ([None] is [null] or [undefined]). *)
Definition orElse (a : option string) (b : string) : string :=
  match a with
  | Some s => if truthy s then s else b
  | None => b
  end.

End Text.

(* ====================================================================== *)
(** * Data model *)
(* ====================================================================== *)

Record Maker : Type := mkMaker {
  maker_id : string;
  maker_name : string;
  maker_username : string;
  maker_profileImage : option string
}.

Record Topic : Type := mkTopic {
  topic_id : string;
  topic_name : string;
  topic_slug : string
}.

Record ProductLink : Type := mkProductLink {
  link_type : string;
  link_url : string
}.

Record User : Type := mkUser {
  user_id : string;
  user_name : string;
  user_username : string
}.

(** One trending listing, in the format of [transformProduct].  Dates are
    ISO strings; counts may be missing ([None]). *)
Record Product : Type := mkProduct {
  id : string;
  name : string;
  tagline : string;
  description : string;
  url : string;
  website : string;
  votesCount : option Z;
  commentsCount : option Z;
  createdAt : string;
  featuredAt : option string;
  thumbnail : option string;
  makers : list Maker;
  topics : list Topic;
  productLinks : list ProductLink;
  user : option User;
  fetchedAt : string
}.

(** [{ ...product, analysis }]. *)
Record AnalyzedProduct : Type := mkAnalyzed {
  product : Product;
  analysis : JSON
}.

(** [finalData] of the streaming handler. *)
Record RunSummary : Type := mkSummary {
  totalProducts : nat;
  successCount : nat;
  errorCount : nat;
  timestamp : string;
  products : list AnalyzedProduct
}.

(** The parts of the JavaScript runtime the code calls and that are left
    uninterpreted. *)
Record Runtime : Type := mkRuntime {
  (** [JSON.parse(text)]; [None] when it throws a [SyntaxError]. *)
  JSON_parse : string -> option JSON;
  (** [new Date(ms).toISOString()]. *)
  toISOString : Z -> string;
  (** [new Date(text).getTime()]; [None] for an invalid date. *)
  Date_parse : string -> option Z;
  (** [new Date(y, m, d)] for the local day of an instant: its midnight. *)
  localMidnight : Z -> Z;
  (** Message of the [TypeError] thrown when [metadata] is set on a value
      that is not an object. *)
  cannotSetMetadata : JSON -> string;
  (** Message of the [TypeError] thrown by [choices[0].message] when
      [choices] is empty. *)
  cannotReadMessage : string
}.

(* ====================================================================== *)
(** * ChatGPTService ([src/services/productHuntService.js], 1075-1338) *)
(* ====================================================================== *)

Module ChatGPTService.

(** What [openai.chat.completions.create] resolves with, as far as the
    service reads it: [choices[i].message.content] ([None] is [null]) and
    [usage?.total_tokens]. *)
Record Choice : Type := mkChoice {
  content : option string
}.

Record Completion : Type := mkCompletion {
  choices : list Choice;
  total_tokens : option Z
}.

Record TargetUser : Type := mkTargetUser {
  demographic : string;
  likelihood : string
}.

Definition targetUserJSON (u : TargetUser) : JSON :=
  JObj [("demographic", JStr (demographic u)); ("likelihood", JStr (likelihood u))].

Definition model : string := "gpt-4o".
Definition maxRetries : nat := 3.
Definition retryDelay : N := 2000.

(** [error.code === 'ECONNRESET' || error.code === 'ETIMEDOUT']. *)
Definition networkCode (error : Error) : bool :=
  match code error with
  | Some c => String.eqb c "ECONNRESET" || String.eqb c "ETIMEDOUT"
  | None => false
  end.

(** [shouldRetry(error)], lines 1194-1201; [status] is [error.status]. *)
Definition shouldRetry (error : Error) : bool :=
  if match status error with Some s => (s =? 429)%N | None => false end then true
  else if match status error with
          | Some s => ((500 <=? s) && (s <? 600))%N
          | None => false
          end then true
  else if networkCode error then true
  else false.

(** [topics.some(t => t.toLowerCase().includes(a) ||
                     t.toLowerCase().includes(b))]. *)
Definition someTopic (a b : string) (topicNames : list string) : bool :=
  existsb (fun t => Text.includes a (Text.toLowerCase t)
                    || Text.includes b (Text.toLowerCase t)) topicNames.

Definition generalUser : TargetUser :=
  {| demographic := "一般科技用户"; likelihood := "中" |}.

(** The five [if (topics.some(...)) targetUsers.push(...)] of lines
    1213-1227, in order, then the default of lines 1230-1232. *)
Definition fallbackTargetUsers (topicNames : list string) : list TargetUser :=
  let pushed :=
    ((if someTopic "developer" "tech" topicNames
      then [{| demographic := "开发者和技术专业人士"; likelihood := "高" |}] else [])
     ++ (if someTopic "business" "productivity" topicNames
         then [{| demographic := "商业专业人士"; likelihood := "高" |}] else [])
     ++ (if someTopic "design" "creative" topicNames
         then [{| demographic := "设计师和创意工作者"; likelihood := "高" |}] else [])
     ++ (if someTopic "ai" "machine learning" topicNames
         then [{| demographic := "AI和机器学习从业者"; likelihood := "高" |}] else [])
     ++ (if someTopic "marketing" "social" topicNames
         then [{| demographic := "营销和社交媒体专家"; likelihood := "高" |}] else []))%list
  in
  match pushed with
  | [] => [generalUser]
  | _ => pushed
  end.

Section Service.

Variable rt : Runtime.

(** [this.openai] is an API client ([true]) or [null] ([false]). *)
Variable openai : bool.

(** How the [retryCount]-th call of [chat.completions.create] for the
    product at hand settles. *)
Variable create : nat -> Timed (Outcome Completion).

(** [createFallbackAnalysis(product)], lines 1204-1248, evaluated at
    instant [t].  [targetUsers[0]] exists because the list returned by
    [fallbackTargetUsers] is never empty. *)
Definition createFallbackAnalysis (t : N) (p : Product) : JSON :=
  let voteCount := match votesCount p with Some v => v | None => 0%Z end in
  let targetUsers := fallbackTargetUsers (map topic_name (topics p)) in
  let successProbability :=
    if (100 <? voteCount)%Z then "高"
    else if (voteCount <? 20)%Z then "低" else "中" in
  JObj
    [ ("productName", JStr (name p));
      ("targetUsers", JArr (map targetUserJSON targetUsers));
      ("successProbability", JStr successProbability);
      ("summary", JStr ("获得" ++ Text.ofZ voteCount ++ "票的产品，主要面向"
                        ++ demographic (nth 0 targetUsers generalUser)));
      ("marketInsights", JStr "基于产品类别和投票数的基础分析");
      ("userPersonas", JArr (map (fun u => JStr (demographic u)) (firstn 3 targetUsers)));
      ("fallback", JBool true);
      ("analyzedAt", JStr (toISOString rt (Z.of_N t))) ].

(** The object built when [JSON.parse] throws, lines 1153-1157. *)
Definition unparsedAnalysis (analysisText : string) : JSON :=
  JObj
    [ ("error", JStr "Failed to parse structured response");
      ("rawResponse", JStr analysisText);
      ("summary", JStr "Analysis completed but response format was invalid") ].

(** [JSON.parse(analysisText)] inside its own try/catch; a [null]
    content is converted to the text [null], which parses to [null]. *)
Definition parseAnalysis (analysisText : option string) : JSON :=
  match analysisText with
  | None => JNull
  | Some text =>
      match JSON_parse rt text with
      | Some v => v
      | None => unparsedAnalysis text
      end
  end.

(** [analysis.metadata = { ... }], lines 1161-1167, in strict mode (a
    class body): it throws on [null] and on primitives.  An array takes
    the property, which [JSON.stringify] does not print. *)
Definition setMetadata (analysis : JSON) (completion : Completion)
           (p : Product) (t : N) : Async JSON :=
  let metadata :=
    JObj
      [ ("analyzedAt", JStr (toISOString rt (Z.of_N t)));
        ("model", JStr model);
        ("tokensUsed", JNum (match total_tokens completion with
                             | Some n => n
                             | None => 0%Z
                             end));
        ("productId", JStr (id p));
        ("productName", JStr (name p)) ] in
  match analysis with
  | JObj fields => ret (JObj (setField "metadata" metadata fields))
  | JArr items => ret (JArr items)
  | v => throw (newError (cannotSetMetadata rt v))
  end.

(** The [try] block of [analyzeProduct], lines 1117-1170. *)
Definition analyzeProductTry (p : Product) (retryCount : nat) : Async JSON :=
  (if negb openai then
     t <- now ;;
     ret (createFallbackAnalysis t p)
   else
     completion <- external (create retryCount) ;;
     analysisText <-
       match choices completion with
       | c :: _ => ret (content c)
       | [] => throw (newError (cannotReadMessage rt))
       end ;;
     let analysis := parseAnalysis analysisText in
     t <- now ;;
     setMetadata analysis completion p t)%async.

(** The object returned when no retry is made, lines 1183-1189. *)
Definition failedAnalysis (error : Error) (t : N) : JSON :=
  JObj
    [ ("error", JStr (message error));
      ("targetUsers",
       JArr [targetUserJSON {| demographic := "Analysis failed";
                               likelihood := "unknown" |}]);
      ("successProbability", JStr "unknown");
      ("summary", JStr "Analysis unavailable due to API error");
      ("analyzedAt", JStr (toISOString rt (Z.of_N t))) ].

(** [analyzeProduct(product, retryCount)], lines 1116-1191, by recursion
    on the retries that are left, [maxRetries - retryCount]: the test
    [retryCount < this.maxRetries] holds exactly when one is left. *)
Fixpoint analyzeProductWith (retriesLeft : nat) (p : Product) (retryCount : nat)
  : Async JSON :=
  tryCatch (analyzeProductTry p retryCount)
    (fun error =>
       match retriesLeft with
       | S retriesLeft' =>
           if shouldRetry error then
             (sleep retryDelay ;;
              analyzeProductWith retriesLeft' p (S retryCount))%async
           else
             (t <- now ;; ret (failedAnalysis error t))%async
       | O =>
           (t <- now ;; ret (failedAnalysis error t))%async
       end).

Definition analyzeProduct (p : Product) (retryCount : nat) : Async JSON :=
  analyzeProductWith (maxRetries - retryCount) p retryCount.

End Service.

End ChatGPTService.

(* ====================================================================== *)
(** * ProductHuntService ([src/services/productHuntService.js], 279-751) *)
(* ====================================================================== *)

Module ProductHuntService.

(** A topic node of the GraphQL answer; the query asks for [name] only,
    so [id] and [slug] are usually absent. *)
Record TopicNode : Type := mkTopicNode {
  node_id : option string;
  node_name : string;
  node_slug : option string
}.

(** A post node of the GraphQL answer ([edge.node]); [post_thumbnail] is
    [thumbnail?.url], [post_topics] is [topics?.edges] mapped to nodes. *)
Record Post : Type := mkPost {
  post_id : string;
  post_name : string;
  post_tagline : string;
  post_description : string;
  post_url : string;
  post_website : string;
  post_votesCount : option Z;
  post_commentsCount : option Z;
  post_createdAt : string;
  post_featuredAt : option string;
  post_thumbnail : option string;
  post_makers : option (list Maker);
  post_topics : option (list TopicNode);
  post_productLinks : option (list ProductLink);
  post_user : option User
}.

(** [response.data] of the GraphQL call: [gql_errors] is
    [JSON.stringify(response.data.errors)] when [errors] is truthy,
    [gql_posts] the nodes of [data.posts.edges] when [data] and
    [data.posts] are there. *)
Record GraphQLBody : Type := mkGraphQLBody {
  gql_errors : option string;
  gql_posts : option (list Post)
}.

Record RestUser : Type := mkRestUser {
  ru_id : option Z;
  ru_name : option string;
  ru_username : option string
}.

(** A post of the REST answer, as [transformRESTProduct] reads it. *)
Record RestPost : Type := mkRestPost {
  rest_id : option Z;
  rest_name : option string;
  rest_tagline : option string;
  discussion_url : option string;
  redirect_url : option string;
  votes_count : option Z;
  comments_count : option Z;
  day : option string;
  screenshot_300px : option string;
  screenshot_850px : option string;
  rest_user : option RestUser
}.

(** [response.data.posts] of the REST call; [None] when [data] or
    [data.posts] is missing. *)
Record RestBody : Type := mkRestBody {
  rest_posts : option (list RestPost)
}.

Definition maxRetries : nat := 3.
Definition retryDelay : N := 1000.

(** [shouldRetry(error)], lines 404-412; [status] is
    [error.response.status], present exactly when [error.response] is. *)
Definition shouldRetry (error : Error) : bool :=
  match status error with
  | Some s => (s =? 429)%N || ((500 <=? s) && (s <? 600))%N
  | None =>
      match code error with
      | Some c => String.eqb c "ECONNRESET" || String.eqb c "ETIMEDOUT"
      | None => false
      end
  end.

(** [n || 0] on a count. *)
Definition orZero (n : option Z) : Z :=
  match n with
  | Some v => v
  | None => 0%Z
  end.

(** [a || null] on an optional string. *)
Definition orNull (a : option string) : option string :=
  match a with
  | Some s => if Text.truthy s then Some s else None
  | None => None
  end.

(** [todaysProducts.sort((a, b) => (b.votesCount || 0) - (a.votesCount || 0))]:
    a stable sort by decreasing votes.  [insertByVotes] puts a post before
    the first one that has no more votes than it. *)
Fixpoint insertByVotes (x : Post) (sorted : list Post) : list Post :=
  match sorted with
  | [] => [x]
  | y :: rest =>
      if (orZero (post_votesCount y) <=? orZero (post_votesCount x))%Z
      then x :: y :: rest
      else y :: insertByVotes x rest
  end.

Definition sortByVotes (posts : list Post) : list Post :=
  fold_right insertByVotes [] posts.

Section Service.

Variable rt : Runtime.

(** How the [retryCount]-th [axios.post] to the GraphQL endpoint
    settles.  A body that cannot be read as above makes the [try] block
    throw a [TypeError], which the code treats as any error without
    [response] and [code]: it is an answer [Reject] here. *)
Variable graphqlPost : nat -> Timed (Outcome GraphQLBody).

(** How the [axios.get] to the REST endpoint settles; an answer whose
    [posts] is not a list of posts is an answer [Reject] here, for the
    same reason. *)
Variable restGet : Timed (Outcome RestBody).

(** The [k]-th value of [Math.random()] drawn by a call of
    [getMockProducts], as a number whose remainder is taken. *)
Variable mathRandom : nat -> N.

(** [makeGraphQLRequest(query, variables, accessToken, retryCount)],
    lines 334-401, by recursion on the retries that are left. *)
Fixpoint makeGraphQLRequestWith (retriesLeft : nat) (retryCount : nat)
  : Async GraphQLBody :=
  tryCatch
    (data <- external (graphqlPost retryCount) ;;
     match gql_errors data with
     | Some errors => throw (newError ("GraphQL errors: " ++ errors))
     | None => ret data
     end)%async
    (fun error =>
       match retriesLeft with
       | S retriesLeft' =>
           if shouldRetry error then
             (sleep retryDelay ;;
              makeGraphQLRequestWith retriesLeft' (S retryCount))%async
           else throw error
       | O => throw error
       end).

Definition makeGraphQLRequest (retryCount : nat) : Async GraphQLBody :=
  makeGraphQLRequestWith (maxRetries - retryCount) retryCount.

(** [transformProduct(post)], lines 556-591, at instant [t]. *)
Definition transformProduct (t : N) (post : Post) : Product :=
  {| id := post_id post;
     name := post_name post;
     tagline := post_tagline post;
     description := post_description post;
     url := post_url post;
     website := post_website post;
     votesCount := post_votesCount post;
     commentsCount := post_commentsCount post;
     createdAt := post_createdAt post;
     featuredAt := post_featuredAt post;
     thumbnail := orNull (post_thumbnail post);
     makers := match post_makers post with Some ms => ms | None => [] end;
     topics :=
       match post_topics post with
       | Some nodes =>
           map (fun node =>
                  {| topic_id := Text.orElse (node_id node) "";
                     topic_name := node_name node;
                     topic_slug :=
                       Text.orElse (node_slug node)
                         (Text.dashSpaces false (Text.toLowerCase (node_name node))) |})
               nodes
       | None => []
       end;
     productLinks := match post_productLinks post with Some ls => ls | None => [] end;
     user := post_user post;
     fetchedAt := toISOString rt (Z.of_N t) |}.

(** [transformRESTProduct(post)], lines 530-553, at instant [t]. *)
Definition transformRESTProduct (t : N) (post : RestPost) : Product :=
  {| id := match rest_id post with Some n => Text.ofZ n | None => "" end;
     name := Text.orElse (rest_name post) "";
     tagline := Text.orElse (rest_tagline post) "";
     description := Text.orElse (discussion_url post)
                      (Text.orElse (redirect_url post) "");
     url := Text.orElse (discussion_url post) "";
     website := Text.orElse (redirect_url post) "";
     votesCount := Some (orZero (votes_count post));
     commentsCount := Some (orZero (comments_count post));
     createdAt := Text.orElse (day post) (toISOString rt (Z.of_N t));
     featuredAt := Some (Text.orElse (day post) (toISOString rt (Z.of_N t)));
     thumbnail :=
       match orNull (screenshot_300px post) with
       | Some u => Some u
       | None => orNull (screenshot_850px post)
       end;
     makers := [];
     topics := [];
     productLinks := [];
     user :=
       match rest_user post with
       | Some u =>
           Some {| user_id := match ru_id u with Some n => Text.ofZ n | None => "" end;
                   user_name := Text.orElse (ru_name u) "";
                   user_username := Text.orElse (ru_username u) "" |}
       | None => None
       end;
     fetchedAt := toISOString rt (Z.of_N t) |}.

(** The filter of lines 444-453: created or featured on the local day
    that starts at [todayStart]. *)
Definition launchedToday (todayStart : Z) (post : Post) : bool :=
  let todayEnd := (todayStart + 24 * 60 * 60 * 1000)%Z in
  let within (d : option Z) :=
    match d with
    | Some ms => ((todayStart <=? ms) && (ms <? todayEnd))%Z
    | None => false
    end in
  let isCreatedToday := within (Date_parse rt (post_createdAt post)) in
  let isFeaturedToday :=
    match post_featuredAt post with
    | Some f => if Text.truthy f then within (Date_parse rt f) else false
    | None => false
    end in
  isCreatedToday || isFeaturedToday.

(** [getTrendingProductsREST(accessToken, limit)], lines 492-527. *)
Definition getTrendingProductsREST (accessToken : string) (limit : nat)
  : Async (list Product) :=
  tryCatch
    (data <- external restGet ;;
     match rest_posts data with
     | None => throw (newError "Invalid response from REST API")
     | Some posts =>
         t <- now ;;
         let products := map (transformRESTProduct t) posts in
         ret (firstn limit products)
     end)%async
    (fun error => throw error).

(** The three products written out in [getMockProducts], lines 666-721. *)
Definition mockProducts (t : N) : list Product :=
  let iso (ago : Z) := toISOString rt (Z.of_N t - ago) in
  let mock ident nm tag descr link votes comments ago thumb makerName makerUser topicName slug :=
    {| id := "mock-" ++ ident;
       name := nm;
       tagline := tag;
       description := descr;
       url := link;
       website := link;
       votesCount := Some votes;
       commentsCount := Some comments;
       createdAt := iso ago;
       featuredAt := Some (iso ago);
       thumbnail := Some thumb;
       makers := [{| maker_id := ident; maker_name := makerName;
                     maker_username := makerUser; maker_profileImage := None |}];
       topics := [{| topic_id := ident; topic_name := topicName; topic_slug := slug |}];
       productLinks := [];
       user := Some {| user_id := ident; user_name := makerName;
                       user_username := makerUser |};
       fetchedAt := iso 0%Z |} in
  [ mock "1" "AI Code Assistant Pro" "Your intelligent coding companion"
      "An advanced AI-powered code assistant that helps developers write better code faster with intelligent suggestions and automated refactoring."
      "https://example.com/ai-code-assistant" 1247%Z 89%Z 0%Z
      "https://via.placeholder.com/300x200/4F46E5/FFFFFF?text=AI+Code+Assistant"
      "Alex Developer" "alexdev" "Developer Tools" "developer-tools";
    mock "2" "DataViz Studio" "Beautiful data visualizations made simple"
      "Create stunning interactive charts and dashboards from your data with our intuitive drag-and-drop interface."
      "https://example.com/dataviz-studio" 892%Z 67%Z 86400000%Z
      "https://via.placeholder.com/300x200/10B981/FFFFFF?text=DataViz+Studio"
      "Sarah Analytics" "sarahdata" "Analytics" "analytics";
    mock "3" "CloudSync Manager" "Seamless file synchronization across all devices"
      "Keep your files in sync across all your devices with our secure, fast, and reliable cloud synchronization service."
      "https://example.com/cloudsync" 634%Z 45%Z 172800000%Z
      "https://via.placeholder.com/300x200/F59E0B/FFFFFF?text=CloudSync"
      "Mike Cloud" "mikecloud" "Productivity" "productivity" ].

(** The product pushed by the loop of lines 725-744 for index [i]; its
    two random draws are the [2 * (i - 4)]-th and the next. *)
Definition additionalProduct (t : N) (i : nat) : Product :=
  let n := Text.ofNat i in
  let draw (k : nat) (range : N) := Z.of_N (mathRandom k mod range) in
  let iso := toISOString rt (Z.of_N t - Z.of_nat i * 86400000) in
  {| id := "mock-" ++ n;
     name := "Product " ++ n;
     tagline := "Innovative solution for modern challenges";
     description := "A cutting-edge product that solves real-world problems with elegant design and powerful features.";
     url := "https://example.com/product-" ++ n;
     website := "https://example.com/product-" ++ n;
     votesCount := Some (draw (2 * (i - 4))%nat 500%N + 100)%Z;
     commentsCount := Some (draw (2 * (i - 4) + 1)%nat 50%N + 10)%Z;
     createdAt := iso;
     featuredAt := Some iso;
     thumbnail := Some ("https://via.placeholder.com/300x200/6366F1/FFFFFF?text=Product+" ++ n);
     makers := [{| maker_id := n; maker_name := "Creator " ++ n;
                   maker_username := "creator" ++ n; maker_profileImage := None |}];
     topics := [{| topic_id := n; topic_name := "Technology"; topic_slug := "technology" |}];
     productLinks := [];
     user := Some {| user_id := n; user_name := "Creator " ++ n;
                     user_username := "creator" ++ n |};
     fetchedAt := toISOString rt (Z.of_N t) |}.

(** [getMockProducts(limit)], lines 663-748, at instant [t]: the loop
    runs for [i = 4, ..., min(limit, 20)]. *)
Definition getMockProducts (t : N) (limit : nat) : list Product :=
  let additionalProducts :=
    map (additionalProduct t) (seq 4 (Nat.min limit 20 - 3)) in
  let allMockProducts := (mockProducts t ++ additionalProducts)%list in
  firstn limit allMockProducts.

(** The [try] block of [getTrendingProducts], lines 416-472.  The
    request variables ([fetchLimit]) and the token only travel to the
    outside world. *)
Definition getTrendingProductsTry (accessToken : string) (limit : nat)
  : Async (list Product) :=
  (response <- makeGraphQLRequest 0 ;;
   match gql_posts response with
   | None => throw (newError "Invalid response structure from Product Hunt API")
   | Some posts =>
       t <- now ;;
       let todayStart := localMidnight rt (Z.of_N t) in
       let todaysProducts :=
         sortByVotes (filter (launchedToday todayStart) posts) in
       let limitedProducts := firstn limit todaysProducts in
       match limitedProducts with
       | _ :: _ => ret (map (transformProduct t) limitedProducts)
       | [] => ret (map (transformProduct t) (firstn limit posts))
       end
   end)%async.

(** [getTrendingProducts(accessToken, limit)], lines 415-489: the
    [try] block, the REST call in the [catch], the mock products in
    the [catch] of that. *)
Definition getTrendingProducts (accessToken : string) (limit : nat)
  : Async (list Product) :=
  tryCatch (getTrendingProductsTry accessToken limit)
    (fun error =>
       tryCatch (getTrendingProductsREST accessToken limit)
         (fun restError =>
            (t <- now ;; ret (getMockProducts t limit))%async)).

End Service.

End ProductHuntService.

(* ====================================================================== *)
(** * The request handlers ([src/server.js], [src/test-server.js]) *)
(* ====================================================================== *)

Module Server.

(** What [sendEvent(event, data)] writes: the event kind with its
    payload. *)
Inductive Event : Type :=
| Status (message step : string) (total : option nat)
| Progress (current total : nat) (productName message : string)
| ProductResult (p : AnalyzedProduct)
| ErrorEvent (message : string)
| Complete (s : RunSummary).

(** Bodies given to [res.json]: [{ error: message }];
    [{ success: true, data: { totalProducts, timestamp, products } }];
    and a stored summary as it is. *)
Inductive Body : Type :=
| ErrorBody (error : string)
| QuickBody (total : nat) (time : string) (analyzed : list AnalyzedProduct)
| SummaryBody (s : RunSummary).

(** The effects of a handler, in the order in which it performs them:
    [res.writeHead(code, headers)]; [sendEvent(kind, payload)]; a timer
    awaited by the handler itself; the assignment of
    [latestAnalysisResults]; [res.end()]; and [res.status(code).json(body)]
    ([res.json(body)] has status 200). *)
Inductive Effect : Type :=
| WriteHead (statusCode : nat)
| Send (e : Event)
| Timer (ms : N)
| StoreLatest (s : RunSummary)
| End
| Json (statusCode : nat) (body : Body).

(** The state a handler runs in: the clock, and the module-level variable
    [latestAnalysisResults] ([None] is [null]). *)
Record State : Type := mkState {
  clock : N;
  latestAnalysisResults : option RunSummary
}.

(** A handler computation: from a state, the effects performed, the state
    reached and how the computation ends. *)
Definition Handler (A : Type) : Type := State -> list Effect * State * Outcome A.

Definition hret {A} (a : A) : Handler A := fun s => ([], s, Resolve a).

Definition hbind {A B} (m : Handler A) (k : A -> Handler B) : Handler B :=
  fun s =>
    match m s with
    | (log, s', Resolve a) =>
        let '(log', s'', o) := k a s' in ((log ++ log')%list, s'', o)
    | (log, s', Reject e) => (log, s', Reject e)
    end.

(** [try { m } catch (error) { h error }]: what [m] did before it threw
    stays done. *)
Definition htry {A} (m : Handler A) (h : Error -> Handler A) : Handler A :=
  fun s =>
    match m s with
    | (log, s', Resolve a) => (log, s', Resolve a)
    | (log, s', Reject e) =>
        let '(log', s'', o) := h e s' in ((log ++ log')%list, s'', o)
    end.

(** [try { m } finally { f }]. *)
Definition hfinally {A} (m : Handler A) (f : Handler unit) : Handler A :=
  fun s =>
    let '(log, s', o) := m s in
    match f s' with
    | (log', s'', Resolve _) => ((log ++ log')%list, s'', o)
    | (log', s'', Reject e) => ((log ++ log')%list, s'', Reject e)
    end.

Definition perform (e : Effect) : Handler unit := fun s => ([e], s, Resolve tt).

(** [await m]. *)
Definition await {A} (m : Async A) : Handler A :=
  fun s =>
    let '(t', o) := m (clock s) in
    ([], {| clock := t'; latestAnalysisResults := latestAnalysisResults s |}, o).

(** [await] of a call that always resolves. *)
Definition settle {A} (r : Timed A) : Handler A :=
  await (external {| latency := latency r; answer := Resolve (answer r) |}).

(** [new Date().toISOString()]. *)
Definition isoNow (rt : Runtime) : Handler string :=
  fun s => ([], s, Resolve (toISOString rt (Z.of_N (clock s)))).

(** [sendEvent(event, data)], lines 147-150: two writes on the response,
    which do not throw ([JSON.stringify] is given trees only, and a write
    on a closed connection reports its failure without throwing). *)
Definition sendEvent (e : Event) : Handler unit := perform (Send e).

(** [await new Promise(resolve => setTimeout(resolve, ms))] in a handler. *)
Definition delay (ms : N) : Handler unit :=
  fun s =>
    ([Timer ms],
     {| clock := (clock s + ms)%N; latestAnalysisResults := latestAnalysisResults s |},
     Resolve tt).

(** [latestAnalysisResults = finalData]. *)
Definition storeLatest (r : RunSummary) : Handler unit :=
  fun s =>
    ([StoreLatest r],
     {| clock := clock s; latestAnalysisResults := Some r |},
     Resolve tt).

(** The services a request relies on, at their interface:
    [authService.getStoredToken()], which resolves with the token or
    [null] (lines 1503-1529 of [src/services/productHuntService.js]: every
    failure is caught and turned into [null]);
    [productHuntService.getTrendingProducts(accessToken, limit)]; and
    [chatGPTService.analyzeProduct(product)], whose first argument here is
    the rank of the call within the request. *)
Record Services : Type := mkServices {
  getStoredToken : Timed (option string);
  getTrendingProducts : string -> nat -> Async (list Product);
  analyzeProduct : nat -> Product -> Async JSON
}.

Declare Scope handler_scope.
Delimit Scope handler_scope with handler.
Notation "x <- m ;; k" := (hbind m (fun x => k))
  (at level 61, m at next level, right associativity) : handler_scope.
Notation "m ;; k" := (hbind m (fun _ => k))
  (at level 61, right associativity) : handler_scope.

(** [!accessToken] is false: the token is there and is not empty. *)
Definition presentToken (accessToken : option string) : option string :=
  match accessToken with
  | Some token => if Text.truthy token then Some token else None
  | None => None
  end.

(** The local variables [analyzedProducts], [successCount] and
    [errorCount] of the streaming handler. *)
Record Tally : Type := mkTally {
  analyzedProducts : list AnalyzedProduct;
  successes : nat;
  errors : nat
}.

Definition emptyTally : Tally :=
  {| analyzedProducts := []; successes := 0; errors := 0 |}.

Section Handlers.

Variable rt : Runtime.

(** [true] for the handler of [src/test-server.js] (lines 840-950),
    which assigns [latestAnalysisResults]; [false] for the one of
    [src/server.js] (lines 137-244), the same code without that
    assignment. *)
Variable storesLatest : bool.

Variable services : Services.

(** The [try]/[catch] in the body of the loop, lines 190-220, for the
    product of index [i]. *)
Definition analyzeItem (total i : nat) (p : Product) (tally : Tally)
  : Handler Tally :=
  htry
    (sendEvent (Progress (i + 1) total (name p)
                  ("Analyzing " ++ name p ++ "...")) ;;
     analysis <- await (raceTimeout (analyzeProduct services i p)
                          8000 "Analysis timeout") ;;
     let analyzedProduct := {| product := p; analysis := analysis |} in
     let tally' :=
       {| analyzedProducts := (analyzedProducts tally ++ [analyzedProduct])%list;
          successes := S (successes tally);
          errors := errors tally |} in
     sendEvent (ProductResult analyzedProduct) ;;
     hret tally')%handler
    (fun error =>
       let errorProduct :=
         {| product := p;
            analysis := JObj [("error", JStr (message error))] |} in
       let tally' :=
         {| analyzedProducts := (analyzedProducts tally ++ [errorProduct])%list;
            successes := successes tally;
            errors := S (errors tally) |} in
       (sendEvent (ProductResult errorProduct) ;;
        hret tally')%handler).

(** The loop of lines 187-224 from index [i] on: [rest] holds
    [products[i]], [products[i + 1]], ... *)
Fixpoint analyzeLoop (total i : nat) (rest : list Product) (tally : Tally)
  : Handler Tally :=
  match rest with
  | [] => hret tally
  | p :: rest' =>
      (tally' <- analyzeItem total i p tally ;;
       delay 200 ;;
       analyzeLoop total (S i) rest' tally')%handler
  end.

(** Lines 226-235 (and 938-939 of [src/test-server.js]). *)
Definition finish (tally : Tally) : Handler unit :=
  (time <- isoNow rt ;;
   let finalData :=
     {| totalProducts := length (analyzedProducts tally);
        successCount := successes tally;
        errorCount := errors tally;
        timestamp := time;
        products := analyzedProducts tally |} in
   (if storesLatest then storeLatest finalData else hret tt) ;;
   sendEvent (Complete finalData))%handler.

(** The handler of [GET /api/analyze-stream]: [src/server.js], lines
    137-244.  [return res.end()] inside the [try] is followed by the
    [res.end()] of [finally]. *)
Definition analyzeStream : Handler unit :=
  (perform (WriteHead 200) ;;
   hfinally
     (htry
        (sendEvent (Status "Starting analysis..." "init" None) ;;
         accessToken <- settle (getStoredToken services) ;;
         match presentToken accessToken with
         | None =>
             sendEvent (ErrorEvent
               "Authentication required. Please set up API credentials.") ;;
             perform End
         | Some token =>
             sendEvent (Status "Fetching trending products..." "fetch" None) ;;
             fetched <- await (raceTimeout (getTrendingProducts services token 10)
                                 15000 "Fetch timeout") ;;
             match fetched with
             | [] =>
                 sendEvent (ErrorEvent "No trending products found") ;;
                 perform End
             | _ :: _ =>
                 sendEvent (Status
                   ("Found " ++ Text.ofNat (length fetched)
                    ++ " products. Starting analysis...")
                   "analyze" (Some (length fetched))) ;;
                 tally <- analyzeLoop (length fetched) 0 fetched emptyTally ;;
                 finish tally
             end
         end)
        (fun error => sendEvent (ErrorEvent (message error))))
     (perform End))%handler.

(** The loop of lines 262-265, from rank [i] on. *)
Fixpoint quickLoop (i : nat) (rest : list Product)
         (analyzed : list AnalyzedProduct) : Handler (list AnalyzedProduct) :=
  match rest with
  | [] => hret analyzed
  | p :: rest' =>
      (analysis <- await (analyzeProduct services i p) ;;
       quickLoop (S i) rest'
         (analyzed ++ [{| product := p; analysis := analysis |}])%list)%handler
  end.

(** The handler of [POST /api/quick-analyze]: [src/server.js], lines
    247-278. *)
Definition quickAnalyze : Handler unit :=
  (accessToken <- settle (getStoredToken services) ;;
   match presentToken accessToken with
   | None => perform (Json 401 (ErrorBody "Authentication required"))
   | Some token =>
       htry
         (fetched <- await (getTrendingProducts services token 3) ;;
          match fetched with
          | [] => perform (Json 404 (ErrorBody "No products found"))
          | _ :: _ =>
              analyzed <- quickLoop 0 fetched [] ;;
              time <- isoNow rt ;;
              perform (Json 200 (QuickBody (length analyzed) time analyzed))
          end)
         (fun error => perform (Json 500 (ErrorBody (message error))))
   end)%handler.

(** The handler of [GET /api/latest-results]: [src/test-server.js],
    lines 788-793. *)
Definition latestResults : Handler unit :=
  fun s =>
    match latestAnalysisResults s with
    | None => perform (Json 404 (ErrorBody "No analysis results available")) s
    | Some results => perform (Json 200 (SummaryBody results)) s
    end.

End Handlers.

(** ** Reading a run *)

(** The events of a log, in the order in which they were written. *)
Definition events (log : list Effect) : list Event :=
  flat_map (fun e => match e with Send ev => [ev] | _ => [] end) log.

Definition logOf {A} (r : list Effect * State * Outcome A) : list Effect :=
  fst (fst r).

Definition stateOf {A} (r : list Effect * State * Outcome A) : State :=
  snd (fst r).

Definition isStatus (ev : Event) : bool :=
  match ev with Status _ _ _ => true | _ => false end.
Definition isProgress (ev : Event) : bool :=
  match ev with Progress _ _ _ _ => true | _ => false end.
Definition isProduct (ev : Event) : bool :=
  match ev with ProductResult _ => true | _ => false end.
Definition isError (ev : Event) : bool :=
  match ev with ErrorEvent _ => true | _ => false end.
Definition isComplete (ev : Event) : bool :=
  match ev with Complete _ => true | _ => false end.

(** [progress.current] of the progress events, in order. *)
Definition progressCurrents (evs : list Event) : list nat :=
  flat_map (fun ev => match ev with Progress c _ _ _ => [c] | _ => [] end) evs.

(** The payloads of the product events, in order. *)
Definition productResults (evs : list Event) : list AnalyzedProduct :=
  flat_map (fun ev => match ev with ProductResult p => [p] | _ => [] end) evs.

(** The summaries stored by a log, in order. *)
Definition stores (log : list Effect) : list RunSummary :=
  flat_map (fun e => match e with StoreLatest r => [r] | _ => [] end) log.

(** The summary of the last [complete] event of a log, if there is one. *)
Definition completed (log : list Effect) : option RunSummary :=
  fold_left (fun found e => match e with Send (Complete r) => Some r | _ => found end)
    log None.

Definition isResolved {A} (o : Outcome A) : bool :=
  match o with Resolve _ => true | Reject _ => false end.

Definition isRejected {A} (o : Outcome A) : bool :=
  match o with Resolve _ => false | Reject _ => true end.

(** The analysis that the loop attaches to a product, from the way the
    race for it settled: the value resolved, or [{ error: message }]. *)
Definition attached (o : Outcome JSON) : JSON :=
  match o with
  | Resolve a => a
  | Reject e => JObj [("error", JStr (message e))]
  end.

Definition attach (po : Product * Outcome JSON) : AnalyzedProduct :=
  {| product := fst po; analysis := attached (snd po) |}.

Section Runs.

Variable rt : Runtime.
Variable sv : Services.

(** The race of lines 166-169, for a token. *)
Definition fetchRace (token : string) : Async (list Product) :=
  raceTimeout (getTrendingProducts sv token 10) 15000 "Fetch timeout".

(** The race of lines 198-201, for the product of index [i]. *)
Definition itemRace (i : nat) (p : Product) : Async JSON :=
  raceTimeout (analyzeProduct sv i p) 8000 "Analysis timeout".

(** The instant at which the token lookup of a request that arrived at
    [t0] settles. *)
Definition tokenInstant (t0 : N) : N := (t0 + latency (getStoredToken sv))%N.

(** A request that arrives at [t0] reaches the analysis loop at instant
    [t] with the fetched products [ps]. *)
Definition reachesLoop (t0 t : N) (ps : list Product) : Prop :=
  exists token,
    presentToken (answer (getStoredToken sv)) = Some token
    /\ fetchRace token (tokenInstant t0) = (t, Resolve ps)
    /\ ps <> [].

(** How the races of the loop settle, one product after the other: the
    race for [products[i]] starts at [t], the next one 200 ms after it
    has settled. *)
Fixpoint races (i : nat) (t : N) (rest : list Product)
  : list (Product * Outcome JSON) :=
  match rest with
  | [] => []
  | p :: rest' =>
      let '(t', o) := itemRace i p t in
      (p, o) :: races (S i) (t' + 200)%N rest'
  end.

(** The instant at which the loop is left. *)
Fixpoint loopEnd (i : nat) (t : N) (rest : list Product) : N :=
  match rest with
  | [] => t
  | p :: rest' =>
      let '(t', _) := itemRace i p t in
      loopEnd (S i) (t' + 200)%N rest'
  end.

(** The summary assembled by a run that reaches the loop at [t] with
    [ps]. *)
Definition summaryOf (t : N) (ps : list Product) : RunSummary :=
  let outcomes := races 0 t ps in
  {| totalProducts := length (map attach outcomes);
     successCount := length (filter (fun po => isResolved (snd po)) outcomes);
     errorCount := length (filter (fun po => isRejected (snd po)) outcomes);
     timestamp := toISOString rt (Z.of_N (loopEnd 0 t ps));
     products := map attach outcomes |}.

(** What the loop writes for one product. *)
Definition itemLog (total i : nat) (po : Product * Outcome JSON) : list Effect :=
  [ Send (Progress (i + 1) total (name (fst po))
            ("Analyzing " ++ name (fst po) ++ "..."));
    Send (ProductResult (attach po));
    Timer 200 ].

Fixpoint loopLog (total i : nat) (outcomes : list (Product * Outcome JSON))
  : list Effect :=
  match outcomes with
  | [] => []
  | po :: rest => (itemLog total i po ++ loopLog total (S i) rest)%list
  end.

(** The local variables of the handler after the races [outcomes]. *)
Definition tallyWith (tally : Tally) (outcomes : list (Product * Outcome JSON))
  : Tally :=
  {| analyzedProducts := (analyzedProducts tally ++ map attach outcomes)%list;
     successes :=
       successes tally + length (filter (fun po => isResolved (snd po)) outcomes);
     errors :=
       errors tally + length (filter (fun po => isRejected (snd po)) outcomes) |}.

(** The three [status] events and the head that open a run which
    fetches [n] products. *)
Definition openingLog (n : nat) : list Effect :=
  [ WriteHead 200;
    Send (Status "Starting analysis..." "init" None);
    Send (Status "Fetching trending products..." "fetch" None);
    Send (Status ("Found " ++ Text.ofNat n ++ " products. Starting analysis...")
            "analyze" (Some n)) ].

(** The log of a run that reaches the loop at [t] with [ps];
    [storesLatest] tells the two variants of the handler apart. *)
Definition completedLog (storesLatest : bool) (t : N) (ps : list Product)
  : list Effect :=
  (openingLog (length ps)
   ++ loopLog (length ps) 0 (races 0 t ps)
   ++ (if storesLatest then [StoreLatest (summaryOf t ps)] else [])
   ++ [ Send (Complete (summaryOf t ps)); End ])%list.

(** The analyses of the bounded endpoint after the specification: "the
    same fetch-then-sequential-analyze logic but with no event emission
    and no per-step timeout racing".  The call for [products[i]] is
    awaited, however long it takes, before the next one is made. *)
Fixpoint awaitAll (i : nat) (rest : list Product) : Async (list AnalyzedProduct) :=
  match rest with
  | [] => ret []
  | p :: rest' =>
      (a <- analyzeProduct sv i p ;;
       others <- awaitAll (S i) rest' ;;
       ret ({| product := p; analysis := a |} :: others))%async
  end.

End Runs.

(** ** The event sequence of the analysis phase, after the specification

    "For each item, in original fetch order: emit a [progress] event
    [{current: 1-based index, total, itemName}]; ...; emit a [product]
    event carrying the resulting AnalyzedItem." *)

Definition expectedItemEvents (total current : nat) (item : AnalyzedProduct)
  : list Event :=
  [ Progress current total (name (product item))
      ("Analyzing " ++ name (product item) ++ "...");
    ProductResult item ].

Fixpoint expectedEventsFrom (total current : nat) (items : list AnalyzedProduct)
  : list Event :=
  match items with
  | [] => []
  | item :: rest =>
      (expectedItemEvents total current item
       ++ expectedEventsFrom total (S current) rest)%list
  end.

Definition expectedAnalysisEvents (items : list AnalyzedProduct) : list Event :=
  expectedEventsFrom (length items) 1 items.


(** The slot after a run whose log is [log], from the value [found]
    before it. *)
Definition afterRun (found : option RunSummary) (log : list Effect)
  : option RunSummary :=
  match completed log with
  | Some r => Some r
  | None => found
  end.

(** What the read-latest accessor answers when the slot holds [found]. *)
Definition latestAnswer (found : option RunSummary) : Effect :=
  match found with
  | Some r => Json 200 (SummaryBody r)
  | None => Json 404 (ErrorBody "No analysis results available")
  end.

(** The value of the slot after the requests whose logs are given,
    oldest first: the summary of the most recent run that completed. *)
Definition mostRecentCompleted (logs : list (list Effect)) : option RunSummary :=
  fold_left afterRun logs None.

Definition isTimer (e : Effect) : bool :=
  match e with Timer _ => true | _ => false end.

End Server.

(* ====================================================================== *)
(** * The process: services wired to the outside world, requests in turn *)
(* ====================================================================== *)

Module App.

Import Server.

(** The outside world during one request: the answers of the token store,
    of the Product Hunt endpoints and of the OpenAI endpoint (to the
    [attempt]-th call made for the [rank]-th product), the random draws,
    and whether an OpenAI client was configured. *)
Record World : Type := mkWorld {
  storedToken : Timed (option string);
  graphqlPost : nat -> Timed (Outcome ProductHuntService.GraphQLBody);
  restGet : Timed (Outcome ProductHuntService.RestBody);
  mathRandom : nat -> N;
  openai : bool;
  chatCompletion : nat -> nat -> Timed (Outcome ChatGPTService.Completion)
}.

(** The singletons required at the top of [src/server.js], around a
    listing source: the token store, and [analyzeProduct(product)] called
    with its default [retryCount = 0]. *)
Definition wiredWith (rt : Runtime) (w : World)
           (source : string -> nat -> Async (list Product)) : Services :=
  {| getStoredToken := storedToken w;
     getTrendingProducts := source;
     analyzeProduct := fun rank p =>
       ChatGPTService.analyzeProduct rt (openai w) (chatCompletion w rank) p 0 |}.

(** The program with the listing source modelled above, the version of
    [getTrendingProducts] that falls back to the REST endpoint and to the
    mock products.  (The file also holds an earlier version, lines 139-167,
    whose [catch] throws a new error.) *)
Definition wired (rt : Runtime) (w : World) : Services :=
  wiredWith rt w
    (ProductHuntService.getTrendingProducts rt (graphqlPost w) (restGet w) (mathRandom w)).

Inductive Route : Type :=
| GetAnalyzeStream
| PostQuickAnalyze
| GetLatestResults.

(** A request: when it arrives, its route, and the services as they
    behave while it is handled. *)
Record Request : Type := mkRequest {
  arrival : N;
  route : Route;
  services : Services
}.

Section Process.

Variable rt : Runtime.
Variable storesLatest : bool.

Definition handler (req : Request) : Handler unit :=
  match route req with
  | GetAnalyzeStream => analyzeStream rt storesLatest (services req)
  | PostQuickAnalyze => quickAnalyze rt (services req)
  | GetLatestResults => latestResults
  end.

(** One request handled to its end, from the value of
    [latestAnalysisResults] it finds: its effects and the value it
    leaves. *)
Definition serve (req : Request) (latest : option RunSummary)
  : list Effect * option RunSummary :=
  let '(log, s, _) :=
    handler req {| clock := arrival req; latestAnalysisResults := latest |} in
  (log, latestAnalysisResults s).

(** Requests handled one after the other, each to its end. *)
Fixpoint serveAll (reqs : list Request) (latest : option RunSummary)
  : list (list Effect) * option RunSummary :=
  match reqs with
  | [] => ([], latest)
  | req :: rest =>
      let '(log, latest') := serve req latest in
      let '(logs, final) := serveAll rest latest' in
      (log :: logs, final)
  end.

End Process.

End App.

(* ====================================================================== *)
(** * Concrete runs *)
(* ====================================================================== *)

Module Examples.

Import Server App.

(** A runtime that prints dates as numbers of milliseconds and parses
    the empty object only. *)
Definition runtime : Runtime :=
  {| JSON_parse := fun text => if String.eqb text "{}" then Some (JObj []) else None;
     toISOString := Text.ofZ;
     Date_parse := fun _ => None;
     localMidnight := fun ms => ms;
     cannotSetMetadata := fun _ => "Cannot create property 'metadata'";
     cannotReadMessage := "Cannot read properties of undefined (reading 'message')" |}.

Definition item (ident : string) : Product :=
  {| id := ident;
     name := "Item " ++ ident;
     tagline := "";
     description := "";
     url := "";
     website := "";
     votesCount := Some 42%Z;
     commentsCount := Some 0%Z;
     createdAt := "0";
     featuredAt := None;
     thumbnail := None;
     makers := [];
     topics := [];
     productLinks := [];
     user := None;
     fetchedAt := "0" |}.

Definition fine : JSON := JObj [("summary", JStr "fine")].

(** Services that answer as told: the token after 5 ms, the fetch and
    the analysis of the [i]-th product as given. *)
Definition stub (token : option string)
           (fetch : Timed (Outcome (list Product)))
           (analyze : nat -> Timed (Outcome JSON)) : Services :=
  {| getStoredToken := mkTimed 5 token;
     getTrendingProducts := fun _ _ => external fetch;
     analyzeProduct := fun i _ => external (analyze i) |}.

Definition quick (a : JSON) : Timed (Outcome JSON) := mkTimed 50 (Resolve a).

(** No credential. *)
Definition withoutToken : Services :=
  stub None (mkTimed 100 (Resolve [item "A"])) (fun _ => quick fine).

(** One product, analysed. *)
Definition oneItem : Services :=
  stub (Some "token") (mkTimed 100 (Resolve [item "A"])) (fun _ => quick fine).

(** Three products, all analysed. *)
Definition threeItems : Services :=
  stub (Some "token") (mkTimed 100 (Resolve [item "A"; item "B"; item "C"]))
    (fun _ => quick fine).

(** Two products; the analysis of the second is rejected. *)
Definition secondRaises : Services :=
  stub (Some "token") (mkTimed 100 (Resolve [item "A"; item "B"]))
    (fun i => if Nat.eqb i 1 then mkTimed 50 (Reject (newError "quota exceeded"))
              else quick fine).

(** Two products; the analysis of the second is rejected with an error
    whose message is empty. *)
Definition secondRaisesSilently : Services :=
  stub (Some "token") (mkTimed 100 (Resolve [item "A"; item "B"]))
    (fun i => if Nat.eqb i 1 then mkTimed 50 (Reject (newError ""))
              else quick fine).

(** Two products; the analysis of the second takes 20 seconds. *)
Definition secondSlow : Services :=
  stub (Some "token") (mkTimed 100 (Resolve [item "A"; item "B"]))
    (fun i => if Nat.eqb i 1 then mkTimed 20000 (Resolve fine) else quick fine).

(** The fetch takes 20 seconds, is rejected, or finds nothing. *)
Definition slowFetch : Services :=
  stub (Some "token") (mkTimed 20000 (Resolve [item "A"])) (fun _ => quick fine).

Definition failingFetch : Services :=
  stub (Some "token") (mkTimed 100 (Reject (newError "socket hang up")))
    (fun _ => quick fine).

Definition emptyFetch : Services :=
  stub (Some "token") (mkTimed 100 (Resolve [])) (fun _ => quick fine).

(** A world in which both Product Hunt endpoints fail and no OpenAI
    client is configured: mock products, rule-based analyses. *)
Definition offline : World :=
  {| storedToken := mkTimed 5 (Some "token");
     graphqlPost := fun _ => mkTimed 100 (Reject (newError "getaddrinfo ENOTFOUND"));
     restGet := mkTimed 100 (Reject (newError "getaddrinfo ENOTFOUND"));
     mathRandom := fun k => N.of_nat k;
     openai := false;
     chatCompletion := fun _ _ => mkTimed 0 (Reject (newError "not configured")) |}.

Definition rateLimited : Error :=
  {| message := "429 Too Many Requests"; status := Some 429%N; code := None |}.

(** The same, with an OpenAI client: the calls for the second product
    take 9 seconds, the others answer an empty object at once. *)
Definition stalling : World :=
  {| storedToken := mkTimed 5 (Some "token");
     graphqlPost := fun _ => mkTimed 100 (Reject (newError "getaddrinfo ENOTFOUND"));
     restGet := mkTimed 100 (Reject (newError "getaddrinfo ENOTFOUND"));
     mathRandom := fun k => N.of_nat k;
     openai := true;
     chatCompletion := fun rank _ =>
       if Nat.eqb rank 1
       then mkTimed 9000 (Reject rateLimited)
       else mkTimed 10 (Resolve {| ChatGPTService.choices :=
                                     [{| ChatGPTService.content := Some "{}" |}];
                                   ChatGPTService.total_tokens := Some 12%Z |}) |}.

(** A world in which every OpenAI call is refused for rate limiting
    after 100 ms. *)
Definition throttled : World :=
  {| storedToken := mkTimed 5 (Some "token");
     graphqlPost := fun _ => mkTimed 100 (Reject (newError "getaddrinfo ENOTFOUND"));
     restGet := mkTimed 100 (Reject (newError "getaddrinfo ENOTFOUND"));
     mathRandom := fun k => N.of_nat k;
     openai := true;
     chatCompletion := fun _ _ => mkTimed 100 (Reject rateLimited) |}.

(** A post with a name and a number of votes. *)
Definition post (ident : string) (votes : option Z) : ProductHuntService.Post :=
  {| ProductHuntService.post_id := ident;
     ProductHuntService.post_name := ident;
     ProductHuntService.post_tagline := "";
     ProductHuntService.post_description := "";
     ProductHuntService.post_url := "";
     ProductHuntService.post_website := "";
     ProductHuntService.post_votesCount := votes;
     ProductHuntService.post_commentsCount := None;
     ProductHuntService.post_createdAt := "";
     ProductHuntService.post_featuredAt := None;
     ProductHuntService.post_thumbnail := None;
     ProductHuntService.post_makers := None;
     ProductHuntService.post_topics :=
       Some [{| ProductHuntService.node_id := None;
                ProductHuntService.node_name := "Developer  Tools";
                ProductHuntService.node_slug := None |}];
     ProductHuntService.post_productLinks := None;
     ProductHuntService.post_user := None |}.

(** A world in which the GraphQL endpoint answers three posts, none of
    them launched today. *)
Definition online : World :=
  {| storedToken := mkTimed 5 (Some "token");
     graphqlPost := fun _ =>
       mkTimed 100 (Resolve {| ProductHuntService.gql_errors := None;
                               ProductHuntService.gql_posts :=
                                 Some [post "low" (Some 3%Z); post "none" None;
                                       post "high" (Some 900%Z)] |});
     restGet := mkTimed 100 (Reject (newError "unused"));
     mathRandom := fun k => N.of_nat k;
     openai := false;
     chatCompletion := fun _ _ => mkTimed 0 (Reject (newError "not configured")) |}.

(** The accessor, a completed run, the accessor, an aborted run, the
    accessor. *)
Definition exampleRequests : list Request :=
  [ mkRequest 0 GetLatestResults withoutToken;
    mkRequest 10 GetAnalyzeStream threeItems;
    mkRequest 2000 GetLatestResults withoutToken;
    mkRequest 3000 GetAnalyzeStream withoutToken;
    mkRequest 4000 GetLatestResults withoutToken ].

Definition start (t0 : N) : State :=
  {| clock := t0; latestAnalysisResults := None |}.

End Examples.

(* ====================================================================== *)
(** * Vocabulary for the properties of the services *)
(* ====================================================================== *)

Module Reading.

Import ProductHuntService.

(** The votes a post is sorted by: [post.votesCount || 0]. *)
Definition votesOf (post : Post) : Z := orZero (post_votesCount post).

(** An event that ends a run: [error] or [complete]. *)
Definition isTerminal (ev : Server.Event) : bool :=
  Server.isError ev || Server.isComplete ev.

End Reading.

(* ====================================================================== *)
(** * AuthService ([src/services/productHuntService.js], 1339-1600) *)
(* ====================================================================== *)

Module AuthService.

(** The environment variables read by the constructor; [None] is
    [undefined]. *)
Record Env : Type := mkEnv {
  PH_DEVELOPER_TOKEN : option string;
  PH_CLIENT_ID : option string;
  PH_CLIENT_SECRET : option string
}.

(** [this.developerToken], and whether [this.client] is an OAuth client
    ([true]) or [null] ([false]). *)
Record Service : Type := mkService {
  developerToken : option string;
  client : bool
}.

(** [process.env.X && process.env.X !== placeholder]. *)
Definition configured (value : option string) (placeholder : string) : bool :=
  match value with
  | Some s => Text.truthy s && negb (String.eqb s placeholder)
  | None => false
  end.

(** The constructor, lines 1345-1375. *)
Definition constructor (env : Env) : Service :=
  if configured (PH_DEVELOPER_TOKEN env) "your_developer_token" then
    {| developerToken := PH_DEVELOPER_TOKEN env; client := false |}
  else if configured (PH_CLIENT_ID env) "your_product_hunt_client_id"
          && configured (PH_CLIENT_SECRET env) "your_product_hunt_client_secret" then
    {| developerToken := None; client := true |}
  else
    {| developerToken := None; client := false |}.

(** A value in a boolean position; [None] is [undefined]. *)
Definition truthyValue (v : option JSON) : bool :=
  match v with
  | None => false
  | Some JNull => false
  | Some (JBool b) => b
  | Some (JNum z) => negb (z =? 0)%Z
  | Some (JStr s) => Text.truthy s
  | Some (JArr _) => true
  | Some (JObj _) => true
  end.

(** [v.k] on a parsed value, for the keys read here ([access_token],
    [expires_at]): [null] has no properties and reading one throws a
    [TypeError]; only an object has these keys. *)
Definition prop (k : string) (v : JSON) : Async (option JSON) :=
  match v with
  | JNull => throw (newError ("Cannot read properties of null (reading '" ++ k ++ "')"))
  | JObj fields => ret (getField k fields)
  | _ => ret None
  end.

(** What a handler of the service answers. *)
Inductive Reply : Type :=
| ReplyJson (status : N) (body : list (string * JSON))
| Redirect (url : string).

(** A value of [req.query]: a text, or the array or the object that the
    query parser builds for a repeated or a bracketed key.  What an array
    or an object holds is never read by the handler. *)
Inductive QueryValue : Type :=
| QText (text : string)
| QArray
| QObject.

(** Truthiness of [req.query.k]: a missing key and the empty text are
    falsy, every array and object is truthy. *)
Definition truthyQuery (v : option QueryValue) : bool :=
  match v with
  | Some (QText s) => Text.truthy s
  | Some (QArray | QObject) => true
  | None => false
  end.

(** [state: 'internal-setup-' + Date.now()], line 1420. *)
Definition setupState (t : N) : string := "internal-setup-" ++ Text.ofZ (Z.of_N t).

Section Service.

Variable rt : Runtime.

(** [new Date(v).getTime()] for a parsed value; [None] for an invalid
    date. *)
Variable dateOf : JSON -> option Z.

Variable self : Service.

(** How [fs.readFile(this.tokenFile, 'utf8')] settles. *)
Variable readFile : Timed (Outcome string).

(** [this.client.createToken({...}).expired()]: the answer of the OAuth
    library, or what it throws. *)
Variable expired : Outcome bool.

(** How [accessToken.refresh()] and [this.client.getToken(tokenParams)]
    settle: the [token] object of the access token they resolve with.  An
    access token without [token] object makes [storeToken] throw a
    [TypeError] inside its [try]; it is an answer [Reject] here. *)
Variable refresh : Timed (Outcome (list (string * JSON))).
Variable getToken : Timed (Outcome (list (string * JSON))).

(** How [fs.access(dataDir)], [fs.mkdir(dataDir, ...)] and
    [fs.writeFile(this.tokenFile, ...)] settle. *)
Variable access : Timed (Outcome unit).
Variable mkdir : Timed (Outcome unit).
Variable writeFile : Timed (Outcome unit).

(** [storeToken(accessToken)], lines 1475-1500; what is written does not
    come back to the caller. *)
Definition storeToken (token : list (string * JSON)) : Async unit :=
  tryCatch
    (tryCatch (external access) (fun error => external mkdir) ;;
     external writeFile)%async
    (fun error => throw error).

(** [refreshToken(tokenData)], lines 1532-1555; [null] is [Some JNull]. *)
Definition refreshToken (tokenData : JSON) : Async (option JSON) :=
  tryCatch
    (if negb (client self) then ret (Some JNull)
     else
       match expired with
       | Reject error => throw error
       | Resolve true =>
           (refreshedToken <- external refresh ;;
            storeToken refreshedToken ;;
            ret (getField "access_token" refreshedToken))%async
       | Resolve false => prop "access_token" tokenData
       end)
    (fun error => ret (Some JNull)).

(** [token.expires_at && new Date(token.expires_at) <= new Date()]. *)
Definition isExpired (expires_at : option JSON) (t : N) : bool :=
  truthyValue expires_at
  && match expires_at with
     | Some v =>
         match dateOf v with
         | Some ms => (ms <=? Z.of_N t)%Z
         | None => false
         end
     | None => false
     end.

(** The [try] block of [getStoredToken] with its [catch], lines
    1510-1528.  The message of the [SyntaxError] is not read. *)
Definition readStoredToken : Async (option JSON) :=
  tryCatch
    (tokenData <- external readFile ;;
     token <- match JSON_parse rt tokenData with
              | Some v => ret v
              | None => throw (newError "Unexpected token in JSON")
              end ;;
     expires_at <- prop "expires_at" token ;;
     t <- now ;;
     if isExpired expires_at t then refreshToken token
     else prop "access_token" token)%async
    (fun error => ret (Some JNull)).

(** [getStoredToken()], lines 1503-1529. *)
Definition getStoredToken : Async (option JSON) :=
  match developerToken self with
  | Some token =>
      if Text.truthy token then ret (Some (JStr token)) else readStoredToken
  | None => readStoredToken
  end.

(** [isAuthenticated()], lines 1558-1561. *)
Definition isAuthenticated : Async bool :=
  (token <- getStoredToken ;; ret (truthyValue token))%async.

(** [initiateAuth], lines 1408-1429: [authorizeURL] is the library's; it
    is given the state, and may throw. *)
Definition initiateAuth (authorizeURL : string -> Outcome string) : Async Reply :=
  tryCatch
    (if negb (client self) then
       ret (ReplyJson 500 [ ("error", JStr "Product Hunt OAuth not configured.");
                            ("configured", JBool false) ])
     else
       t <- now ;;
       match authorizeURL (setupState t) with
       | Resolve authorizationUri => ret (Redirect authorizationUri)
       | Reject error => throw error
       end)%async
    (fun error => ret (ReplyJson 500 [("error", JStr "Failed to initiate OAuth setup")])).

(** [!state || !state.startsWith('internal-setup-')], line 1441: a
    missing or empty state is refused without the call; the call throws
    on an array or an object, which has no such method. *)
Definition stateRefused (state : option QueryValue) : Async bool :=
  if negb (truthyQuery state) then ret true
  else match state with
       | Some (QText s) => ret (negb (String.prefix "internal-setup-" s))
       | Some (QArray | QObject) =>
           throw (newError "state.startsWith is not a function")
       | None => ret true
       end.

(** [handleCallback], lines 1432-1472: [code] and [state] are the two
    values that line 1434 takes from [req.query]. *)
Definition handleCallback (code state : option QueryValue) : Async Reply :=
  tryCatch
    (if negb (truthyQuery code) then
       ret (ReplyJson 400 [("error", JStr "Authorization code not provided")])
     else
       refused <- stateRefused state ;;
       if refused then
         ret (ReplyJson 403 [("error", JStr "Unauthorized access attempt")])
       else
         accessToken <-
           (if client self then external getToken
            else throw (newError "Cannot read properties of null (reading 'getToken')")) ;;
         storeToken accessToken ;;
         ret (Redirect "/?setup=complete"))%async
    (fun error =>
       ret (ReplyJson 500 [ ("error", JStr "Internal authentication failed");
                            ("message", JStr (message error)) ])).

End Service.

End AuthService.

(* ====================================================================== *)
(** * ChatGPTService, batches ([src/services/productHuntService.js], 1251-1284) *)
(* ====================================================================== *)

Module ChatGPTBatch.

(** [await Promise.allSettled(promises)] for operations started together
    at an instant: it never rejects, and resolves when the last of them
    has settled. *)
Definition allSettled {A} (promises : list (Async A)) (t : N)
  : N * list (Outcome A) :=
  let settled := map (fun promise => promise t) promises in
  (fold_right N.max t (map fst settled), map snd settled).

Section Service.

Variable rt : Runtime.

(** [this.analyzeProduct(product)] for the product at a position of
    [products]. *)
Variable analyzeProduct : nat -> Product -> Async JSON.

(** What is pushed to [results] for one settled analysis, lines
    1262-1274, at instant [t]. *)
Definition settledResult (t : N) (p : Product) (result : Outcome JSON) : JSON :=
  match result with
  | Resolve value => value
  | Reject reason =>
      JObj [ ("error", JStr (message reason));
             ("productId", JStr (id p));
             ("productName", JStr (name p));
             ("analyzedAt", JStr (toISOString rt (Z.of_N t))) ]
  end.

Variable products : list Product.
Variable batchSize : nat.
Variable delayBetweenBatches : N.

(** The [for] loop of lines 1254-1281 from index [i]: [None] when it has
    not ended after [fuel] rounds. *)
Fixpoint batchLoop (fuel : nat) (i : nat) (results : list JSON) (t : N)
  : option (N * list JSON) :=
  if (i <? length products)%nat then
    match fuel with
    | O => None
    | S fuel' =>
        let batch := firstn batchSize (skipn i products) in
        let batchPromises :=
          map (fun kp => analyzeProduct (fst kp) (snd kp))
              (combine (seq i (length batch)) batch) in
        let '(t1, batchResults) := allSettled batchPromises t in
        let results' :=
          (results
           ++ map (fun pr => settledResult t1 (fst pr) (snd pr))
                  (combine batch batchResults))%list in
        if (i + batchSize <? length products)%nat
        then batchLoop fuel' (i + batchSize) results' (t1 + delayBetweenBatches)%N
        else batchLoop fuel' (i + batchSize) results' t1
    end
  else Some (t, results).

(** [analyzeProductsBatch(products, batchSize, delayBetweenBatches)]. *)
Definition analyzeProductsBatch (fuel : nat) (t : N) : option (N * list JSON) :=
  batchLoop fuel 0 [] t.

End Service.

End ChatGPTBatch.

(* ====================================================================== *)
(** * DataService ([src/services/productHuntService.js], 752-1074) *)
(* ====================================================================== *)

Module DataService.

(** [s.endsWith(suffix)]: some tail of [s] is [suffix]. *)
Fixpoint endsWith (suffix s : string) : bool :=
  if String.eqb s suffix then true
  else match s with
       | EmptyString => false
       | String _ rest => endsWith suffix rest
       end.

(** [s.replace(/[:.]/g, '-')]. *)
Fixpoint dashColonsAndDots (s : string) : string :=
  match s with
  | EmptyString => EmptyString
  | String c rest =>
      String (if Ascii.eqb c ":" || Ascii.eqb c "." then "-"%char else c)
             (dashColonsAndDots rest)
  end.

(** [generateFilename(prefix)], lines 775-778, at instant [t]. *)
Definition generateFilename (rt : Runtime) (prefix : string) (t : N) : string :=
  let timestamp := dashColonsAndDots (toISOString rt (Z.of_N t)) in
  prefix ++ "_" ++ timestamp ++ ".json".

(** The filter of [getStoredData], line 874. *)
Definition listed (file : string) : bool :=
  endsWith ".json" file && negb (String.eqb file "access_token.json").

(** The filter of [cleanupOldFiles], line 1037. *)
Definition candidate (file : string) : bool :=
  endsWith ".json" file && negb (String.eqb file "access_token.json")
  && negb (String.eqb file "latest.json").

(** The security check of [getDataByFilename], line 927. *)
Definition refused (filename : string) : bool :=
  Text.includes ".." filename || Text.includes "/" filename
  || Text.includes "\" filename.

(** The calls made to the file system. *)
Inductive FsCall : Type :=
| Readdir
| Stat (path : string)
| Access (path : string)
| ReadFile (path : string)
| Unlink (path : string).

(** A computation on the file system: started at an instant, it makes
    calls, in order, and settles. *)
Definition FS (A : Type) : Type := N -> list FsCall * (N * Outcome A).

Definition fret {A} (a : A) : FS A := fun t => ([], (t, Resolve a)).

Definition fthrow {A} (e : Error) : FS A := fun t => ([], (t, Reject e)).

Definition fbind {A B} (m : FS A) (k : A -> FS B) : FS B :=
  fun t =>
    match m t with
    | (calls, (t', Resolve a)) =>
        let '(calls', r) := k a t' in ((calls ++ calls')%list, r)
    | (calls, (t', Reject e)) => (calls, (t', Reject e))
    end.

Definition ftry {A} (m : FS A) (h : Error -> FS A) : FS A :=
  fun t =>
    match m t with
    | (calls, (t', Resolve a)) => (calls, (t', Resolve a))
    | (calls, (t', Reject e)) =>
        let '(calls', r) := h e t' in ((calls ++ calls')%list, r)
    end.

(** Awaiting one call. *)
Definition call {A} (c : FsCall) (r : Timed (Outcome A)) : FS A :=
  fun t => ([c], ((t + latency r)%N, answer r)).

(** The rejection that settles first among operations started together;
    the earlier in the list when two settle at the same instant. *)
Fixpoint firstRejection {A} (settled : list (N * Outcome A)) : option (N * Error) :=
  match settled with
  | [] => None
  | (t, Reject e) :: rest =>
      match firstRejection rest with
      | Some (t', e') => if (t' <? t)%N then Some (t', e') else Some (t, e)
      | None => Some (t, e)
      end
  | (_, Resolve _) :: rest => firstRejection rest
  end.

Definition resolved {A} (settled : list (N * Outcome A)) : list A :=
  flat_map (fun r => match snd r with Resolve a => [a] | Reject _ => [] end) settled.

(** [await Promise.all(operations)] for operations started together: it
    rejects with the first rejection, and else resolves when the last
    operation has. *)
Definition all {A} (operations : list (FS A)) : FS (list A) :=
  fun t =>
    let runs := map (fun operation => operation t) operations in
    let calls := concat (map fst runs) in
    let settled := map snd runs in
    match firstRejection settled with
    | Some (t', e) => (calls, (t', Reject e))
    | None => (calls, (fold_right N.max t (map fst settled), Resolve (resolved settled)))
    end.

Record StoredFile : Type := mkStoredFile {
  filename : string;
  path : string;
  created : Z
}.

(** [filesWithStats.sort((a, b) => b.created - a.created)]: a stable
    sort, newest first. *)
Fixpoint insertByCreated (x : StoredFile) (sorted : list StoredFile)
  : list StoredFile :=
  match sorted with
  | [] => [x]
  | y :: rest =>
      if (created y <=? created x)%Z then x :: y :: rest
      else y :: insertByCreated x rest
  end.

Definition sortByCreated (files : list StoredFile) : list StoredFile :=
  fold_right insertByCreated [] files.

Record CleanupResult : Type := mkCleanupResult {
  success : bool;
  deletedCount : nat;
  remainingCount : nat
}.

(** What [getDataByFilename] answers: [res.status(status).json(body)]. *)
Record Reply : Type := mkReply {
  status : N;
  body : list (string * JSON)
}.

Declare Scope fs_scope.
Delimit Scope fs_scope with fs.
Notation "x <- m ;; k" := (fbind m (fun x => k))
  (at level 61, m at next level, right associativity) : fs_scope.
Notation "m ;; k" := (fbind m (fun _ => k))
  (at level 61, right associativity) : fs_scope.

Section Service.

Variable rt : Runtime.

(** [path.join(this.dataDir, filename)]. *)
Variable join : string -> string.

(** How the calls settle: [fs.readdir(this.dataDir)], and for a path
    [fs.stat] (with [stats.birthtime] in milliseconds), [fs.access],
    [fs.readFile] and [fs.unlink]. *)
Variable readdir : Timed (Outcome (list string)).
Variable stat : string -> Timed (Outcome Z).
Variable access : string -> Timed (Outcome unit).
Variable readFile : string -> Timed (Outcome string).
Variable unlink : string -> Timed (Outcome unit).

(** The message of the [SyntaxError] that [JSON.parse] throws on a text. *)
Variable syntaxError : string -> string.

(** The loop of lines 1056-1059. *)
Fixpoint unlinkAll (filesToDelete : list StoredFile) : FS unit :=
  match filesToDelete with
  | [] => fret tt
  | file :: rest =>
      (call (Unlink (path file)) (unlink (path file)) ;;
       unlinkAll rest)%fs
  end.

(** The operation mapped over [jsonFiles], lines 1045-1048, for a file
    given by its name and path. *)
Definition statOperation (file : string * string) : FS StoredFile :=
  (birthtime <- call (Stat (snd file)) (stat (snd file)) ;;
   fret {| filename := fst file; path := snd file; created := birthtime |})%fs.

(** [cleanupOldFiles(keepCount)], lines 1033-1071. *)
Definition cleanupOldFiles (keepCount : nat) : FS CleanupResult :=
  ftry
    (files <- call Readdir readdir ;;
     let jsonFiles :=
       map (fun name => (name, join name)) (filter candidate files) in
     filesWithStats <- all (map statOperation jsonFiles) ;;
     let sorted := sortByCreated filesWithStats in
     let filesToDelete := skipn keepCount sorted in
     unlinkAll filesToDelete ;;
     fret {| success := true;
             deletedCount := length filesToDelete;
             remainingCount := length filesWithStats - length filesToDelete |})%fs
    (fun error => fthrow error).

(** [getDataByFilename(req, res)], lines 922-955, for
    [req.params.filename]. *)
Definition getDataByFilename (name : string) : FS Reply :=
  ftry
    (if refused name then
       fret {| status := 400; body := [("error", JStr "Invalid filename")] |}
     else
       let filepath := join name in
       found <- ftry (call (Access filepath) (access filepath) ;; fret true)%fs
                     (fun error => fret false) ;;
       if negb found then
         fret {| status := 404; body := [("error", JStr "File not found")] |}
       else
         content <- call (ReadFile filepath) (readFile filepath) ;;
         match JSON_parse rt content with
         | None => fthrow (newError (syntaxError content))
         | Some data =>
             fret {| status := 200;
                     body := [ ("success", JBool true);
                               ("filename", JStr name);
                               ("data", data) ] |}
         end)%fs
    (fun error =>
       fret {| status := 500;
               body := [ ("error", JStr "Failed to read file");
                         ("message", JStr (message error)) ] |}).

End Service.

End DataService.

(* ====================================================================== *)
(** * ErrorHandler ([src/middleware/errorHandler.js]) *)
(* ====================================================================== *)

Module ErrorHandler.

(** [error.response], of the errors of HTTP clients. *)
Record Response : Type := mkResponse {
  response_status : N;
  statusText : option string
}.

(** An error as the middleware reads it; [None] is [undefined], and
    [details] is an object when it is there. *)
Record Thrown : Type := mkThrown {
  name : string;
  message : string;
  stack : option string;
  code : option string;
  details : option (list (string * JSON));
  response : option Response
}.

(** What the middleware answers: [res.status(status).json(body)]. *)
Record Reply : Type := mkReply {
  status : N;
  body : list (string * JSON)
}.

(** [delete o.k], which is what a key set to [undefined] amounts to
    once the body is serialised. *)
Fixpoint removeField (k : string) (fields : list (string * JSON))
  : list (string * JSON) :=
  match fields with
  | [] => []
  | (k', v) :: rest =>
      if String.eqb k k' then removeField k rest else (k', v) :: removeField k rest
  end.

(** [{ ...base, ...details }] written as the literal of lines 54-61: a
    key of [details] replaces the value of the same key of [base], and a
    new key comes after.  (Keys that are array indices would be listed
    first by the engine; the body is read by key.) *)
Definition spread (base details : list (string * JSON)) : list (string * JSON) :=
  fold_left (fun acc kv => setField (fst kv) (snd kv) acc) details base.

(** [handle404(req, res, next)], lines 65-69: the error passed to
    [next]; [trace] is the stack that [new Error] captured. *)
Definition handle404 (originalUrl : string) (trace : string) : Thrown :=
  {| name := "NotFoundError";
     message := "Route " ++ originalUrl ++ " not found";
     stack := Some trace;
     code := None;
     details := None;
     response := None |}.

(** [createValidationError(message, details)], lines 79-84. *)
Definition createValidationError (msg : string) (details : list (string * JSON))
           (trace : string) : Thrown :=
  {| name := "ValidationError";
     message := msg;
     stack := Some trace;
     code := None;
     details := Some details;
     response := None |}.

Section Handler.

Variable rt : Runtime.

(** [process.env.NODE_ENV]. *)
Variable NODE_ENV : option string.

Definition production : bool :=
  match NODE_ENV with
  | Some env => String.eqb env "production"
  | None => false
  end.

(** The [if] chain of lines 21-44: status code, message and details. *)
Definition classify (error : Thrown) : N * string * list (string * JSON) :=
  if String.eqb (name error) "ValidationError" then
    (400%N, "Validation Error",
     match details error with Some d => d | None => [] end)
  else if String.eqb (name error) "UnauthorizedError" then (401%N, "Unauthorized", [])
  else if String.eqb (name error) "ForbiddenError" then (403%N, "Forbidden", [])
  else if String.eqb (name error) "NotFoundError" then (404%N, "Not Found", [])
  else if String.eqb (name error) "RateLimitError" then (429%N, "Too Many Requests", [])
  else if match code error with
          | Some c => String.eqb c "ECONNREFUSED"
          | None => false
          end then (503%N, "Service Unavailable", [])
  else
    match response error with
    | Some r =>
        if (response_status r =? 0)%N then (500%N, "Internal Server Error", [])
        else (response_status r, Text.orElse (statusText r) (message error), [])
    | None => (500%N, "Internal Server Error", [])
    end.

(** [handleError(error, req, res, next)], lines 6-62, for [req.url], at
    instant [t].  The call of the logger is not awaited and catches its
    own errors. *)
Definition handleError (error : Thrown) (url : string) (t : N) : Reply :=
  let '(statusCode, msg, details0) := classify error in
  let '(msg, details) :=
    if production && (statusCode =? 500)%N then ("Internal Server Error", [])
    else if negb production then
      (msg,
       match stack error with
       | Some trace => setField "stack" (JStr trace) details0
       | None => removeField "stack" details0
       end)
    else (msg, details0) in
  {| status := statusCode;
     body :=
       spread [ ("error", JBool true);
                ("message", JStr msg);
                ("statusCode", JNum (Z.of_N statusCode));
                ("timestamp", JStr (toISOString rt (Z.of_N t)));
                ("path", JStr url) ]
              details |}.

End Handler.

End ErrorHandler.

(* ====================================================================== *)
(** * Products by date range ([src/services/productHuntService.js], 643-660) *)
(* ====================================================================== *)

Module DateRange.

Section Service.

Variable rt : Runtime.

(** [this.getTrendingProducts(accessToken, limit)]. *)
Variable getTrendingProducts : string -> nat -> Async (list Product).

(** [a >= b] and [a <= b] on dates; an invalid date compares false. *)
Definition notBefore (a b : option Z) : bool :=
  match a, b with
  | Some x, Some y => (y <=? x)%Z
  | _, _ => false
  end.

Definition notAfter (a b : option Z) : bool :=
  match a, b with
  | Some x, Some y => (x <=? y)%Z
  | _, _ => false
  end.

(** [getProductsByDateRange(accessToken, startDate, endDate, limit)] for
    dates given as texts; the earlier copy of the service has the same
    text at lines 258-275. *)
Definition getProductsByDateRange (accessToken startDate endDate : string)
           (limit : nat) : Async (list Product) :=
  tryCatch
    (products <- getTrendingProducts accessToken limit ;;
     let start := Date_parse rt startDate in
     let end' := Date_parse rt endDate in
     ret (filter (fun product =>
                    let productDate := Date_parse rt (createdAt product) in
                    notBefore productDate start && notAfter productDate end')
                 products))%async
    (fun error => throw error).

End Service.

End DateRange.

(* ====================================================================== *)
(** * InternalAuth ([src/middleware/internalAuth.js], 74-96) *)
(* ====================================================================== *)

Module InternalAuth.

(** [s.split(',')], with the piece being read in [piece]. *)
Fixpoint splitCommas (piece : string) (s : string) : list string :=
  match s with
  | EmptyString => [piece]
  | String c rest =>
      if Ascii.eqb c "," then piece :: splitCommas EmptyString rest
      else splitCommas (piece ++ String c EmptyString) rest
  end.

(** What the middleware does: it answers, or calls [next()]. *)
Inductive Decision : Type :=
| Next
| Deny (status : N) (body : list (string * JSON)).

(** [checkEnvironment(req, res, next)] for the environment variables
    [NODE_ENV] and [ALLOWED_DOMAINS] and the header [Host]; [None] is
    [undefined]. *)
Definition checkEnvironment (NODE_ENV ALLOWED_DOMAINS host : option string)
  : Decision :=
  let isProduction :=
    match NODE_ENV with
    | Some env => String.eqb env "production"
    | None => false
    end in
  let allowedDomains :=
    match ALLOWED_DOMAINS with
    | Some domains => if Text.truthy domains then splitCommas EmptyString domains else []
    | None => []
    end in
  if isProduction && (0 <? length allowedDomains)%nat then
    if negb (match host with
             | Some h => existsb (String.eqb h) allowedDomains
             | None => false
             end)
    then Deny 403 [ ("error", JStr "Access denied");
                    ("message",
                     JStr "This internal tool is not accessible from this domain") ]
    else Next
  else Next.

End InternalAuth.

(* ====================================================================== *)
(** * More worlds to run the definitions in *)
(* ====================================================================== *)

Module Worlds.

Import Server App Examples.

(** A runtime whose dates are numbers of milliseconds written in
    decimal, whose days start at multiples of 86400000, and which parses
    the texts of two token files besides the empty object. *)
Definition calendar : Runtime :=
  {| JSON_parse := fun text =>
       if String.eqb text "{}" then Some (JObj [])
       else if String.eqb text "fresh token" then
         Some (JObj [("access_token", JStr "stored"); ("expires_at", JStr "5000")])
       else if String.eqb text "old token" then
         Some (JObj [("access_token", JStr "stale"); ("expires_at", JStr "10")])
       else None;
     toISOString := Text.ofZ;
     Date_parse := fun text => option_map Z.of_int (NilZero.int_of_string text);
     localMidnight := fun ms => (ms / 86400000 * 86400000)%Z;
     cannotSetMetadata := fun _ => "Cannot create property 'metadata'";
     cannotReadMessage := "Cannot read properties of undefined (reading 'message')" |}.

(** [new Date(v).getTime()] in that runtime, for texts and numbers. *)
Definition calendarDate (v : JSON) : option Z :=
  match v with
  | JStr text => Date_parse calendar text
  | JNum ms => Some ms
  | _ => None
  end.

(** A post created at an instant. *)
Definition postAt (ident : string) (votes : option Z) (created : string)
  : ProductHuntService.Post :=
  {| ProductHuntService.post_id := ident;
     ProductHuntService.post_name := ident;
     ProductHuntService.post_tagline := "";
     ProductHuntService.post_description := "";
     ProductHuntService.post_url := "";
     ProductHuntService.post_website := "";
     ProductHuntService.post_votesCount := votes;
     ProductHuntService.post_commentsCount := None;
     ProductHuntService.post_createdAt := created;
     ProductHuntService.post_featuredAt := None;
     ProductHuntService.post_thumbnail := None;
     ProductHuntService.post_makers := None;
     ProductHuntService.post_topics := None;
     ProductHuntService.post_productLinks := None;
     ProductHuntService.post_user := None |}.

(** Four posts: three of the day that starts at 0, one of the day
    before. *)
Definition todaysPosts : list ProductHuntService.Post :=
  [ postAt "few" (Some 3%Z) "50"; postAt "yesterday" (Some 5000%Z) "-7";
    postAt "many" (Some 900%Z) "60"; postAt "unknown" None "70" ].

Definition todaysBody : ProductHuntService.GraphQLBody :=
  {| ProductHuntService.gql_errors := None;
     ProductHuntService.gql_posts := Some todaysPosts |}.

(** The GraphQL endpoint answers these posts after 100 ms. *)
Definition busyDay : nat -> Timed (Outcome ProductHuntService.GraphQLBody) :=
  fun _ => mkTimed 100 (Resolve todaysBody).

(** The GraphQL endpoint answers a body that lists errors. *)
Definition refusedQuery : nat -> Timed (Outcome ProductHuntService.GraphQLBody) :=
  fun _ => mkTimed 100 (Resolve {| ProductHuntService.gql_errors := Some "[{}]";
                                   ProductHuntService.gql_posts := None |}).

(** The GraphQL endpoint is rate limited four times, and answers the
    fifth post, which is never made. *)
Definition limitedFourTimes : nat -> Timed (Outcome ProductHuntService.GraphQLBody) :=
  fun k => if (k <? 4)%nat then mkTimed 100 (Reject rateLimited)
           else mkTimed 100 (Resolve todaysBody).

Definition alwaysLimited : nat -> Timed (Outcome ProductHuntService.GraphQLBody) :=
  fun _ => mkTimed 100 (Reject rateLimited).

Definition noRest : Timed (Outcome ProductHuntService.RestBody) :=
  mkTimed 100 (Reject (newError "unused")).

(** Completions: an empty object, a text that is not JSON, no content. *)
Definition completionOf (text : option string) : ChatGPTService.Completion :=
  {| ChatGPTService.choices := [{| ChatGPTService.content := text |}];
     ChatGPTService.total_tokens := Some 12%Z |}.

Definition answers (text : option string)
  : nat -> Timed (Outcome ChatGPTService.Completion) :=
  fun _ => mkTimed 10 (Resolve (completionOf text)).

(** Four refusals, then an answer that is never asked for. *)
Definition refusedFourTimes : nat -> Timed (Outcome ChatGPTService.Completion) :=
  fun k => if (k <? 4)%nat then mkTimed 100 (Reject rateLimited)
           else mkTimed 10 (Resolve (completionOf (Some "{}"))).

Definition alwaysRefused : nat -> Timed (Outcome ChatGPTService.Completion) :=
  fun _ => mkTimed 100 (Reject rateLimited).

(** An analyzer that answers after 50 ms, and rejects for the product at
    position 1. *)
Definition analyzer (k : nat) (p : Product) : Async JSON :=
  external (if Nat.eqb k 1 then mkTimed 50 (Reject (newError "quota exceeded"))
            else quick fine).

(** A token service with an OAuth client and no developer token. *)
Definition oauthService : AuthService.Service :=
  {| AuthService.developerToken := None; AuthService.client := true |}.

Definition developerEnv : AuthService.Env :=
  {| AuthService.PH_DEVELOPER_TOKEN := Some "dev-token";
     AuthService.PH_CLIENT_ID := Some "id";
     AuthService.PH_CLIENT_SECRET := Some "secret" |}.

Definition done : Timed (Outcome unit) := mkTimed 1 (Resolve tt).

Definition refreshed : Timed (Outcome (list (string * JSON))) :=
  mkTimed 30 (Resolve [("access_token", JStr "renewed")]).

(** A data directory: four analyses, the two files that are not, and a
    text file; the birth times are the digits of the names. *)
Definition directory : list string :=
  [ "a3.json"; "access_token.json"; "a1.json"; "latest.json"; "notes.txt";
    "a4.json"; "a2.json" ].

Definition dataPath (name : string) : string := "data/" ++ name.

Definition birthtimes (path : string) : Timed (Outcome Z) :=
  mkTimed 2
    (if String.eqb path "data/a1.json" then Resolve 1%Z
     else if String.eqb path "data/a2.json" then Resolve 2%Z
     else if String.eqb path "data/a3.json" then Resolve 3%Z
     else if String.eqb path "data/a4.json" then Resolve 4%Z
     else Reject (newError "ENOENT")).

(** A validation error with details. *)
Definition invalidLimit : ErrorHandler.Thrown :=
  ErrorHandler.createValidationError "limit must be positive"
    [("field", JStr "limit"); ("message", JStr "too small")] "at validate".

End Worlds.

(* ====================================================================== *)
(** * The definitions on small inputs *)
(* ====================================================================== *)

Section Checks.

Import Server App Examples.

Example lower_case_includes :
  Text.includes "ai" (Text.toLowerCase "Email Marketing") = true
  /\ Text.includes "tech" (Text.toLowerCase "Analytics") = false.
Proof. split; reflexivity. Qed.

Example slug_of_a_name :
  Text.dashSpaces false (Text.toLowerCase "Developer  Tools") = "developer-tools".
Proof. reflexivity. Qed.

Example numbers_in_templates : Text.ofNat 10 = "10" /\ Text.ofZ 1247 = "1247".
Proof. split; reflexivity. Qed.

Example retried_errors :
  ChatGPTService.shouldRetry rateLimited = true
  /\ ChatGPTService.shouldRetry (newError "Invalid API key") = false
  /\ ProductHuntService.shouldRetry
       {| message := "timeout"; status := None; code := Some "ETIMEDOUT" |} = true
  /\ ProductHuntService.shouldRetry
       {| message := "Unauthorized"; status := Some 401%N; code := None |} = false.
Proof. repeat split. Qed.

Example race_won_and_lost :
  raceTimeout (external (mkTimed 7999 (Resolve 1))) 8000 "Analysis timeout" 10%N
  = (8009%N, Resolve 1)
  /\ raceTimeout (external (mkTimed 8000 (Resolve 1))) 8000 "Analysis timeout" 10%N
     = (8010%N, Resolve 1)
  /\ raceTimeout (external (mkTimed 8001 (Resolve 1))) 8000 "Analysis timeout" 10%N
     = (8010%N, Reject (newError "Analysis timeout")).
Proof. repeat split. Qed.

Example rule_based_analysis_of_the_first_mock :
  let p := nth 0 (ProductHuntService.getMockProducts runtime (fun _ => 0%N) 0 3)
               (item "") in
  let a := ChatGPTService.createFallbackAnalysis runtime 0 p in
  field "summary" a
  = Some (JStr "获得1247票的产品，主要面向开发者和技术专业人士")
  /\ field "successProbability" a = Some (JStr "高")
  /\ field "fallback" a = Some (JBool true).
Proof. repeat split. Qed.

Example rule_based_analysis_without_topics :
  field "targetUsers" (ChatGPTService.createFallbackAnalysis runtime 0 (item "A"))
  = Some (JArr [JObj [("demographic", JStr "一般科技用户"); ("likelihood", JStr "中")]])
  /\ field "successProbability"
       (ChatGPTService.createFallbackAnalysis runtime 0 (item "A"))
     = Some (JStr "中").
Proof. split; reflexivity. Qed.

Example mock_products_by_limit :
  map id (ProductHuntService.getMockProducts runtime (fun _ => 0%N) 0 5)
  = ["mock-1"; "mock-2"; "mock-3"; "mock-4"; "mock-5"]
  /\ length (ProductHuntService.getMockProducts runtime (fun _ => 0%N) 0 2) = 2
  /\ length (ProductHuntService.getMockProducts runtime (fun _ => 0%N) 0 25) = 20
  /\ ProductHuntService.getMockProducts runtime (fun _ => 0%N) 0 0 = [].
Proof. repeat split. Qed.

Example sort_by_votes_is_stable :
  map ProductHuntService.post_id
    (ProductHuntService.sortByVotes
       [post "a" (Some 3%Z); post "b" None; post "c" (Some 900%Z);
        post "d" (Some 3%Z); post "e" (Some 0%Z)])
  = ["c"; "a"; "d"; "b"; "e"].
Proof. reflexivity. Qed.

(** No post of today: the first posts are returned in the order of the
    answer. *)
Example graphql_answer_without_post_of_today :
  map (fun p => (id p, map topic_slug (topics p)))
    (match snd (getTrendingProducts (wired runtime online) "token" 2 0%N) with
     | Resolve ps => ps
     | Reject _ => []
     end)
  = [("low", ["developer-tools"]); ("none", ["developer-tools"])].
Proof. reflexivity. Qed.

(** The scenario "3 items [A, B, C], all analyzable" of the specification. *)
Example three_items_all_analyzed :
  events (logOf (analyzeStream runtime false threeItems (start 0)))
  = [ Status "Starting analysis..." "init" None;
      Status "Fetching trending products..." "fetch" None;
      Status "Found 3 products. Starting analysis..." "analyze" (Some 3);
      Progress 1 3 "Item A" "Analyzing Item A...";
      ProductResult {| product := item "A"; analysis := fine |};
      Progress 2 3 "Item B" "Analyzing Item B...";
      ProductResult {| product := item "B"; analysis := fine |};
      Progress 3 3 "Item C" "Analyzing Item C...";
      ProductResult {| product := item "C"; analysis := fine |};
      Complete {| totalProducts := 3;
                  successCount := 3;
                  errorCount := 0;
                  timestamp := "855";
                  products := [ {| product := item "A"; analysis := fine |};
                                {| product := item "B"; analysis := fine |};
                                {| product := item "C"; analysis := fine |} ] |} ].
Proof. reflexivity. Qed.

(** The scenario "2 items, second item's Analyzer raises". *)
Example second_item_raises :
  events (logOf (analyzeStream runtime false secondRaises (start 0)))
  = [ Status "Starting analysis..." "init" None;
      Status "Fetching trending products..." "fetch" None;
      Status "Found 2 products. Starting analysis..." "analyze" (Some 2);
      Progress 1 2 "Item A" "Analyzing Item A...";
      ProductResult {| product := item "A"; analysis := fine |};
      Progress 2 2 "Item B" "Analyzing Item B...";
      ProductResult {| product := item "B";
                       analysis := JObj [("error", JStr "quota exceeded")] |};
      Complete {| totalProducts := 2;
                  successCount := 1;
                  errorCount := 1;
                  timestamp := "605";
                  products := [ {| product := item "A"; analysis := fine |};
                                {| product := item "B";
                                   analysis := JObj [("error", JStr "quota exceeded")] |} ] |} ].
Proof. reflexivity. Qed.

(** An analysis that takes 20 seconds is cut at 8 seconds by the
    streaming handler. *)
Example second_item_times_out :
  map analysis
    (productResults (events (logOf (analyzeStream runtime false secondSlow (start 0)))))
  = [fine; JObj [("error", JStr "Analysis timeout")]].
Proof. reflexivity. Qed.

(** The scenario "Listing Source returns empty". *)
Example nothing_fetched :
  events (logOf (analyzeStream runtime false emptyFetch (start 0)))
  = [ Status "Starting analysis..." "init" None;
      Status "Fetching trending products..." "fetch" None;
      ErrorEvent "No trending products found" ].
Proof. reflexivity. Qed.

(** In the program, an OpenAI call refused at every attempt is absorbed
    by the analyzer: its failure object is attached by the [try] branch
    and counted as a success. *)
Example refused_calls_are_counted_as_successes :
  match completed (logOf (analyzeStream runtime false (wired runtime throttled) (start 0)))
  with
  | Some r =>
      (totalProducts r, successCount r, errorCount r,
       map (fun item => field "error" (analysis item)) (firstn 1 (products r)))
  | None => (0, 0, 0, [])
  end
  = (10, 10, 0, [Some (JStr "429 Too Many Requests")]).
Proof. vm_compute. reflexivity. Qed.

(** The accessor before, between and after two runs. *)
Example accessor_over_requests :
  map (fun log => match log with
                  | [Json code (ErrorBody _)] => (code, 0)
                  | [Json code (SummaryBody r)] => (code, totalProducts r)
                  | _ => (0, 0)
                  end)
    (fst (serveAll runtime true exampleRequests None))
  = [(404, 0); (0, 0); (200, 3); (0, 0); (200, 3)].
Proof. vm_compute. reflexivity. Qed.

End Checks.

(* ====================================================================== *)
(** * Facts about promises *)
(* ====================================================================== *)

Section RaceFacts.

Context {A : Type} (m : Async A) (ms : N) (msg : string).

(** A race is settled by the operation, in time, or by the timer, when
    the ceiling has elapsed first. *)
Lemma raceTimeout_settles t t' o :
  raceTimeout m ms msg t = (t', o) ->
  (m t = (t', o) /\ (t' <= t + ms)%N)
  \/ (t' = (t + ms)%N /\ o = Reject (newError msg) /\ (t + ms < fst (m t))%N).
Proof.
  unfold raceTimeout. destruct (m t) as [t1 o1]; cbn [fst].
  destruct (N.leb_spec t1 (t + ms)%N); intros [= <- <-]; auto.
Qed.

Lemma raceTimeout_in_time t :
  (fst (m t) <= t + ms)%N -> raceTimeout m ms msg t = m t.
Proof.
  unfold raceTimeout. destruct (m t) as [t1 o1]; cbn [fst]; intros H.
  destruct (N.leb_spec t1 (t + ms)%N); [reflexivity | lia].
Qed.

Lemma raceTimeout_too_late t :
  (t + ms < fst (m t))%N ->
  raceTimeout m ms msg t = ((t + ms)%N, Reject (newError msg)).
Proof.
  unfold raceTimeout. destruct (m t) as [t1 o1]; cbn [fst]; intros H.
  destruct (N.leb_spec t1 (t + ms)%N); [lia | reflexivity].
Qed.

End RaceFacts.

(* ====================================================================== *)
(** * Facts about the streaming handler *)
(* ====================================================================== *)

Section StreamFacts.

Import Server.

Variable rt : Runtime.
Variable storesLatest : bool.
Variable sv : Services.

(** The [try]/[catch] of the loop body never throws: it writes the
    progress event and a product event with the analysis attached. *)
Lemma analyzeItem_run total i p tally s :
  analyzeItem sv total i p tally s =
    (firstn 2 (itemLog total i (p, snd (itemRace sv i p (clock s)))),
     {| clock := fst (itemRace sv i p (clock s));
        latestAnalysisResults := latestAnalysisResults s |},
     Resolve (tallyWith tally [(p, snd (itemRace sv i p (clock s)))])).
Proof.
  unfold analyzeItem, htry, hbind, sendEvent, perform, await, hret, itemRace, tallyWith.
  cbn [clock latestAnalysisResults].
  destruct (raceTimeout (analyzeProduct sv i p) 8000 "Analysis timeout" (clock s))
    as [t' [a | e]]; cbn; rewrite ?Nat.add_0_r, ?Nat.add_1_r; reflexivity.
Qed.

Lemma tallyWith_cons tally po rest :
  tallyWith (tallyWith tally [po]) rest = tallyWith tally (po :: rest).
Proof.
  unfold tallyWith; cbn [analyzedProducts successes errors map filter].
  rewrite <- app_assoc. cbn [app].
  destruct (isResolved (snd po)), (isRejected (snd po)); cbn [length];
    f_equal; lia.
Qed.

Lemma analyzeLoop_run total rest : forall i tally s,
  analyzeLoop sv total i rest tally s =
    (loopLog total i (races sv i (clock s) rest),
     {| clock := loopEnd sv i (clock s) rest;
        latestAnalysisResults := latestAnalysisResults s |},
     Resolve (tallyWith tally (races sv i (clock s) rest))).
Proof.
  induction rest as [| p rest IH]; intros i tally s.
  - cbn. unfold hret, tallyWith. cbn.
    rewrite app_nil_r, !Nat.add_0_r. destruct s, tally; reflexivity.
  - cbn [analyzeLoop races loopEnd loopLog].
    unfold hbind at 1. rewrite analyzeItem_run.
    unfold hbind at 1, delay at 1. cbn [clock latestAnalysisResults].
    rewrite IH. cbn [clock latestAnalysisResults].
    destruct (itemRace sv i p (clock s)) as [t' o]; cbn [fst snd].
    rewrite tallyWith_cons. reflexivity.
Qed.

Lemma races_length rest : forall i t, length (races sv i t rest) = length rest.
Proof.
  induction rest as [| p rest IH]; intros i t; cbn; [reflexivity |].
  destruct (itemRace sv i p t); cbn. now rewrite IH.
Qed.

Lemma races_products rest : forall i t, map fst (races sv i t rest) = rest.
Proof.
  induction rest as [| p rest IH]; intros i t; cbn; [reflexivity |].
  destruct (itemRace sv i p t); cbn. now rewrite IH.
Qed.

Lemma attach_products outcomes : map product (map attach outcomes) = map fst outcomes.
Proof. rewrite map_map. apply map_ext. intros [p o]; reflexivity. Qed.

(** Every race is counted once, as a success or as an error. *)
Lemma resolved_or_rejected (outcomes : list (Product * Outcome JSON)) :
  length (filter (fun po => isResolved (snd po)) outcomes)
  + length (filter (fun po => isRejected (snd po)) outcomes)
  = length outcomes.
Proof.
  induction outcomes as [| [p [a | e]] rest IH]; cbn; lia.
Qed.

(** A run that reaches the loop goes through it and completes. *)
Lemma analyzeStream_completes t0 latest t ps :
  reachesLoop sv t0 t ps ->
  analyzeStream rt storesLatest sv {| clock := t0; latestAnalysisResults := latest |} =
    (completedLog rt sv storesLatest t ps,
     {| clock := loopEnd sv 0 t ps;
        latestAnalysisResults :=
          if storesLatest then Some (summaryOf rt sv t ps) else latest |},
     Resolve tt).
Proof.
  intros (token & Htoken & Hfetch & Hne).
  unfold analyzeStream, completedLog, openingLog.
  unfold hbind at 1, perform at 1. unfold hfinally, htry.
  unfold hbind at 1, sendEvent at 1, perform at 1.
  unfold hbind at 1, settle, await at 1, external. cbn [clock latestAnalysisResults latency answer].
  rewrite Htoken.
  unfold hbind at 1, sendEvent at 1, perform at 1.
  unfold hbind at 1, await at 1. cbn [clock latestAnalysisResults].
  unfold fetchRace, tokenInstant in Hfetch. rewrite Hfetch.
  destruct ps as [| p ps']; [congruence |].
  unfold hbind at 1, sendEvent at 1, perform at 1.
  unfold hbind at 1. rewrite analyzeLoop_run. cbn [clock latestAnalysisResults].
  unfold finish, hbind at 1, isoNow at 1. cbn [clock latestAnalysisResults].
  unfold summaryOf.
  destruct storesLatest.
  + unfold hbind, storeLatest, sendEvent, perform. cbn [clock latestAnalysisResults app].
    unfold tallyWith. cbn [analyzedProducts successes errors emptyTally app Nat.add].
    rewrite ?app_nil_r, <- ?app_assoc. reflexivity.
  + unfold hbind, hret, sendEvent, perform. cbn [clock latestAnalysisResults app].
    unfold tallyWith. cbn [analyzedProducts successes errors emptyTally app Nat.add].
    rewrite ?app_nil_r, <- ?app_assoc. reflexivity.
Qed.

(** Without a credential the run stops after its first event. *)
Lemma analyzeStream_without_credential t0 latest :
  presentToken (answer (getStoredToken sv)) = None ->
  analyzeStream rt storesLatest sv {| clock := t0; latestAnalysisResults := latest |} =
    ([ WriteHead 200;
       Send (Status "Starting analysis..." "init" None);
       Send (ErrorEvent "Authentication required. Please set up API credentials.");
       End; End ],
     {| clock := tokenInstant sv t0; latestAnalysisResults := latest |},
     Resolve tt).
Proof.
  intros Htoken. unfold analyzeStream, tokenInstant.
  unfold hbind at 1, perform at 1. unfold hfinally, htry.
  unfold hbind at 1, sendEvent at 1, perform at 1.
  unfold hbind at 1, settle, await at 1, external. cbn [clock latestAnalysisResults latency answer].
  rewrite Htoken. reflexivity.
Qed.

(** A fetch race that is rejected sends the run to the outer [catch]. *)
Lemma analyzeStream_fetch_rejected t0 latest token t e :
  presentToken (answer (getStoredToken sv)) = Some token ->
  fetchRace sv token (tokenInstant sv t0) = (t, Reject e) ->
  analyzeStream rt storesLatest sv {| clock := t0; latestAnalysisResults := latest |} =
    ([ WriteHead 200;
       Send (Status "Starting analysis..." "init" None);
       Send (Status "Fetching trending products..." "fetch" None);
       Send (ErrorEvent (message e));
       End ],
     {| clock := t; latestAnalysisResults := latest |},
     Resolve tt).
Proof.
  intros Htoken Hfetch. unfold analyzeStream.
  unfold hbind at 1, perform at 1. unfold hfinally, htry.
  unfold hbind at 1, sendEvent at 1, perform at 1.
  unfold hbind at 1, settle, await at 1, external. cbn [clock latestAnalysisResults latency answer].
  rewrite Htoken.
  unfold hbind at 1, sendEvent at 1, perform at 1.
  unfold hbind at 1, await at 1. cbn [clock latestAnalysisResults].
  unfold fetchRace, tokenInstant in Hfetch. rewrite Hfetch. reflexivity.
Qed.

(** A fetch that finds nothing ends the run from inside the [try]. *)
Lemma analyzeStream_fetch_empty t0 latest token t :
  presentToken (answer (getStoredToken sv)) = Some token ->
  fetchRace sv token (tokenInstant sv t0) = (t, Resolve []) ->
  analyzeStream rt storesLatest sv {| clock := t0; latestAnalysisResults := latest |} =
    ([ WriteHead 200;
       Send (Status "Starting analysis..." "init" None);
       Send (Status "Fetching trending products..." "fetch" None);
       Send (ErrorEvent "No trending products found");
       End; End ],
     {| clock := t; latestAnalysisResults := latest |},
     Resolve tt).
Proof.
  intros Htoken Hfetch. unfold analyzeStream.
  unfold hbind at 1, perform at 1. unfold hfinally, htry.
  unfold hbind at 1, sendEvent at 1, perform at 1.
  unfold hbind at 1, settle, await at 1, external. cbn [clock latestAnalysisResults latency answer].
  rewrite Htoken.
  unfold hbind at 1, sendEvent at 1, perform at 1.
  unfold hbind at 1, await at 1. cbn [clock latestAnalysisResults].
  unfold fetchRace, tokenInstant in Hfetch. rewrite Hfetch. reflexivity.
Qed.

(** The events written by the loop are the expected ones. *)
Lemma events_loopLog total outcomes : forall i,
  events (loopLog total i outcomes)
  = expectedEventsFrom total (S i) (map attach outcomes).
Proof.
  induction outcomes as [| po rest IH]; intros i; [reflexivity |].
  cbn [loopLog map expectedEventsFrom]. unfold events in *.
  rewrite flat_map_app, IH. cbn. now rewrite Nat.add_1_r.
Qed.

Lemma events_app l1 l2 : events (l1 ++ l2) = (events l1 ++ events l2)%list.
Proof. apply flat_map_app. Qed.

Lemma progressCurrents_expected total items : forall c,
  progressCurrents (expectedEventsFrom total c items) = seq c (length items).
Proof.
  induction items as [| item rest IH]; intros c; [reflexivity |].
  cbn. now rewrite IH.
Qed.

Lemma productResults_expected total items : forall c,
  productResults (expectedEventsFrom total c items) = items.
Proof.
  induction items as [| item rest IH]; intros c; [reflexivity |].
  cbn. now rewrite IH.
Qed.

Lemma filter_timers_loopLog total outcomes : forall i,
  filter isTimer (loopLog total i outcomes) = repeat (Timer 200) (length outcomes).
Proof.
  induction outcomes as [| po rest IH]; intros i; [reflexivity |].
  cbn [loopLog length repeat]. rewrite filter_app, IH. reflexivity.
Qed.

(** The loop ends with the product event of the last product and the
    timer that follows it. *)
Lemma loopLog_ends_with_timer total outcomes : forall i,
  outcomes <> [] ->
  exists before item,
    loopLog total i outcomes
    = (before ++ [Send (ProductResult item); Timer 200])%list.
Proof.
  induction outcomes as [| po rest IH]; intros i Hne; [congruence |].
  destruct rest as [| po' rest'].
  - exists [Send (Progress (i + 1) total (name (fst po))
                    ("Analyzing " ++ name (fst po) ++ "..."))], (attach po).
    reflexivity.
  - destruct (IH (S i)) as (before & item & Hrest); [discriminate |].
    exists (itemLog total i po ++ before)%list, item.
    change (loopLog total i (po :: po' :: rest'))
      with (itemLog total i po ++ loopLog total (S i) (po' :: rest'))%list.
    rewrite Hrest, app_assoc. reflexivity.
Qed.

End StreamFacts.

(* ====================================================================== *)
(** * Facts about the analyzer *)
(* ====================================================================== *)

Section AnalyzerFacts.

Import ChatGPTService.

Variable rt : Runtime.
Variable openai : bool.
Variable create : nat -> Timed (Outcome Completion).

(** [analyzeProduct] satisfies the recursive equation of the source. *)
Lemma analyzeProduct_equation p retryCount t :
  analyzeProduct rt openai create p retryCount t =
    tryCatch (analyzeProductTry rt openai create p retryCount)
      (fun error =>
         if (retryCount <? maxRetries)%nat && shouldRetry error then
           (sleep retryDelay ;;
            analyzeProduct rt openai create p (S retryCount))%async
         else
           (now' <- now ;; ret (failedAnalysis rt error now'))%async) t.
Proof.
  unfold analyzeProduct.
  destruct (Nat.ltb_spec retryCount maxRetries) as [Hlt | Hge].
  - replace (maxRetries - retryCount)%nat with (S (maxRetries - S retryCount)) by lia.
    cbn [analyzeProductWith andb]. reflexivity.
  - replace (maxRetries - retryCount)%nat with 0%nat by lia.
    cbn [analyzeProductWith andb]. unfold tryCatch.
    destruct (analyzeProductTry rt openai create p retryCount t) as [t' [a | e]];
      reflexivity.
Qed.

Lemma setMetadata_nonNull v completion p now' t t' a :
  setMetadata rt v completion p now' t = (t', Resolve a) -> nonNull a = true.
Proof.
  destruct v; cbn; intros [= <- <-] || intros [=]; reflexivity.
Qed.

(** What the [try] block resolves with is an object or an array. *)
Lemma analyzeProductTry_nonNull p retryCount t t' a :
  analyzeProductTry rt openai create p retryCount t = (t', Resolve a) ->
  nonNull a = true.
Proof.
  unfold analyzeProductTry. destruct openai; cbn [negb].
  - unfold bind, external, now.
    destruct (answer (create retryCount)) as [completion | e]; [| discriminate].
    destruct (choices completion) as [| c cs]; [discriminate |].
    cbn. apply setMetadata_nonNull.
  - cbn. intros [= <- <-]. reflexivity.
Qed.

(** [analyzeProduct] always resolves, whatever the retries left. *)
Lemma analyzeProductWith_resolves retriesLeft : forall p retryCount t,
  exists t' a,
    analyzeProductWith rt openai create retriesLeft p retryCount t = (t', Resolve a)
    /\ nonNull a = true.
Proof.
  induction retriesLeft as [| n IH]; intros p retryCount t;
    cbn [analyzeProductWith]; unfold tryCatch;
    destruct (analyzeProductTry rt openai create p retryCount t) as [t1 [a | e]] eqn:Htry;
    try (exists t1, a; split; [reflexivity | eapply analyzeProductTry_nonNull; eauto]).
  - eexists _, _. cbn. split; reflexivity.
  - destruct (shouldRetry e).
    + unfold bind, sleep. apply IH.
    + eexists _, _. cbn. split; reflexivity.
Qed.

(** Without an OpenAI client the rule-based analysis is returned at once. *)
Lemma analyzeProductWith_fallback retriesLeft p retryCount t :
  openai = false ->
  analyzeProductWith rt openai create retriesLeft p retryCount t
  = (t, Resolve (createFallbackAnalysis rt t p)).
Proof.
  intros ->. destruct retriesLeft; reflexivity.
Qed.

(** An attempt that is rejected with an error that is not retried, or
    when no retry is left, resolves with the failure object. *)
Lemma analyzeProductWith_gives_up retriesLeft p retryCount t e :
  openai = true ->
  answer (create retryCount) = Reject e ->
  (retriesLeft = 0%nat \/ shouldRetry e = false) ->
  analyzeProductWith rt openai create retriesLeft p retryCount t
  = ((t + latency (create retryCount))%N,
     Resolve (failedAnalysis rt e (t + latency (create retryCount))%N)).
Proof.
  intros -> Hcall Hstop.
  destruct retriesLeft as [| n]; cbn [analyzeProductWith]; unfold tryCatch;
    unfold analyzeProductTry; cbn [negb]; unfold bind at 1, external;
    rewrite Hcall; [reflexivity |].
  destruct Hstop as [| ->]; [discriminate | reflexivity].
Qed.

(** When every attempt is rejected with an error that is retried, the
    failure object carries the message of the last one. *)
Lemma analyzeProductWith_exhausted retriesLeft : forall p retryCount t,
  openai = true ->
  (forall k, (retryCount <= k <= retryCount + retriesLeft)%nat ->
             exists e, answer (create k) = Reject e /\ shouldRetry e = true) ->
  exists t' last,
    answer (create (retryCount + retriesLeft)) = Reject last
    /\ analyzeProductWith rt openai create retriesLeft p retryCount t
       = (t', Resolve (failedAnalysis rt last t')).
Proof.
  induction retriesLeft as [| n IH]; intros p retryCount t Hopenai Hall.
  - destruct (Hall retryCount) as (e & He & _); [lia |].
    exists (t + latency (create retryCount))%N, e.
    rewrite Nat.add_0_r. split; [assumption |].
    apply analyzeProductWith_gives_up; auto.
  - destruct (Hall retryCount) as (e & He & Hretry); [lia |].
    destruct (IH p (S retryCount) (t + latency (create retryCount) + retryDelay)%N Hopenai)
      as (t' & last & Hlast & Hrun).
    { intros k Hk. apply Hall. lia. }
    exists t', last. split.
    + now replace (retryCount + S n)%nat with (S retryCount + n)%nat by lia.
    + subst openai. cbn [analyzeProductWith]. unfold tryCatch.
      unfold analyzeProductTry; cbn [negb]; unfold bind at 1, external.
      rewrite He, Hretry. unfold bind, sleep. exact Hrun.
Qed.

End AnalyzerFacts.

(* ====================================================================== *)
(** * Facts about the listing source *)
(* ====================================================================== *)

Section ListingFacts.

Import ProductHuntService.

Variable rt : Runtime.
Variable graphqlPost : nat -> Timed (Outcome GraphQLBody).
Variable restGet : Timed (Outcome RestBody).
Variable mathRandom : nat -> N.

(** [makeGraphQLRequest] satisfies the recursive equation of the source. *)
Lemma makeGraphQLRequest_equation retryCount t :
  makeGraphQLRequest graphqlPost retryCount t =
    tryCatch
      (data <- external (graphqlPost retryCount) ;;
       match gql_errors data with
       | Some errors => throw (newError ("GraphQL errors: " ++ errors))
       | None => ret data
       end)%async
      (fun error =>
         if (retryCount <? maxRetries)%nat && shouldRetry error then
           (sleep retryDelay ;; makeGraphQLRequest graphqlPost (S retryCount))%async
         else throw error) t.
Proof.
  unfold makeGraphQLRequest.
  destruct (Nat.ltb_spec retryCount maxRetries) as [Hlt | Hge].
  - replace (maxRetries - retryCount)%nat with (S (maxRetries - S retryCount)) by lia.
    reflexivity.
  - replace (maxRetries - retryCount)%nat with 0%nat by lia.
    cbn [makeGraphQLRequestWith andb]. unfold tryCatch.
    destruct ((data <- external (graphqlPost retryCount) ;;
               match gql_errors data with
               | Some errors => throw (newError ("GraphQL errors: " ++ errors))
               | None => ret data
               end)%async t) as [t' [a | e]]; reflexivity.
Qed.

Lemma getMockProducts_length t limit :
  length (getMockProducts rt mathRandom t limit) = Nat.min limit 20.
Proof.
  unfold getMockProducts.
  rewrite length_firstn, length_app, length_map, length_seq. cbn [mockProducts length].
  lia.
Qed.

(** [getTrendingProducts] always resolves. *)
Lemma getTrendingProducts_resolves accessToken limit t :
  exists t' ps,
    getTrendingProducts rt graphqlPost restGet mathRandom accessToken limit t
    = (t', Resolve ps).
Proof.
  unfold getTrendingProducts, tryCatch.
  destruct (getTrendingProductsTry rt graphqlPost accessToken limit t) as [t1 [ps | e]];
    [eexists _, _; reflexivity |].
  destruct (getTrendingProductsREST rt restGet accessToken limit t1) as [t2 [ps | e2]];
    eexists _, _; reflexivity.
Qed.

End ListingFacts.

(* ====================================================================== *)
(** * Facts about the races of the loop *)
(* ====================================================================== *)

Section RacesFacts.

Import Server.

Variable sv : Services.

(** The [k]-th outcome of the loop is the outcome of the race for the
    [k]-th product, started at some instant. *)
Lemma races_nth rest : forall i t k p o,
  nth_error (races sv i t rest) k = Some (p, o) ->
  exists t1 t2, itemRace sv (i + k) p t1 = (t2, o).
Proof.
  induction rest as [| q rest IH]; intros i t k p o H.
  - destruct k; discriminate.
  - cbn [races] in H. destruct (itemRace sv i q t) as [t' o'] eqn:Hrace.
    destruct k as [| k]; cbn [nth_error] in H.
    + injection H as <- <-. rewrite Nat.add_0_r. eauto.
    + apply IH in H. destruct H as (t1 & t2 & H).
      replace (i + S k)%nat with (S i + k)%nat by lia. eauto.
Qed.

Lemma races_In rest i t p o :
  In (p, o) (races sv i t rest) ->
  exists rank t1 t2, itemRace sv rank p t1 = (t2, o).
Proof.
  intros H. apply In_nth_error in H. destruct H as [k Hk].
  apply races_nth in Hk. destruct Hk as (t1 & t2 & Hk). eauto.
Qed.

(** When one race only is rejected, one error is counted. *)
Lemma one_rejected (outcomes : list (Product * Outcome JSON)) : forall k p e,
  nth_error outcomes k = Some (p, Reject e) ->
  (forall j po, j <> k -> nth_error outcomes j = Some po -> isResolved (snd po) = true) ->
  length (filter (fun po => isRejected (snd po)) outcomes) = 1.
Proof.
  induction outcomes as [| po rest IH]; intros k p e Hk Hothers.
  - destruct k; discriminate.
  - destruct k as [| k]; cbn [nth_error] in Hk.
    + injection Hk as ->. cbn. f_equal.
      assert (Hall : forall qo, In qo rest -> isResolved (snd qo) = true).
      { intros qo Hin. apply In_nth_error in Hin. destruct Hin as [j Hj].
        apply (Hothers (S j)); [lia | exact Hj]. }
      clear - Hall. induction rest as [| [q [a | e']] rest IH]; cbn; auto.
      * apply IH. intros; apply Hall; now right.
      * specialize (Hall (q, Reject e') (or_introl eq_refl)). discriminate.
    + assert (Hpo : isResolved (snd po) = true) by (apply (Hothers 0%nat); [lia | reflexivity]).
      cbn [filter]. destruct po as [q [a | e']]; [| discriminate]. cbn [snd isRejected].
      apply (IH k p e Hk). intros j qo Hj Hnth. apply (Hothers (S j)); [lia | exact Hnth].
Qed.

Lemma nth_error_attach outcomes k po :
  nth_error outcomes k = Some po ->
  nth_error (map attach outcomes) k = Some (attach po).
Proof. intros H. now apply map_nth_error. Qed.

End RacesFacts.

(* ====================================================================== *)
(** * Facts about the program as wired *)
(* ====================================================================== *)

Section WiredFacts.

Import Server App.

Variable rt : Runtime.
Variable w : World.
Variable source : string -> nat -> Async (list Product).

(** The analyzer of the program resolves, with an object or an array. *)
Lemma wired_analyzeProduct_resolves rank p t :
  exists t' a,
    analyzeProduct (wiredWith rt w source) rank p t = (t', Resolve a)
    /\ nonNull a = true.
Proof.
  unfold wiredWith; cbn [analyzeProduct]. unfold ChatGPTService.analyzeProduct.
  apply analyzeProductWith_resolves.
Qed.

(** So a race of the loop is rejected by its timer only. *)
Lemma wired_itemRace_rejected rank p t t' e :
  itemRace (wiredWith rt w source) rank p t = (t', Reject e) ->
  e = newError "Analysis timeout"
  /\ t' = (t + 8000)%N
  /\ (t + 8000 < fst (analyzeProduct (wiredWith rt w source) rank p t))%N.
Proof.
  intros H. apply raceTimeout_settles in H.
  destruct H as [[H _] | (-> & [= ->] & Hlate)]; [| auto].
  destruct (wired_analyzeProduct_resolves rank p t) as (t1 & a & Ha & _).
  rewrite Ha in H. discriminate.
Qed.

Lemma wired_itemRace_resolved rank p t t' a :
  itemRace (wiredWith rt w source) rank p t = (t', Resolve a) ->
  analyzeProduct (wiredWith rt w source) rank p t = (t', Resolve a)
  /\ nonNull a = true.
Proof.
  intros H. apply raceTimeout_settles in H.
  destruct H as [[H _] | (_ & [=] & _)].
  split; [exact H |].
  destruct (wired_analyzeProduct_resolves rank p t) as (t1 & a' & Ha & Hnn).
  rewrite Ha in H. injection H as <- <-. exact Hnn.
Qed.

(** The listing source of the program resolves. *)
Lemma wired_fetchRace_rejected token t t' e :
  fetchRace (wired rt w) token t = (t', Reject e) ->
  e = newError "Fetch timeout"
  /\ t' = (t + 15000)%N
  /\ (t + 15000 < fst (getTrendingProducts (wired rt w) token 10 t))%N.
Proof.
  intros H. apply raceTimeout_settles in H.
  destruct H as [[H _] | (-> & [= ->] & Hlate)]; [| auto].
  unfold wired, wiredWith in H; cbn [getTrendingProducts] in H.
  destruct (getTrendingProducts_resolves rt (graphqlPost w) (restGet w) (mathRandom w)
              token 10 t) as (t1 & ps & Hps).
  rewrite Hps in H. discriminate.
Qed.

End WiredFacts.

(* ====================================================================== *)
(** * The claims about the streaming run *)
(* ====================================================================== *)

Section StreamClaims.

Import Server App.

Variable rt : Runtime.
Variable storesLatest : bool.

(** C1 (totality).  Every streaming run of the program, whatever its
    listing source, that reaches the analysis loop with the fetched
    products [ps] ends its events with a [complete]
    event whose summary [r] satisfies
    [successCount + errorCount = totalProducts = length products]
    (which is the number of fetched products), and every element of
    [products] has a non-null [analysis]: the value with which
    [analyzeProduct] resolved for that product, or an object
    [{ error: message }]. *)
Theorem summary_totality (w : World)
        (source : string -> nat -> Async (list Product))
        (t0 t : N) (latest : option RunSummary) (ps : list Product) :
  reachesLoop (wiredWith rt w source) t0 t ps ->
  exists (r : RunSummary) (before : list Event),
    events (logOf (analyzeStream rt storesLatest (wiredWith rt w source)
                     {| clock := t0; latestAnalysisResults := latest |}))
    = (before ++ [Complete r])%list
    /\ successCount r + errorCount r = totalProducts r
    /\ totalProducts r = length (products r)
    /\ length (products r) = length ps
    /\ Forall (fun item =>
                 nonNull (analysis item) = true
                 /\ ((exists rank t1 t2,
                        analyzeProduct (wiredWith rt w source) rank (product item) t1
                        = (t2, Resolve (analysis item)))
                     \/ (exists m, analysis item = JObj [("error", JStr m)])))
              (products r).
Proof.
  intros Hloop.
  rewrite (analyzeStream_completes rt storesLatest _ t0 latest t ps Hloop).
  exists (summaryOf rt (wiredWith rt w source) t ps).
  eexists. unfold logOf, completedLog. cbn [fst].
  rewrite !app_assoc, events_app. cbn [events flat_map app].
  split; [reflexivity |].
  cbn [summaryOf successCount errorCount totalProducts products].
  rewrite length_map, races_length, resolved_or_rejected, races_length.
  repeat split.
  apply Forall_forall. intros item Hin. apply in_map_iff in Hin.
  destruct Hin as ([p o] & <- & Hin). apply races_In in Hin.
  destruct Hin as (rank & t1 & t2 & Hrace). cbn [attach fst snd analysis product].
  destruct o as [a | e]; cbn [attached].
  - apply wired_itemRace_resolved in Hrace. destruct Hrace as [Ha Hnn].
    split; [exact Hnn | left; eauto].
  - split; [reflexivity | right; eauto].
Qed.

(** The events of a run that reaches the loop. *)
Lemma analysis_events_in_order_aux (sv : Services) (t0 t : N)
      (latest : option RunSummary) (ps : list Product) :
  reachesLoop sv t0 t ps ->
  let evs := events (logOf (analyzeStream rt storesLatest sv
                              {| clock := t0; latestAnalysisResults := latest |})) in
  evs = ([ Status "Starting analysis..." "init" None;
           Status "Fetching trending products..." "fetch" None;
           Status ("Found " ++ Text.ofNat (length ps)
                   ++ " products. Starting analysis...")
                  "analyze" (Some (length ps)) ]
         ++ expectedEventsFrom (length ps) 1 (map attach (races sv 0 t ps))
         ++ [Complete (summaryOf rt sv t ps)])%list
  /\ productResults evs = map attach (races sv 0 t ps).
Proof.
  intros Hloop evs. subst evs.
  rewrite (analyzeStream_completes rt storesLatest sv t0 latest t ps Hloop).
  unfold logOf, completedLog, openingLog. cbn [fst].
  assert (Hevs :
    events ([ WriteHead 200;
              Send (Status "Starting analysis..." "init" None);
              Send (Status "Fetching trending products..." "fetch" None);
              Send (Status ("Found " ++ Text.ofNat (length ps)
                            ++ " products. Starting analysis...")
                      "analyze" (Some (length ps))) ]
            ++ loopLog (length ps) 0 (races sv 0 t ps)
            ++ (if storesLatest then [StoreLatest (summaryOf rt sv t ps)] else [])
            ++ [Send (Complete (summaryOf rt sv t ps)); End])
    = ([ Status "Starting analysis..." "init" None;
         Status "Fetching trending products..." "fetch" None;
         Status ("Found " ++ Text.ofNat (length ps)
                 ++ " products. Starting analysis...")
                "analyze" (Some (length ps)) ]
       ++ expectedEventsFrom (length ps) 1 (map attach (races sv 0 t ps))
       ++ [Complete (summaryOf rt sv t ps)])%list).
  { rewrite !events_app, events_loopLog. destruct storesLatest; reflexivity. }
  rewrite Hevs. split; [reflexivity |].
  unfold productResults. rewrite !flat_map_app.
  fold (productResults (expectedEventsFrom (length ps) 1 (map attach (races sv 0 t ps)))).
  rewrite productResults_expected. cbn. now rewrite app_nil_r.
Qed.

(** C2 (ordering).  In every streaming run that reaches the loop with
    the fetched products [ps], the events are the three [status] events,
    then, for [i] from 1 to N in order, the [progress] event with
    [current = i] followed by the [product] event of the [i]-th fetched
    product, then the [complete] event: the values of [progress.current]
    are exactly [1..N], and the [product] events follow the fetch
    order. *)
Theorem analysis_events_in_order (sv : Services) (t0 t : N)
        (latest : option RunSummary) (ps : list Product) :
  reachesLoop sv t0 t ps ->
  let evs := events (logOf (analyzeStream rt storesLatest sv
                              {| clock := t0; latestAnalysisResults := latest |})) in
  exists (items : list AnalyzedProduct) (r : RunSummary),
    map product items = ps
    /\ evs = ([ Status "Starting analysis..." "init" None;
                Status "Fetching trending products..." "fetch" None;
                Status ("Found " ++ Text.ofNat (length ps)
                        ++ " products. Starting analysis...")
                       "analyze" (Some (length ps)) ]
              ++ expectedAnalysisEvents items
              ++ [Complete r])%list
    /\ products r = items
    /\ progressCurrents evs = seq 1 (length ps)
    /\ map product (productResults evs) = ps.
Proof.
  intros Hloop evs.
  destruct (analysis_events_in_order_aux sv t0 t latest ps Hloop) as [Hevs Hprods].
  fold evs in Hevs, Hprods.
  exists (map attach (races sv 0 t ps)), (summaryOf rt sv t ps).
  unfold expectedAnalysisEvents.
  rewrite attach_products, races_products, length_map, races_length.
  repeat split; try assumption.
  - rewrite Hevs. unfold progressCurrents. rewrite !flat_map_app.
    fold (progressCurrents (expectedEventsFrom (length ps) 1 (map attach (races sv 0 t ps)))).
    rewrite progressCurrents_expected, length_map, races_length. cbn.
    now rewrite app_nil_r.
  - rewrite Hprods, attach_products. apply races_products.
Qed.

(** Whatever the services, a race that is rejected is absorbed into its
    product: the run goes on, the product carries [{ error: message }]
    with the message of the rejection, and it is the one error counted. *)
Lemma item_failure_is_absorbed (sv : Services) (t0 t : N)
      (latest : option RunSummary) (ps : list Product)
      (k : nat) (p : Product) (e : Error) :
  reachesLoop sv t0 t ps ->
  nth_error (races sv 0 t ps) k = Some (p, Reject e) ->
  (forall j po, j <> k ->
                nth_error (races sv 0 t ps) j = Some po ->
                isResolved (snd po) = true) ->
  let evs := events (logOf (analyzeStream rt storesLatest sv
                              {| clock := t0; latestAnalysisResults := latest |})) in
  exists (r : RunSummary) (before : list Event),
    evs = (before ++ [Complete r])%list
    /\ map product (productResults evs) = ps
    /\ productResults evs = products r
    /\ nth_error (products r) k
       = Some {| product := p; analysis := JObj [("error", JStr (message e))] |}
    /\ errorCount r = 1
    /\ successCount r + 1 = length ps
    /\ (forall j q a,
           nth_error (races sv 0 t ps) j = Some (q, Resolve a) ->
           nth_error (products r) j = Some {| product := q; analysis := a |}).
Proof.
  intros Hloop Hk Hothers evs.
  destruct (analysis_events_in_order_aux sv t0 t latest ps Hloop) as [Hevs Hprods].
  fold evs in Hevs, Hprods.
  exists (summaryOf rt sv t ps). eexists.
  split; [rewrite Hevs, app_assoc; reflexivity |].
  cbn [summaryOf products errorCount successCount].
  split; [rewrite Hprods, attach_products; apply races_products |].
  split; [exact Hprods |].
  split; [exact (nth_error_attach _ _ _ Hk) |].
  pose proof (one_rejected _ _ _ _ Hk Hothers) as Hone.
  split; [exact Hone |].
  split.
  { pose proof (resolved_or_rejected (races sv 0 t ps)) as Hsum.
    rewrite races_length in Hsum. lia. }
  intros j q a Hj. exact (nth_error_attach _ _ _ Hj).
Qed.

(** C3 (per-item isolation), as the code has it.  In every streaming run,
    whatever the services, that reaches the loop with [ps], when the race
    for the product of index [k] is rejected and all the other races
    resolve: a [product] event is written for each of the N products, in
    order, and the events end with [complete]; the analysis attached to
    product [k] is [{ error: message }] with the message of the failure,
    which is the error the analyzer raised in time, or
    [Analysis timeout] when the 8000 ms ceiling elapsed first; product
    [k] is the one error counted; and every other product carries the
    value its own race resolved with.  The [error] field is the message
    as it is: it is empty when the analyzer raises an error whose
    message is. *)
Theorem item_failure_is_isolated (sv : Services) (t0 t : N)
        (latest : option RunSummary) (ps : list Product)
        (k : nat) (p : Product) (e : Error) :
  reachesLoop sv t0 t ps ->
  nth_error (races sv 0 t ps) k = Some (p, Reject e) ->
  (forall j po, j <> k ->
                nth_error (races sv 0 t ps) j = Some po ->
                isResolved (snd po) = true) ->
  let evs := events (logOf (analyzeStream rt storesLatest sv
                              {| clock := t0; latestAnalysisResults := latest |})) in
  exists (r : RunSummary) (before : list Event),
    evs = (before ++ [Complete r])%list
    /\ map product (productResults evs) = ps
    /\ productResults evs = products r
    /\ nth_error (products r) k
       = Some {| product := p; analysis := JObj [("error", JStr (message e))] |}
    /\ (exists started,
          (exists settled,
             analyzeProduct sv k p started = (settled, Reject e)
             /\ (settled <= started + 8000)%N)
          \/ (e = newError "Analysis timeout"
              /\ (started + 8000 < fst (analyzeProduct sv k p started))%N))
    /\ errorCount r = 1
    /\ successCount r + 1 = length ps
    /\ (forall j q a,
           nth_error (races sv 0 t ps) j = Some (q, Resolve a) ->
           nth_error (products r) j = Some {| product := q; analysis := a |}).
Proof.
  intros Hloop Hk Hothers evs.
  destruct (item_failure_is_absorbed sv t0 t latest ps k p e Hloop Hk Hothers)
    as (r & before & Hevs & Hps & Hprods & Hkth & Herr & Hsucc & Hrest).
  exists r, before.
  assert (Hcause : exists started,
             (exists settled,
                analyzeProduct sv k p started = (settled, Reject e)
                /\ (settled <= started + 8000)%N)
             \/ (e = newError "Analysis timeout"
                 /\ (started + 8000 < fst (analyzeProduct sv k p started))%N)).
  { destruct (races_nth _ _ _ _ _ _ _ Hk) as (t1 & t2 & Hrace).
    cbn [Nat.add] in Hrace. exists t1.
    apply raceTimeout_settles in Hrace.
    destruct Hrace as [[Hraised Hin] | (_ & [= ->] & Hlate)]; [left; eauto | right; auto]. }
  repeat (split; [assumption |]). exact Hrest.
Qed.

End StreamClaims.

Section AbortClaims.

Import Server App.

Variable rt : Runtime.
Variable storesLatest : bool.
Variable sv : Services.

(** C4 (fetch failures are fatal).  With a credential, the call of the
    listing source is raced against a ceiling of 15000 ms.  When the
    ceiling elapses first (the source has not settled 15000 ms after the
    call), when the source raises in time, or when it resolves in time
    with no product, the run writes an [error] event after the two
    [status] events and ends the stream: the [error] event is the last
    event (no [progress], [product] or [complete] event), nothing is
    stored, and the slot is left as it was.  A source that settles at the
    very instant of the ceiling is in time. *)
Theorem fetch_failure_ends_the_run (t0 : N) (latest : option RunSummary)
        (token : string) :
  presentToken (answer (getStoredToken sv)) = Some token ->
  let started := tokenInstant sv t0 in
  let source := getTrendingProducts sv token 10 started in
  let run := analyzeStream rt storesLatest sv
               {| clock := t0; latestAnalysisResults := latest |} in
  let opening :=
    [ WriteHead 200;
      Send (Status "Starting analysis..." "init" None);
      Send (Status "Fetching trending products..." "fetch" None) ] in
  ((started + 15000 < fst source)%N ->
     logOf run = (opening ++ [Send (ErrorEvent "Fetch timeout"); End])%list
     /\ clock (stateOf run) = (started + 15000)%N)
  /\ (forall e, (fst source <= started + 15000)%N -> snd source = Reject e ->
        logOf run = (opening ++ [Send (ErrorEvent (message e)); End])%list)
  /\ ((fst source <= started + 15000)%N -> snd source = Resolve [] ->
        logOf run
        = (opening ++ [Send (ErrorEvent "No trending products found"); End; End])%list)
  /\ (((started + 15000 < fst source)%N
       \/ (exists e, snd source = Reject e)
       \/ snd source = Resolve []) ->
        (exists m,
            events (logOf run)
            = [ Status "Starting analysis..." "init" None;
                Status "Fetching trending products..." "fetch" None;
                ErrorEvent m ])
        /\ last (logOf run) (WriteHead 0) = End
        /\ stores (logOf run) = []
        /\ latestAnalysisResults (stateOf run) = latest).
Proof.
  intros Htoken started source run opening.
  assert (Hlate : (started + 15000 < fst source)%N ->
                  run = ((opening ++ [Send (ErrorEvent "Fetch timeout"); End])%list,
                         {| clock := (started + 15000)%N;
                            latestAnalysisResults := latest |}, Resolve tt)).
  { intros H. subst run.
    apply (analyzeStream_fetch_rejected rt storesLatest sv t0 latest token
             (started + 15000)%N (newError "Fetch timeout") Htoken).
    apply raceTimeout_too_late. exact H. }
  assert (Hraise : forall e, (fst source <= started + 15000)%N -> snd source = Reject e ->
                  run = ((opening ++ [Send (ErrorEvent (message e)); End])%list,
                         {| clock := fst source; latestAnalysisResults := latest |},
                         Resolve tt)).
  { intros e Hin He. subst run.
    apply (analyzeStream_fetch_rejected rt storesLatest sv t0 latest token
             (fst source) e Htoken).
    unfold fetchRace. rewrite raceTimeout_in_time by exact Hin.
    fold started. fold source. rewrite <- He. now destruct source. }
  assert (Hnone : (fst source <= started + 15000)%N -> snd source = Resolve [] ->
                  run = ((opening ++ [Send (ErrorEvent "No trending products found");
                                      End; End])%list,
                         {| clock := fst source; latestAnalysisResults := latest |},
                         Resolve tt)).
  { intros Hin He. subst run.
    apply (analyzeStream_fetch_empty rt storesLatest sv t0 latest token
             (fst source) Htoken).
    unfold fetchRace. rewrite raceTimeout_in_time by exact Hin.
    fold started. fold source. rewrite <- He. now destruct source. }
  split; [intros H; rewrite (Hlate H); split; reflexivity |].
  split; [intros e Hin He; rewrite (Hraise e Hin He); reflexivity |].
  split; [intros Hin He; rewrite (Hnone Hin He); reflexivity |].
  intros Hfail.
  destruct (N.lt_ge_cases (started + 15000) (fst source)) as [H | Hin].
  { rewrite (Hlate H). repeat split. eexists; reflexivity. }
  destruct Hfail as [H | [[e He] | He]]; [lia | |].
  - rewrite (Hraise e Hin He). repeat split. eexists; reflexivity.
  - rewrite (Hnone Hin He). repeat split. eexists; reflexivity.
Qed.

(** C5, as the code has it.  When the credential provider returns no
    credential, the run writes the [status] event of step [init], which
    precedes the lookup, then exactly one [error] event, and ends the
    stream: no other [status] event and no [progress], [product] or
    [complete] event is written, nothing is fetched or stored. *)
Theorem missing_credential_ends_the_run (t0 : N) (latest : option RunSummary) :
  presentToken (answer (getStoredToken sv)) = None ->
  let run := analyzeStream rt storesLatest sv
               {| clock := t0; latestAnalysisResults := latest |} in
  logOf run
  = [ WriteHead 200;
      Send (Status "Starting analysis..." "init" None);
      Send (ErrorEvent "Authentication required. Please set up API credentials.");
      End; End ]
  /\ events (logOf run)
     = [ Status "Starting analysis..." "init" None;
         ErrorEvent "Authentication required. Please set up API credentials." ]
  /\ length (filter isError (events (logOf run))) = 1
  /\ latestAnalysisResults (stateOf run) = latest.
Proof.
  intros Htoken run. subst run.
  rewrite (analyzeStream_without_credential rt storesLatest sv t0 latest Htoken).
  repeat split.
Qed.

(** C6, as the code has it.  In the loop of a run that reaches it with
    [ps], each product contributes its [progress] event, its [product]
    event and then a timer of 200 ms, whether its race resolved or was
    rejected, the last product included: the log holds one timer of
    200 ms per product, and the last one stands between the last
    [product] event and the [complete] event. *)
Theorem delay_follows_every_item (t0 t : N) (latest : option RunSummary)
        (ps : list Product) :
  reachesLoop sv t0 t ps ->
  let log := logOf (analyzeStream rt storesLatest sv
                      {| clock := t0; latestAnalysisResults := latest |}) in
  exists (outcomes : list (Product * Outcome JSON)) (r : RunSummary),
    map fst outcomes = ps
    /\ log = (openingLog (length ps)
              ++ loopLog (length ps) 0 outcomes
              ++ (if storesLatest then [StoreLatest r] else [])
              ++ [Send (Complete r); End])%list
    /\ filter isTimer log = repeat (Timer 200) (length ps)
    /\ (exists before lastItem,
           log = (before
                  ++ [Send (ProductResult lastItem); Timer 200]
                  ++ (if storesLatest then [StoreLatest r] else [])
                  ++ [Send (Complete r); End])%list).
Proof.
  intros Hloop log. subst log.
  rewrite (analyzeStream_completes rt storesLatest sv t0 latest t ps Hloop).
  unfold logOf; cbn [fst].
  exists (races sv 0 t ps), (summaryOf rt sv t ps).
  split; [apply races_products |].
  split; [reflexivity |].
  split.
  - unfold completedLog. rewrite !filter_app.
    rewrite filter_timers_loopLog, races_length.
    destruct storesLatest; cbn; now rewrite app_nil_r.
  - destruct Hloop as (_ & _ & _ & Hne).
    destruct (loopLog_ends_with_timer (length ps) (races sv 0 t ps) 0) as (before & item & Hlast).
    { intros Hnil. apply Hne. rewrite <- (races_products sv ps 0 t), Hnil. reflexivity. }
    exists (openingLog (length ps) ++ before)%list, item.
    unfold completedLog. rewrite Hlast, <- !app_assoc. reflexivity.
Qed.

End AbortClaims.

(* ====================================================================== *)
(** * The bounded endpoint *)
(* ====================================================================== *)

Section BoundedFacts.

Import Server.

Variable rt : Runtime.
Variable sv : Services.

(** The loop of the bounded endpoint awaits the analyses in turn and
    writes nothing. *)
Lemma quickLoop_run rest : forall i analyzed s,
  quickLoop sv i rest analyzed s =
    ([],
     {| clock := fst (awaitAll sv i rest (clock s));
        latestAnalysisResults := latestAnalysisResults s |},
     match snd (awaitAll sv i rest (clock s)) with
     | Resolve items => Resolve (analyzed ++ items)%list
     | Reject e => Reject e
     end).
Proof.
  induction rest as [| p rest IH]; intros i analyzed s.
  - cbn. unfold hret. rewrite app_nil_r. destruct s; reflexivity.
  - cbn [quickLoop awaitAll]. unfold hbind at 1, await at 1. unfold bind.
    destruct (analyzeProduct sv i p (clock s)) as [t1 [a | e]]; [| reflexivity].
    rewrite IH. cbn [clock latestAnalysisResults app].
    destruct (awaitAll sv (S i) rest t1) as [t2 [items | e]]; cbn.
    + now rewrite <- app_assoc.
    + reflexivity.
Qed.

Lemma awaitAll_products rest : forall i t t' items,
  awaitAll sv i rest t = (t', Resolve items) -> map product items = rest.
Proof.
  induction rest as [| p rest IH]; intros i t t' items.
  - cbn. intros [= <- <-]. reflexivity.
  - cbn [awaitAll]. unfold bind at 1.
    destruct (analyzeProduct sv i p t) as [t1 [a | e]]; [| discriminate].
    unfold bind. destruct (awaitAll sv (S i) rest t1) as [t2 [others | e]] eqn:Hrest;
      [| discriminate].
    cbn. intros [= <- <-]. cbn. f_equal. eapply IH; eauto.
Qed.

(** Each analysis of the bounded endpoint is the value its call resolved
    with. *)
Lemma awaitAll_analyses rest : forall i t t' items k item,
  awaitAll sv i rest t = (t', Resolve items) ->
  nth_error items k = Some item ->
  exists t1 t2,
    analyzeProduct sv (i + k) (product item) t1 = (t2, Resolve (analysis item)).
Proof.
  induction rest as [| p rest IH]; intros i t t' items k item.
  - cbn. intros [= <- <-]. destruct k; discriminate.
  - cbn [awaitAll]. unfold bind at 1.
    destruct (analyzeProduct sv i p t) as [t1 [a | e]] eqn:Hcall; [| discriminate].
    unfold bind. destruct (awaitAll sv (S i) rest t1) as [t2 [others | e]] eqn:Hrest;
      [| discriminate].
    cbn. intros [= <- <-]. destruct k as [| k]; cbn [nth_error].
    + intros [= <-]. cbn. rewrite Nat.add_0_r. eauto.
    + intros Hk. replace (i + S k)%nat with (S i + k)%nat by lia. eapply IH; eauto.
Qed.

(** The run of the bounded endpoint, case by case. *)
Lemma quickAnalyze_run s :
  quickAnalyze rt sv s =
    match presentToken (answer (getStoredToken sv)) with
    | None =>
        ([Json 401 (ErrorBody "Authentication required")],
         {| clock := tokenInstant sv (clock s);
            latestAnalysisResults := latestAnalysisResults s |},
         Resolve tt)
    | Some token =>
        match getTrendingProducts sv token 3 (tokenInstant sv (clock s)) with
        | (t2, Reject e) =>
            ([Json 500 (ErrorBody (message e))],
             {| clock := t2; latestAnalysisResults := latestAnalysisResults s |},
             Resolve tt)
        | (t2, Resolve []) =>
            ([Json 404 (ErrorBody "No products found")],
             {| clock := t2; latestAnalysisResults := latestAnalysisResults s |},
             Resolve tt)
        | (t2, Resolve ps) =>
            match awaitAll sv 0 ps t2 with
            | (t3, Reject e) =>
                ([Json 500 (ErrorBody (message e))],
                 {| clock := t3; latestAnalysisResults := latestAnalysisResults s |},
                 Resolve tt)
            | (t3, Resolve items) =>
                ([Json 200 (QuickBody (length items) (toISOString rt (Z.of_N t3)) items)],
                 {| clock := t3; latestAnalysisResults := latestAnalysisResults s |},
                 Resolve tt)
            end
        end
    end.
Proof.
  unfold quickAnalyze, tokenInstant.
  unfold hbind at 1, settle, await at 1, external. cbn [clock latestAnalysisResults latency answer].
  destruct (presentToken (answer (getStoredToken sv))) as [token |]; [| reflexivity].
  unfold htry, hbind at 1, await at 1. cbn [clock latestAnalysisResults].
  destruct (getTrendingProducts sv token 3 (clock s + latency (getStoredToken sv))%N)
    as [t2 [[| p ps] | e]]; try reflexivity.
  unfold hbind at 1. rewrite quickLoop_run. cbn [clock latestAnalysisResults].
  destruct (awaitAll sv 0 (p :: ps) t2) as [t3 [items | e]]; reflexivity.
Qed.

End BoundedFacts.

Section BoundedClaim.

Import Server.

Variable rt : Runtime.
Variable sv : Services.

(** C7 (the bounded endpoint).  [POST /api/quick-analyze] answers with
    one JSON response and writes no event: status 401 and an error body
    without a credential; status 500 and the message of the failure when
    the listing source or an analysis raises; status 404 when no product
    is fetched; otherwise status 200 and the body
    [{success: true, data: {totalProducts, timestamp, products}}], where
    [products] holds the fetched products in order, each with the value
    its analysis resolved with, the analyses being awaited one after the
    other without any ceiling. *)
Theorem bounded_endpoint_responses (s : State) :
  let run := quickAnalyze rt sv s in
  let t1 := tokenInstant sv (clock s) in
  (presentToken (answer (getStoredToken sv)) = None ->
     logOf run = [Json 401 (ErrorBody "Authentication required")])
  /\ (forall token, presentToken (answer (getStoredToken sv)) = Some token ->
        match getTrendingProducts sv token 3 t1 with
        | (_, Reject e) => logOf run = [Json 500 (ErrorBody (message e))]
        | (_, Resolve []) => logOf run = [Json 404 (ErrorBody "No products found")]
        | (t2, Resolve ps) =>
            match awaitAll sv 0 ps t2 with
            | (_, Reject e) => logOf run = [Json 500 (ErrorBody (message e))]
            | (t3, Resolve items) =>
                logOf run
                = [Json 200 (QuickBody (length ps) (toISOString rt (Z.of_N t3)) items)]
                /\ map product items = ps
                /\ (forall k item, nth_error items k = Some item ->
                      exists t' t'',
                        analyzeProduct sv k (product item) t'
                        = (t'', Resolve (analysis item)))
            end
        end)
  /\ events (logOf run) = []
  /\ (exists code body, logOf run = [Json code body])
  /\ latestAnalysisResults (stateOf run) = latestAnalysisResults s.
Proof.
  intros run t1. subst run. rewrite quickAnalyze_run. fold t1.
  destruct (presentToken (answer (getStoredToken sv))) as [token |].
  - split; [discriminate |].
    split.
    + intros token' [= <-].
      destruct (getTrendingProducts sv token 3 t1) as [t2 [[| p ps] | e]];
        try reflexivity.
      destruct (awaitAll sv 0 (p :: ps) t2) as [t3 [items | e]] eqn:Hall;
        [| reflexivity].
      pose proof (awaitAll_products sv _ _ _ _ _ Hall) as Hps.
      split; [| split; [exact Hps |]].
      * unfold logOf; cbn [fst]. rewrite <- Hps, length_map. reflexivity.
      * intros k item Hk.
        destruct (awaitAll_analyses sv _ _ _ _ _ _ _ Hall Hk) as (t' & t'' & H).
        eauto.
    + destruct (getTrendingProducts sv token 3 t1) as [t2 [[| p ps] | e]];
        try (repeat split; eexists _, _; reflexivity).
      destruct (awaitAll sv 0 (p :: ps) t2) as [t3 [items | e]];
        repeat split; eexists _, _; reflexivity.
  - split; [reflexivity |].
    split; [discriminate |].
    repeat split. eexists _, _; reflexivity.
Qed.

End BoundedClaim.

(* ====================================================================== *)
(** * The slot of the most recent results *)
(* ====================================================================== *)

Section SlotFacts.

Import Server App.

Variable rt : Runtime.

Lemma completed_app_complete log r rest :
  (forall e, In e rest -> match e with Send (Complete _) => False | _ => True end) ->
  completed (log ++ Send (Complete r) :: rest) = Some r.
Proof.
  intros Hrest. unfold completed. rewrite fold_left_app. cbn [fold_left].
  induction rest as [| e rest IH]; [reflexivity |].
  cbn [fold_left]. destruct e as [ | [ | | | | r'] | | | | ];
    try (apply IH; intros; apply Hrest; now right).
  exfalso. apply (Hrest (Send (Complete r'))). now left.
Qed.

Lemma stores_app l1 l2 : stores (l1 ++ l2) = (stores l1 ++ stores l2)%list.
Proof. apply flat_map_app. Qed.

Lemma stores_loopLog total outcomes : forall i, stores (loopLog total i outcomes) = [].
Proof.
  induction outcomes as [| po rest IH]; intros i; [reflexivity |].
  cbn [loopLog]. rewrite stores_app, IH. reflexivity.
Qed.

(** The log of a completed run of the storing handler stores its
    summary once, just before the [complete] event that carries it. *)
Lemma completedLog_stores sv t ps :
  stores (completedLog rt sv true t ps) = [summaryOf rt sv t ps]
  /\ completed (completedLog rt sv true t ps) = Some (summaryOf rt sv t ps)
  /\ exists before,
       completedLog rt sv true t ps
       = (before ++ [ StoreLatest (summaryOf rt sv t ps);
                      Send (Complete (summaryOf rt sv t ps)); End ])%list.
Proof.
  unfold completedLog. repeat split.
  - rewrite !stores_app, stores_loopLog. reflexivity.
  - rewrite !app_assoc. apply completed_app_complete.
    intros e [<- | []]. exact I.
  - exists (openingLog (length ps) ++ loopLog (length ps) 0 (races sv 0 t ps))%list.
    rewrite <- !app_assoc. reflexivity.
Qed.

(** A streaming run either reaches the loop or leaves no trace in the
    slot. *)
Lemma analyzeStream_cases storesLatest sv t0 latest :
  (exists t ps, reachesLoop sv t0 t ps)
  \/ (let run := analyzeStream rt storesLatest sv
                   {| clock := t0; latestAnalysisResults := latest |} in
      stores (logOf run) = []
      /\ completed (logOf run) = None
      /\ latestAnalysisResults (stateOf run) = latest).
Proof.
  destruct (presentToken (answer (getStoredToken sv))) as [token |] eqn:Htoken.
  - destruct (fetchRace sv token (tokenInstant sv t0)) as [t [[| p ps] | e]] eqn:Hfetch.
    + right. cbv zeta.
      rewrite (analyzeStream_fetch_empty rt storesLatest sv t0 latest token t Htoken Hfetch).
      repeat split.
    + left. exists t, (p :: ps), token.
      split; [assumption | split; [assumption | discriminate]].
    + right. cbv zeta.
      rewrite (analyzeStream_fetch_rejected rt storesLatest sv t0 latest token t e
                 Htoken Hfetch).
      repeat split.
  - right. cbv zeta.
    rewrite (analyzeStream_without_credential rt storesLatest sv t0 latest Htoken).
    repeat split.
Qed.

Lemma reachesLoop_unique sv t0 t ps t' ps' :
  reachesLoop sv t0 t ps -> reachesLoop sv t0 t' ps' -> t = t' /\ ps = ps'.
Proof.
  intros (token & Htoken & Hfetch & _) (token' & Htoken' & Hfetch' & _).
  rewrite Htoken in Htoken'. injection Htoken' as <-.
  rewrite Hfetch in Hfetch'. injection Hfetch' as <- <-. auto.
Qed.

(** One request, from the slot it finds. *)
Lemma serve_slot req latest :
  let '(log, latest') := serve rt true req latest in
  latest' = afterRun latest log
  /\ stores log = match completed log with Some r => [r] | None => [] end
  /\ (route req = GetLatestResults -> log = [latestAnswer latest]).
Proof.
  unfold serve, handler.
  destruct req as [t0 [ | | ] sv]; cbn [route services arrival].
  - destruct (analyzeStream_cases true sv t0 latest) as [(t & ps & Hloop) | Habort].
    + rewrite (analyzeStream_completes rt true sv t0 latest t ps Hloop).
      destruct (completedLog_stores sv t ps) as (Hstores & Hcompleted & _).
      cbn [latestAnalysisResults]. unfold afterRun. rewrite Hcompleted, Hstores.
      repeat split. discriminate.
    + cbv zeta in Habort.
      destruct (analyzeStream rt true sv {| clock := t0; latestAnalysisResults := latest |})
        as [[log s'] o]. unfold logOf, stateOf in Habort. cbn [fst snd] in Habort.
      destruct Habort as (Hstores & Hcompleted & Hslot).
      unfold afterRun. rewrite Hcompleted, Hstores, Hslot.
      repeat split. discriminate.
  - rewrite quickAnalyze_run. cbn [clock latestAnalysisResults].
    destruct (presentToken (answer (getStoredToken sv))) as [token |];
      [| repeat split; discriminate].
    destruct (getTrendingProducts sv token 3 (tokenInstant sv t0)) as [t2 [[| p ps] | e]];
      try (repeat split; discriminate).
    destruct (awaitAll sv 0 (p :: ps) t2) as [t3 [items | e]];
      repeat split; discriminate.
  - unfold latestResults. cbn [latestAnalysisResults].
    destruct latest as [r |]; repeat split.
Qed.

(** Requests in turn, from the slot they find. *)
Lemma serveAll_slot reqs : forall latest,
  let '(logs, final) := serveAll rt true reqs latest in
  length logs = length reqs
  /\ final = fold_left afterRun logs latest
  /\ Forall (fun log => stores log
                        = match completed log with Some r => [r] | None => [] end) logs
  /\ (forall n req, nth_error reqs n = Some req -> route req = GetLatestResults ->
        nth_error logs n
        = Some [latestAnswer (fold_left afterRun (firstn n logs) latest)]).
Proof.
  induction reqs as [| req rest IH]; intros latest.
  - cbn. repeat split; [constructor |]. intros [| n] req; discriminate.
  - cbn [serveAll].
    pose proof (serve_slot req latest) as Hreq.
    destruct (serve rt true req latest) as [log latest'].
    destruct Hreq as (Hslot & Hstores & Hget).
    specialize (IH latest').
    destruct (serveAll rt true rest latest') as [logs final].
    destruct IH as (Hlen & Hfinal & Hall & Hnth).
    cbn [length fold_left]. rewrite <- Hslot.
    repeat split; [now rewrite Hlen | exact Hfinal | now constructor |].
    intros [| n] req'; cbn [nth_error firstn fold_left].
    + intros [= <-] Hroute. now rewrite (Hget Hroute).
    + intros Hn Hroute. rewrite <- Hslot. now apply (Hnth n req').
Qed.

(** No handler lets an exception escape: the wrapper [asyncHandler] of
    [src/middleware/errorHandler.js] never has one to pass on. *)
Lemma handlers_never_throw storesLatest req t0 latest :
  exists log s',
    handler rt storesLatest req {| clock := t0; latestAnalysisResults := latest |}
    = (log, s', Resolve tt).
Proof.
  unfold handler. destruct req as [arrived [ | | ] sv]; cbn [route services].
  - destruct (presentToken (answer (getStoredToken sv))) as [token |] eqn:Htoken.
    + destruct (fetchRace sv token (tokenInstant sv t0)) as [t [[| p ps] | e]] eqn:Hfetch.
      * rewrite (analyzeStream_fetch_empty rt storesLatest sv t0 latest token t
                   Htoken Hfetch). eauto.
      * assert (Hloop : reachesLoop sv t0 t (p :: ps)).
        { exists token. split; [assumption | split; [assumption | discriminate]]. }
        rewrite (analyzeStream_completes rt storesLatest sv t0 latest t _ Hloop). eauto.
      * rewrite (analyzeStream_fetch_rejected rt storesLatest sv t0 latest token t e
                   Htoken Hfetch). eauto.
    + rewrite (analyzeStream_without_credential rt storesLatest sv t0 latest Htoken).
      eauto.
  - rewrite quickAnalyze_run.
    destruct (presentToken (answer (getStoredToken sv))) as [token |]; [| eauto].
    cbn [clock].
    destruct (getTrendingProducts sv token 3 (tokenInstant sv t0)) as [t2 [[| p ps] | e]];
      eauto.
    destruct (awaitAll sv 0 (p :: ps) t2) as [t3 [items | e]]; eauto.
  - unfold latestResults, perform. cbn [latestAnalysisResults].
    destruct latest; eauto.
Qed.

End SlotFacts.

Section SlotClaim.

Import Server App.

Variable rt : Runtime.

(** C8 (the slot of the most recent results).  In the process of
    [src/test-server.js]: (1) a streaming run that reaches the loop
    stores its summary exactly once, at its end, just before the
    [complete] event that carries it, and leaves it in the slot; (2) a
    streaming run that does not (no credential, fetch rejected, nothing
    fetched) stores nothing and leaves the slot as it was; (3) the
    accessor answers the content of the slot with status 200, or status
    404 when the slot is empty, and does not change it; (4) over any
    sequence of requests handled in turn from an empty slot, the slot
    ends with the summary of the most recent completed run, every log
    stores exactly the summary it completes with, and each call of the
    accessor answers the summary of the most recent run completed before
    it, or 404 when there is none. *)
Theorem latest_results_slot :
  (forall sv t0 latest t ps,
      reachesLoop sv t0 t ps ->
      let '(log, latest') := serve rt true (mkRequest t0 GetAnalyzeStream sv) latest in
      latest' = Some (summaryOf rt sv t ps)
      /\ stores log = [summaryOf rt sv t ps]
      /\ exists before,
           log = (before ++ [ StoreLatest (summaryOf rt sv t ps);
                              Send (Complete (summaryOf rt sv t ps)); End ])%list)
  /\ (forall sv t0 latest,
        ~ (exists t ps, reachesLoop sv t0 t ps) ->
        let '(log, latest') := serve rt true (mkRequest t0 GetAnalyzeStream sv) latest in
        latest' = latest /\ stores log = [] /\ completed log = None)
  /\ (forall sv t0 latest,
        serve rt true (mkRequest t0 GetLatestResults sv) latest
        = ([latestAnswer latest], latest))
  /\ (forall reqs,
        let '(logs, final) := serveAll rt true reqs None in
        final = mostRecentCompleted logs
        /\ Forall (fun log => stores log
                              = match completed log with Some r => [r] | None => [] end)
                  logs
        /\ (forall n req,
              nth_error reqs n = Some req -> route req = GetLatestResults ->
              nth_error logs n
              = Some [latestAnswer (mostRecentCompleted (firstn n logs))])).
Proof.
  split; [| split; [| split]].
  - intros sv t0 latest t ps Hloop. unfold serve, handler. cbn [route services arrival].
    rewrite (analyzeStream_completes rt true sv t0 latest t ps Hloop).
    destruct (completedLog_stores rt sv t ps) as (Hstores & _ & Hend).
    cbn [latestAnalysisResults]. auto.
  - intros sv t0 latest Hnot. unfold serve, handler. cbn [route services arrival].
    destruct (analyzeStream_cases rt true sv t0 latest) as [Hloop | Habort];
      [contradiction |].
    cbv zeta in Habort.
    destruct (analyzeStream rt true sv {| clock := t0; latestAnalysisResults := latest |})
      as [[log s'] o]. unfold logOf, stateOf in Habort. cbn [fst snd] in Habort.
    destruct Habort as (Hstores & Hcompleted & Hslot). auto.
  - intros sv t0 latest. unfold serve, handler, latestResults.
    cbn [route services arrival latestAnalysisResults].
    destruct latest; reflexivity.
  - intros reqs. pose proof (serveAll_slot rt reqs None) as H.
    destruct (serveAll rt true reqs None) as [logs final].
    destruct H as (_ & Hfinal & Hall & Hnth). auto.
Qed.

End SlotClaim.

(* ====================================================================== *)
(** * The services never reject *)
(* ====================================================================== *)

Section ServiceClaims.

Import Server App.

Variable rt : Runtime.

(** C9 (the analyzer never rejects).  For every product, whatever the
    OpenAI endpoint answers, [analyzeProduct] resolves, with a value that
    is not [null].  Without an OpenAI client it resolves at once with the
    rule-based analysis.  With one, when the call is rejected at every
    attempt with an error that is retried, it resolves after the last
    retry with an object whose [error] field is the message of the last
    failure; and when an attempt is rejected with an error that is not
    retried, with such an object for that failure.  Hence, in the
    program, whatever its listing source, the [catch] of the loop body is entered (an error is
    counted) only when the 8000 ms ceiling has elapsed before the
    analyzer settled, and the analysis it attaches is
    [{ error: "Analysis timeout" }]. *)
Theorem analyzer_never_rejects (w : World) (rank : nat) (p : Product) :
  let analyze :=
    ChatGPTService.analyzeProduct rt (openai w) (chatCompletion w rank) p in
  (forall retryCount t,
      exists t' a, analyze retryCount t = (t', Resolve a) /\ nonNull a = true)
  /\ (openai w = false ->
      forall retryCount t,
        analyze retryCount t
        = (t, Resolve (ChatGPTService.createFallbackAnalysis rt t p)))
  /\ (openai w = true ->
      (forall attempt, attempt <= ChatGPTService.maxRetries ->
         exists e, answer (chatCompletion w rank attempt) = Reject e
                   /\ ChatGPTService.shouldRetry e = true) ->
      forall t,
        exists t' last a,
          answer (chatCompletion w rank ChatGPTService.maxRetries) = Reject last
          /\ analyze 0 t = (t', Resolve a)
          /\ field "error" a = Some (JStr (message last)))
  /\ (openai w = true ->
      forall retryCount e t,
        answer (chatCompletion w rank retryCount) = Reject e ->
        ChatGPTService.shouldRetry e = false ->
        exists t' a,
          analyze retryCount t = (t', Resolve a)
          /\ field "error" a = Some (JStr (message e)))
  /\ (forall source total tally s,
        let '(log, _, o) := analyzeItem (wiredWith rt w source) total rank p tally s in
        exists tally',
          o = Resolve tally'
          /\ (errors tally' <> errors tally ->
              (clock s + 8000 < fst (analyze 0%nat (clock s)))%N
              /\ In (Send (ProductResult
                             {| product := p;
                                analysis := JObj [("error", JStr "Analysis timeout")] |}))
                    log)).
Proof.
  intros analyze. subst analyze. unfold ChatGPTService.analyzeProduct.
  split; [| split; [| split; [| split]]].
  - intros retryCount t. apply analyzeProductWith_resolves.
  - intros Hoff retryCount t. now apply analyzeProductWith_fallback.
  - intros Hon Hall t.
    destruct (analyzeProductWith_exhausted rt (openai w) (chatCompletion w rank)
                ChatGPTService.maxRetries p 0 t Hon) as (t' & last & Hlast & Hrun).
    { intros k Hk. apply Hall. lia. }
    exists t', last, (ChatGPTService.failedAnalysis rt last t').
    cbn [Nat.add] in Hlast. rewrite Nat.sub_0_r. repeat split; assumption.
  - intros Hon retryCount e t He Hstop.
    eexists _, _. split.
    + apply analyzeProductWith_gives_up; eauto.
    + reflexivity.
  - intros source total tally s. rewrite analyzeItem_run.
    eexists; split; [reflexivity |].
    cbn [tallyWith errors filter snd].
    destruct (itemRace (wiredWith rt w source) rank p (clock s)) as [t' [a | e]] eqn:Hrace;
      cbn [snd fst isRejected length]; [lia |].
    intros _. apply wired_itemRace_rejected in Hrace.
    destruct Hrace as (-> & _ & Hlate). split; [exact Hlate |].
    cbn. auto.
Qed.

(** C10 (the listing source never rejects).  For every credential and
    limit, whatever the Product Hunt endpoints answer,
    [getTrendingProducts] resolves.  When its [try] block (the GraphQL
    path) throws, the REST call is made: if it answers with posts, their
    transformed first [limit] are returned; if it fails too, the mock
    products are, and there are [min(limit, 20)] of them, so at least
    one when [limit >= 1].  Hence, in the program, a streaming run with a
    credential either reaches the loop, or ends with the [error] event
    "Fetch timeout" because the 15000 ms ceiling elapsed before the
    source settled, or ends with "No trending products found" because the
    source resolved in time, the instant of the ceiling included, with no
    product. *)
Theorem listing_source_never_rejects (w : World) (token : string) :
  let fetch :=
    ProductHuntService.getTrendingProducts rt
      (graphqlPost w) (restGet w) (mathRandom w) token in
  let graphql :=
    ProductHuntService.getTrendingProductsTry rt (graphqlPost w) token in
  (forall limit t, exists t' ps, fetch limit t = (t', Resolve ps))
  /\ (forall limit t t1 e posts,
        graphql limit t = (t1, Reject e) ->
        answer (restGet w)
        = Resolve {| ProductHuntService.rest_posts := Some posts |} ->
        fetch limit t
        = ((t1 + latency (restGet w))%N,
           Resolve (firstn limit
                      (map (ProductHuntService.transformRESTProduct rt
                              (t1 + latency (restGet w))%N) posts))))
  /\ (forall limit t t1 e,
        graphql limit t = (t1, Reject e) ->
        ((exists e', answer (restGet w) = Reject e')
         \/ answer (restGet w)
            = Resolve {| ProductHuntService.rest_posts := None |}) ->
        fetch limit t
        = ((t1 + latency (restGet w))%N,
           Resolve (ProductHuntService.getMockProducts rt (mathRandom w)
                      (t1 + latency (restGet w))%N limit)))
  /\ (forall limit t,
        length (ProductHuntService.getMockProducts rt (mathRandom w) t limit)
        = Nat.min limit 20
        /\ (1 <= limit ->
            ProductHuntService.getMockProducts rt (mathRandom w) t limit <> []))
  /\ (forall storesLatest t0 latest,
        presentToken (answer (storedToken w)) = Some token ->
        let started := tokenInstant (wired rt w) t0 in
        let evs := events (logOf (analyzeStream rt storesLatest (wired rt w)
                                    {| clock := t0; latestAnalysisResults := latest |})) in
        (exists t ps, reachesLoop (wired rt w) t0 t ps)
        \/ ((started + 15000 < fst (fetch 10%nat started))%N
            /\ evs = [ Status "Starting analysis..." "init" None;
                       Status "Fetching trending products..." "fetch" None;
                       ErrorEvent "Fetch timeout" ])
        \/ ((fst (fetch 10%nat started) <= started + 15000)%N
            /\ snd (fetch 10 started) = Resolve []
            /\ evs = [ Status "Starting analysis..." "init" None;
                       Status "Fetching trending products..." "fetch" None;
                       ErrorEvent "No trending products found" ])).
Proof.
  intros fetch graphql. subst fetch graphql.
  split; [| split; [| split; [| split]]].
  - intros limit t. apply getTrendingProducts_resolves.
  - intros limit t t1 e posts Htry Hrest.
    unfold ProductHuntService.getTrendingProducts, tryCatch. rewrite Htry.
    unfold ProductHuntService.getTrendingProductsREST, tryCatch, bind, external.
    rewrite Hrest. reflexivity.
  - intros limit t t1 e Htry Hrest.
    unfold ProductHuntService.getTrendingProducts, tryCatch. rewrite Htry.
    unfold ProductHuntService.getTrendingProductsREST, tryCatch, bind, external.
    destruct Hrest as [[e' ->] | ->]; reflexivity.
  - intros limit t.
    pose proof (getMockProducts_length rt (mathRandom w) t limit) as Hlen.
    split; [exact Hlen |].
    intros Hlimit Hnil. rewrite Hnil in Hlen. cbn in Hlen. lia.
  - intros storesLatest t0 latest Htoken started evs.
    assert (Htoken' : presentToken (answer (getStoredToken (wired rt w))) = Some token)
      by exact Htoken.
    destruct (fetchRace (wired rt w) token started) as [t [[| p ps] | e]] eqn:Hfetch.
    + right; right.
      pose proof Hfetch as Hrace. apply raceTimeout_settles in Hrace.
      destruct Hrace as [[Hsrc Hin] | (_ & [=] & _)].
      change (getTrendingProducts (wired rt w) token 10)
        with (ProductHuntService.getTrendingProducts rt
                (graphqlPost w) (restGet w) (mathRandom w) token 10) in Hsrc.
      rewrite Hsrc. cbn [fst snd]. repeat split; [exact Hin |].
      subst evs.
      now rewrite (analyzeStream_fetch_empty rt storesLatest _ t0 latest token t
                     Htoken' Hfetch).
    + left. exists t, (p :: ps), token.
      split; [assumption | split; [assumption | discriminate]].
    + right; left.
      pose proof Hfetch as Hrace. apply wired_fetchRace_rejected in Hrace.
      destruct Hrace as (-> & _ & Hlate). split; [exact Hlate |].
      subst evs.
      now rewrite (analyzeStream_fetch_rejected rt storesLatest _ t0 latest token t
                     (newError "Fetch timeout") Htoken' Hfetch).
Qed.

End ServiceClaims.

(* ====================================================================== *)
(** * The claims on concrete runs *)
(* ====================================================================== *)

Section ConcreteRuns.

Import Server App Examples.

Lemma offline_reaches_loop :
  reachesLoop (wired runtime offline) 1000 1205
    (ProductHuntService.getMockProducts runtime (mathRandom offline) 1205 10).
Proof.
  exists "token". split; [reflexivity |]. split; [vm_compute; reflexivity |].
  vm_compute. discriminate.
Defined.

Lemma threeItems_reaches_loop :
  reachesLoop threeItems 0 105 [item "A"; item "B"; item "C"].
Proof.
  exists "token". split; [reflexivity |]. split; [vm_compute; reflexivity |].
  discriminate.
Defined.

Lemma summary_totality_witness :
  reachesLoop (wired runtime offline) 1000 1205
    (ProductHuntService.getMockProducts runtime (mathRandom offline) 1205 10)
  /\ exists (r : RunSummary) (before : list Event),
       events (logOf (analyzeStream runtime false (wired runtime offline)
                        {| clock := 1000; latestAnalysisResults := None |}))
       = (before ++ [Complete r])%list
       /\ successCount r + errorCount r = totalProducts r
       /\ totalProducts r = length (products r)
       /\ length (products r)
          = length (ProductHuntService.getMockProducts runtime (mathRandom offline) 1205 10)
       /\ Forall (fun item =>
                    nonNull (analysis item) = true
                    /\ ((exists rank t1 t2,
                           analyzeProduct (wired runtime offline) rank (product item) t1
                           = (t2, Resolve (analysis item)))
                        \/ (exists m, analysis item = JObj [("error", JStr m)])))
                 (products r).
Proof.
  split; [exact offline_reaches_loop |].
  exact (summary_totality runtime false offline _ 1000 1205 None _ offline_reaches_loop).
Defined.

Lemma analysis_events_in_order_witness :
  reachesLoop threeItems 0 105 [item "A"; item "B"; item "C"]
  /\ let evs := events (logOf (analyzeStream runtime false threeItems
                                 {| clock := 0; latestAnalysisResults := None |})) in
     exists (items : list AnalyzedProduct) (r : RunSummary),
       map product items = [item "A"; item "B"; item "C"]
       /\ evs = ([ Status "Starting analysis..." "init" None;
                   Status "Fetching trending products..." "fetch" None;
                   Status ("Found " ++ Text.ofNat 3 ++ " products. Starting analysis...")
                          "analyze" (Some 3) ]
                 ++ expectedAnalysisEvents items
                 ++ [Complete r])%list
       /\ products r = items
       /\ progressCurrents evs = seq 1 3
       /\ map product (productResults evs) = [item "A"; item "B"; item "C"].
Proof.
  split; [exact threeItems_reaches_loop |].
  exact (analysis_events_in_order runtime false threeItems 0 105 None _
           threeItems_reaches_loop).
Defined.

Lemma stalling_reaches_loop :
  reachesLoop (wired runtime stalling) 1000 1205
    (ProductHuntService.getMockProducts runtime (mathRandom stalling) 1205 10).
Proof.
  exists "token". split; [reflexivity |]. split; [vm_compute; reflexivity |].
  vm_compute. discriminate.
Defined.

Lemma stalling_second_rejected :
  nth_error (races (wired runtime stalling) 0 1205
               (ProductHuntService.getMockProducts runtime (mathRandom stalling) 1205 10)) 1
  = Some (nth 1 (ProductHuntService.getMockProducts runtime (mathRandom stalling) 1205 10)
              (item ""),
          Reject (newError "Analysis timeout")).
Proof. vm_compute. reflexivity. Defined.

Lemma stalling_others_resolved :
  forall j po, j <> 1 ->
    nth_error (races (wired runtime stalling) 0 1205
                 (ProductHuntService.getMockProducts runtime (mathRandom stalling) 1205 10)) j
    = Some po ->
    isResolved (snd po) = true.
Proof.
  intros j po Hj Hnth.
  apply (map_nth_error (fun qo => isResolved (snd qo))) in Hnth.
  replace (map (fun qo : Product * Outcome JSON => isResolved (snd qo))
             (races (wired runtime stalling) 0 1205
                (ProductHuntService.getMockProducts runtime (mathRandom stalling) 1205 10)))
    with [true; false; true; true; true; true; true; true; true; true] in Hnth
    by (vm_compute; reflexivity).
  do 10 (destruct j as [| j]; [cbn in Hnth; congruence |]).
  destruct j; discriminate.
Defined.

Lemma secondRaises_reaches_loop :
  reachesLoop secondRaises 0 105 [item "A"; item "B"].
Proof.
  exists "token". split; [reflexivity |]. split; [vm_compute; reflexivity |].
  discriminate.
Defined.

Lemma secondRaises_others_resolved :
  forall j po, j <> 1 ->
    nth_error (races secondRaises 0 105 [item "A"; item "B"]) j = Some po ->
    isResolved (snd po) = true.
Proof.
  intros [| [| j]] po Hj Hnth; [| congruence | destruct j; discriminate].
  injection Hnth as <-. reflexivity.
Defined.

Lemma item_failure_is_isolated_witness :
  (let evs := events (logOf (analyzeStream runtime false secondRaises
                               {| clock := 0; latestAnalysisResults := None |})) in
   exists (r : RunSummary) (before : list Event),
     evs = (before ++ [Complete r])%list
     /\ map product (productResults evs) = [item "A"; item "B"]
     /\ productResults evs = products r
     /\ nth_error (products r) 1
        = Some {| product := item "B";
                  analysis := JObj [("error", JStr "quota exceeded")] |}
     /\ (exists started,
           (exists settled,
              analyzeProduct secondRaises 1 (item "B") started
              = (settled, Reject (newError "quota exceeded"))
              /\ (settled <= started + 8000)%N)
           \/ (newError "quota exceeded" = newError "Analysis timeout"
               /\ (started + 8000
                   < fst (analyzeProduct secondRaises 1 (item "B") started))%N))
     /\ errorCount r = 1
     /\ successCount r + 1 = 2
     /\ (forall j q a,
            nth_error (races secondRaises 0 105 [item "A"; item "B"]) j
            = Some (q, Resolve a) ->
            nth_error (products r) j = Some {| product := q; analysis := a |}))
  /\ (let ps := ProductHuntService.getMockProducts runtime (mathRandom stalling) 1205 10 in
      let evs := events (logOf (analyzeStream runtime false (wired runtime stalling)
                                  {| clock := 1000; latestAnalysisResults := None |})) in
      exists (r : RunSummary) (before : list Event),
        evs = (before ++ [Complete r])%list
        /\ map product (productResults evs) = ps
        /\ productResults evs = products r
        /\ nth_error (products r) 1
           = Some {| product := nth 1 ps (item "");
                     analysis := JObj [("error", JStr "Analysis timeout")] |}
        /\ (exists started,
              (exists settled,
                 analyzeProduct (wired runtime stalling) 1 (nth 1 ps (item "")) started
                 = (settled, Reject (newError "Analysis timeout"))
                 /\ (settled <= started + 8000)%N)
              \/ (newError "Analysis timeout" = newError "Analysis timeout"
                  /\ (started + 8000
                      < fst (analyzeProduct (wired runtime stalling) 1
                               (nth 1 ps (item "")) started))%N))
        /\ errorCount r = 1
        /\ successCount r + 1 = length ps
        /\ (forall j q a,
               nth_error (races (wired runtime stalling) 0 1205 ps) j
               = Some (q, Resolve a) ->
               nth_error (products r) j = Some {| product := q; analysis := a |})).
Proof.
  split.
  - exact (item_failure_is_isolated runtime false secondRaises 0 105 None _ 1 _ _
             secondRaises_reaches_loop eq_refl secondRaises_others_resolved).
  - exact (item_failure_is_isolated runtime false (wired runtime stalling) 1000 1205
             None _ 1 _ _
             stalling_reaches_loop stalling_second_rejected stalling_others_resolved).
Defined.

(** C3, as first stated, asks for a non-empty [error] field.  An
    analyzer that raises, for the second of two products, an error whose
    message is empty: the run completes with one error counted, and the
    [error] field of that product is the empty text. *)
Lemma error_field_of_an_empty_message :
  let evs := events (logOf (analyzeStream runtime false secondRaisesSilently
                              {| clock := 0; latestAnalysisResults := None |})) in
  analyzeProduct secondRaisesSilently 1 (item "B") 305%N = (355%N, Reject (newError ""))
  /\ map snd (races secondRaisesSilently 0 105 [item "A"; item "B"])
     = [Resolve fine; Reject (newError "")]
  /\ productResults evs
     = [ {| product := item "A"; analysis := fine |};
         {| product := item "B"; analysis := JObj [("error", JStr "")] |} ]
  /\ (exists r, last evs (ErrorEvent "") = Complete r
                /\ errorCount r = 1 /\ successCount r = 1).
Proof.
  cbv zeta. split; [reflexivity |]. split; [reflexivity |]. split; [reflexivity |].
  eexists. split; [reflexivity |]. split; reflexivity.
Defined.

Lemma fetch_failure_ends_the_run_witness :
  (logOf (analyzeStream runtime false slowFetch (start 0))
   = [ WriteHead 200;
       Send (Status "Starting analysis..." "init" None);
       Send (Status "Fetching trending products..." "fetch" None);
       Send (ErrorEvent "Fetch timeout"); End ]
   /\ clock (stateOf (analyzeStream runtime false slowFetch (start 0))) = 15005%N)
  /\ logOf (analyzeStream runtime false failingFetch (start 0))
     = [ WriteHead 200;
         Send (Status "Starting analysis..." "init" None);
         Send (Status "Fetching trending products..." "fetch" None);
         Send (ErrorEvent "socket hang up"); End ]
  /\ logOf (analyzeStream runtime false emptyFetch (start 0))
     = [ WriteHead 200;
         Send (Status "Starting analysis..." "init" None);
         Send (Status "Fetching trending products..." "fetch" None);
         Send (ErrorEvent "No trending products found"); End; End ].
Proof.
  split; [| split].
  - apply (proj1 (fetch_failure_ends_the_run runtime false slowFetch 0 None "token"
                    eq_refl)).
    reflexivity.
  - apply (proj1 (proj2 (fetch_failure_ends_the_run runtime false failingFetch 0 None
                           "token" eq_refl)) (newError "socket hang up"));
      [vm_compute; discriminate | reflexivity].
  - apply (proj1 (proj2 (proj2 (fetch_failure_ends_the_run runtime false emptyFetch 0
                                  None "token" eq_refl))));
      [vm_compute; discriminate | reflexivity].
Defined.

Lemma missing_credential_ends_the_run_witness :
  presentToken (answer (getStoredToken withoutToken)) = None
  /\ logOf (analyzeStream runtime false withoutToken (start 0))
     = [ WriteHead 200;
         Send (Status "Starting analysis..." "init" None);
         Send (ErrorEvent "Authentication required. Please set up API credentials.");
         End; End ].
Proof.
  split; [reflexivity |].
  apply (missing_credential_ends_the_run runtime false withoutToken 0 None eq_refl).
Defined.

(** C5, as stated, fails: without a credential the trace of the run
    holds a [status] event, written before the lookup. *)
Lemma status_event_without_credential :
  presentToken (answer (getStoredToken withoutToken)) = None
  /\ events (logOf (analyzeStream runtime false withoutToken (start 0)))
     = [ Status "Starting analysis..." "init" None;
         ErrorEvent "Authentication required. Please set up API credentials." ]
  /\ existsb isStatus
       (events (logOf (analyzeStream runtime false withoutToken (start 0)))) = true.
Proof. repeat split. Qed.

Lemma oneItem_reaches_loop : reachesLoop oneItem 0 105 [item "A"].
Proof.
  exists "token". split; [reflexivity |]. split; [vm_compute; reflexivity |].
  discriminate.
Defined.

Lemma delay_follows_every_item_witness :
  reachesLoop oneItem 0 105 [item "A"]
  /\ let log := logOf (analyzeStream runtime false oneItem
                         {| clock := 0; latestAnalysisResults := None |}) in
     exists (outcomes : list (Product * Outcome JSON)) (r : RunSummary),
       map fst outcomes = [item "A"]
       /\ log = (openingLog 1 ++ loopLog 1 0 outcomes ++ [] ++ [Send (Complete r); End])%list
       /\ filter isTimer log = repeat (Timer 200) 1
       /\ (exists before lastItem,
              log = (before ++ [Send (ProductResult lastItem); Timer 200]
                     ++ [] ++ [Send (Complete r); End])%list).
Proof.
  split; [exact oneItem_reaches_loop |].
  exact (delay_follows_every_item runtime false oneItem 0 105 None _ oneItem_reaches_loop).
Defined.

(** C6, as stated, fails: in a run over one product, the 200 ms timer is
    awaited between the [product] event of that product, the last one,
    and the [complete] event, whose timestamp is 200 ms later. *)
Lemma delay_after_the_final_item :
  logOf (analyzeStream runtime false oneItem (start 0))
  = [ WriteHead 200;
      Send (Status "Starting analysis..." "init" None);
      Send (Status "Fetching trending products..." "fetch" None);
      Send (Status "Found 1 products. Starting analysis..." "analyze" (Some 1));
      Send (Progress 1 1 "Item A" "Analyzing Item A...");
      Send (ProductResult {| product := item "A"; analysis := fine |});
      Timer 200;
      Send (Complete {| totalProducts := 1;
                        successCount := 1;
                        errorCount := 0;
                        timestamp := "355";
                        products := [{| product := item "A"; analysis := fine |}] |});
      End ].
Proof. reflexivity. Qed.

Lemma bounded_endpoint_responses_witness :
  logOf (quickAnalyze runtime withoutToken (start 0))
  = [Json 401 (ErrorBody "Authentication required")]
  /\ logOf (quickAnalyze runtime emptyFetch (start 0))
     = [Json 404 (ErrorBody "No products found")]
  /\ logOf (quickAnalyze runtime failingFetch (start 0))
     = [Json 500 (ErrorBody "socket hang up")]
  /\ logOf (quickAnalyze runtime secondRaises (start 0))
     = [Json 500 (ErrorBody "quota exceeded")]
  /\ logOf (quickAnalyze runtime secondSlow (start 0))
     = [Json 200 (QuickBody 2 "20155"
                    [ {| product := item "A"; analysis := fine |};
                      {| product := item "B"; analysis := fine |} ])].
Proof.
  split; [| split; [| split; [| split]]].
  - exact (proj1 (bounded_endpoint_responses runtime withoutToken (start 0)) eq_refl).
  - exact (proj1 (proj2 (bounded_endpoint_responses runtime emptyFetch (start 0)))
             "token" eq_refl).
  - exact (proj1 (proj2 (bounded_endpoint_responses runtime failingFetch (start 0)))
             "token" eq_refl).
  - exact (proj1 (proj2 (bounded_endpoint_responses runtime secondRaises (start 0)))
             "token" eq_refl).
  - exact (proj1 (proj1 (proj2 (bounded_endpoint_responses runtime secondSlow (start 0)))
                    "token" eq_refl)).
Defined.

Lemma latest_results_slot_witness :
  (let '(log, latest') :=
     serve runtime true (mkRequest 0 GetAnalyzeStream threeItems) None in
   latest' = Some (summaryOf runtime threeItems 105 [item "A"; item "B"; item "C"])
   /\ stores log = [summaryOf runtime threeItems 105 [item "A"; item "B"; item "C"]]
   /\ exists before,
        log = (before
               ++ [ StoreLatest (summaryOf runtime threeItems 105
                                   [item "A"; item "B"; item "C"]);
                    Send (Complete (summaryOf runtime threeItems 105
                                      [item "A"; item "B"; item "C"]));
                    End ])%list)
  /\ (let '(logs, final) := serveAll runtime true exampleRequests None in
      final = mostRecentCompleted logs
      /\ Forall (fun log => stores log
                            = match completed log with Some r => [r] | None => [] end)
                logs
      /\ (forall n req,
            nth_error exampleRequests n = Some req -> route req = GetLatestResults ->
            nth_error logs n
            = Some [latestAnswer (mostRecentCompleted (firstn n logs))])).
Proof.
  split.
  - exact (proj1 (latest_results_slot runtime) threeItems 0%N None 105%N _
             threeItems_reaches_loop).
  - exact (proj2 (proj2 (proj2 (latest_results_slot runtime))) exampleRequests).
Defined.

Lemma analyzer_never_rejects_witness :
  (* no client: the rule-based analysis *)
  (forall retryCount t,
      ChatGPTService.analyzeProduct runtime (openai offline) (chatCompletion offline 0)
        (item "A") retryCount t
      = (t, Resolve (ChatGPTService.createFallbackAnalysis runtime t (item "A"))))
  (* every attempt refused: the message of the last failure *)
  /\ (forall t,
        exists t' last a,
          answer (chatCompletion throttled 0 ChatGPTService.maxRetries) = Reject last
          /\ ChatGPTService.analyzeProduct runtime (openai throttled)
               (chatCompletion throttled 0) (item "A") 0 t = (t', Resolve a)
          /\ field "error" a = Some (JStr (message last))).
Proof.
  split.
  - exact (proj1 (proj2 (analyzer_never_rejects runtime offline 0 (item "A"))) eq_refl).
  - apply (proj1 (proj2 (proj2 (analyzer_never_rejects runtime throttled 0 (item "A"))))
             eq_refl).
    intros attempt _. exists rateLimited. split; reflexivity.
Defined.

Lemma listing_source_never_rejects_witness :
  ProductHuntService.getTrendingProducts runtime
    (graphqlPost offline) (restGet offline) (mathRandom offline) "token" 10 1005%N
  = (1205%N,
     Resolve (ProductHuntService.getMockProducts runtime (mathRandom offline) 1205%N 10))
  /\ (1 <= 10 ->
      ProductHuntService.getMockProducts runtime (mathRandom offline) 1205%N 10 <> []).
Proof.
  split.
  - apply (proj1 (proj2 (proj2 (listing_source_never_rejects runtime offline "token")))
             10 1005%N 1105%N (newError "getaddrinfo ENOTFOUND")).
    + vm_compute. reflexivity.
    + left. exists (newError "getaddrinfo ENOTFOUND"). reflexivity.
  - exact (proj2 (proj1 (proj2 (proj2 (proj2
             (listing_source_never_rejects runtime offline "token")))) 10 1205%N)).
Defined.

End ConcreteRuns.

(* ====================================================================== *)
(** * The order of the listing *)
(* ====================================================================== *)

Section SortFacts.

Import ProductHuntService Reading.

Lemma insertByVotes_perm x sorted : Permutation (x :: sorted) (insertByVotes x sorted).
Proof.
  induction sorted as [| y rest IH]; cbn [insertByVotes]; [reflexivity |].
  destruct (orZero (post_votesCount y) <=? orZero (post_votesCount x))%Z; [reflexivity |].
  rewrite perm_swap. now apply perm_skip.
Qed.

Lemma insertByVotes_head x sorted bound :
  (votesOf x <= bound)%Z ->
  Forall (fun y => (votesOf y <= bound)%Z) sorted ->
  Forall (fun y => (votesOf y <= bound)%Z) (insertByVotes x sorted).
Proof.
  intros Hx Hall. eapply Permutation_Forall; [apply insertByVotes_perm |].
  now constructor.
Qed.

Lemma insertByVotes_sorted x sorted :
  StronglySorted (fun a b => (votesOf b <= votesOf a)%Z) sorted ->
  StronglySorted (fun a b => (votesOf b <= votesOf a)%Z) (insertByVotes x sorted).
Proof.
  induction 1 as [| y rest Hrest IH Hy]; cbn [insertByVotes].
  - repeat constructor.
  - fold (votesOf y) (votesOf x).
    destruct (Z.leb_spec (votesOf y) (votesOf x)) as [Hle | Hgt].
    + constructor; [now constructor |].
      constructor; [exact Hle |].
      eapply Forall_impl; [| exact Hy]. cbn. intros; lia.
    + constructor; [exact IH |].
      apply insertByVotes_head; [lia | exact Hy].
Qed.

Lemma filter_insertByVotes (v : Z) x sorted :
  filter (fun y => (votesOf y =? v)%Z) (insertByVotes x sorted)
  = filter (fun y => (votesOf y =? v)%Z) (x :: sorted).
Proof.
  induction sorted as [| y rest IH]; cbn [insertByVotes]; [reflexivity |].
  fold (votesOf y) (votesOf x).
  destruct (Z.leb_spec (votesOf y) (votesOf x)) as [Hle | Hgt]; [reflexivity |].
  cbn [filter] in *. rewrite IH.
  destruct (Z.eqb_spec (votesOf x) v) as [Hx | Hx]; [| reflexivity].
  destruct (Z.eqb_spec (votesOf y) v) as [Hy | Hy]; [lia | reflexivity].
Qed.

Lemma sortByVotes_perm (posts : list Post) : Permutation posts (sortByVotes posts).
Proof.
  unfold sortByVotes. induction posts as [| x rest IH]; cbn [fold_right]; [constructor |].
  rewrite <- insertByVotes_perm. now apply perm_skip.
Qed.

Lemma sortByVotes_sorted (posts : list Post) :
  StronglySorted (fun a b => (votesOf b <= votesOf a)%Z) (sortByVotes posts).
Proof.
  unfold sortByVotes. induction posts as [| x rest IH]; cbn [fold_right]; [constructor |].
  now apply insertByVotes_sorted.
Qed.

(** X1.  [todaysProducts.sort((a, b) => (b.votesCount || 0) -
    (a.votesCount || 0))] rearranges the posts without losing or
    duplicating any, puts them by decreasing [votesCount || 0], and keeps
    posts with equal votes in the order of the answer. *)
Theorem sortByVotes_sorts (posts : list Post) :
  Permutation posts (sortByVotes posts)
  /\ StronglySorted (fun a b => (votesOf b <= votesOf a)%Z) (sortByVotes posts)
  /\ (forall v, filter (fun y => (votesOf y =? v)%Z) (sortByVotes posts)
                = filter (fun y => (votesOf y =? v)%Z) posts).
Proof.
  split; [apply sortByVotes_perm | split; [apply sortByVotes_sorted |]].
  unfold sortByVotes. induction posts as [| x rest IH]; cbn [fold_right]; intros v.
  - reflexivity.
  - rewrite filter_insertByVotes. cbn [filter]. now rewrite IH.
Qed.

End SortFacts.

Section ListFacts.

Context {A : Type}.

Lemma In_firstn (n : nat) (l : list A) (x : A) : In x (firstn n l) -> In x l.
Proof.
  intros Hin. rewrite <- (firstn_skipn n l). apply in_or_app. now left.
Qed.

Lemma In_skipn (n : nat) (l : list A) (x : A) : In x (skipn n l) -> In x l.
Proof.
  intros Hin. rewrite <- (firstn_skipn n l). apply in_or_app. now right.
Qed.

Lemma StronglySorted_app_l (R : A -> A -> Prop) (l1 l2 : list A) :
  StronglySorted R (l1 ++ l2) -> StronglySorted R l1.
Proof.
  induction l1 as [| a l1 IH]; cbn; intros Hsorted; [constructor |].
  apply StronglySorted_inv in Hsorted. destruct Hsorted as [Hrest Hall].
  constructor; [now apply IH |].
  apply Forall_app in Hall. tauto.
Qed.

Lemma StronglySorted_app_cross (R : A -> A -> Prop) (l1 l2 : list A) :
  StronglySorted R (l1 ++ l2) ->
  forall a b, In a l1 -> In b l2 -> R a b.
Proof.
  induction l1 as [| c l1 IH]; cbn; intros Hsorted a b Ha Hb; [contradiction |].
  apply StronglySorted_inv in Hsorted. destruct Hsorted as [Hrest Hall].
  destruct Ha as [<- | Ha]; [| now apply IH].
  rewrite Forall_forall in Hall. apply Hall, in_or_app. now right.
Qed.

End ListFacts.

(* ====================================================================== *)
(** * What the listing source returns *)
(* ====================================================================== *)

Section ListingResults.

Import ProductHuntService Reading.

Variable rt : Runtime.
Variable graphqlPost : nat -> Timed (Outcome GraphQLBody).
Variable restGet : Timed (Outcome RestBody).
Variable mathRandom : nat -> N.

(** The posts chosen by the [try] block from the posts of the answer. *)
Lemma getTrendingProductsTry_chooses accessToken limit t t1 body posts :
  makeGraphQLRequest graphqlPost 0 t = (t1, Resolve body) ->
  gql_posts body = Some posts ->
  let today := filter (launchedToday rt (localMidnight rt (Z.of_N t1))) posts in
  getTrendingProductsTry rt graphqlPost accessToken limit t
  = (t1, Resolve (map (transformProduct rt t1)
                    (match firstn limit (sortByVotes today) with
                     | [] => firstn limit posts
                     | chosen => chosen
                     end))).
Proof.
  intros Hrequest Hposts today. subst today.
  unfold getTrendingProductsTry, bind. rewrite Hrequest, Hposts. cbn [now].
  destruct (firstn limit (sortByVotes
              (filter (launchedToday rt (localMidnight rt (Z.of_N t1))) posts)));
    reflexivity.
Qed.

Lemma getTrendingProductsTry_length accessToken limit t t' ps :
  getTrendingProductsTry rt graphqlPost accessToken limit t = (t', Resolve ps) ->
  length ps <= limit.
Proof.
  unfold getTrendingProductsTry, bind.
  destruct (makeGraphQLRequest graphqlPost 0 t) as [t1 [body | e]]; [| discriminate].
  destruct (gql_posts body) as [posts |]; [| discriminate]. cbn [now].
  destruct (firstn limit (sortByVotes
              (filter (launchedToday rt (localMidnight rt (Z.of_N t1))) posts)))
    as [| x chosen] eqn:Hchosen; cbn [ret]; intros [= <- <-].
  - rewrite length_map, length_firstn. lia.
  - change (length (map (transformProduct rt t1) (x :: chosen)) <= limit).
    rewrite length_map, <- Hchosen, length_firstn. lia.
Qed.

Lemma getTrendingProductsREST_length accessToken limit t t' ps :
  getTrendingProductsREST rt restGet accessToken limit t = (t', Resolve ps) ->
  length ps <= limit.
Proof.
  unfold getTrendingProductsREST, tryCatch, bind, external.
  destruct (answer restGet) as [data | e]; [| discriminate].
  destruct (rest_posts data) as [posts |]; [| discriminate].
  cbn. intros [= <- <-]. rewrite length_firstn. lia.
Qed.

Lemma getTrendingProducts_length accessToken limit t t' ps :
  getTrendingProducts rt graphqlPost restGet mathRandom accessToken limit t
  = (t', Resolve ps) ->
  length ps <= limit.
Proof.
  unfold getTrendingProducts, tryCatch.
  destruct (getTrendingProductsTry rt graphqlPost accessToken limit t)
    as [t1 [ps1 | e1]] eqn:Htry.
  - intros [= <- <-]. eapply getTrendingProductsTry_length; eauto.
  - destruct (getTrendingProductsREST rt restGet accessToken limit t1)
      as [t2 [ps2 | e2]] eqn:Hrest.
    + intros [= <- <-]. eapply getTrendingProductsREST_length; eauto.
    + cbn. intros [= <- <-]. rewrite getMockProducts_length. lia.
Qed.

(** X2.  Whatever path it takes (GraphQL, REST or mock products),
    [getTrendingProducts(accessToken, limit)] resolves, and with at most
    [limit] products. *)
Theorem getTrendingProducts_at_most_limit accessToken limit t :
  exists t' ps,
    getTrendingProducts rt graphqlPost restGet mathRandom accessToken limit t
    = (t', Resolve ps)
    /\ length ps <= limit.
Proof.
  destruct (getTrendingProducts_resolves rt graphqlPost restGet mathRandom
              accessToken limit t) as (t' & ps & Hrun).
  exists t', ps. split; [exact Hrun |].
  eapply getTrendingProducts_length; eauto.
Qed.

(** X3.  When the GraphQL request resolves with posts of which at least
    one was created or featured today, and [limit] is positive,
    [getTrendingProducts] resolves with the transformed posts of today
    only, by decreasing votes, the [limit] best of them; when none was,
    with the first [limit] posts in the order of the answer. *)
Theorem getTrendingProducts_prefers_today accessToken limit t t1 body posts :
  makeGraphQLRequest graphqlPost 0 t = (t1, Resolve body) ->
  gql_posts body = Some posts ->
  let isToday := launchedToday rt (localMidnight rt (Z.of_N t1)) in
  exists chosen,
    getTrendingProducts rt graphqlPost restGet mathRandom accessToken limit t
    = (t1, Resolve (map (transformProduct rt t1) chosen))
    /\ length chosen <= limit
    /\ (forall post, In post chosen -> In post posts)
    /\ (existsb isToday posts = true -> 1 <= limit ->
        chosen <> []
        /\ Forall (fun post => isToday post = true) chosen
        /\ StronglySorted (fun a b => (votesOf b <= votesOf a)%Z) chosen
        /\ (forall post, In post posts -> isToday post = true ->
              In post chosen
              \/ Forall (fun c => (votesOf post <= votesOf c)%Z) chosen
                 /\ length chosen = limit))
    /\ (existsb isToday posts = false -> chosen = firstn limit posts).
Proof.
  intros Hrequest Hposts isToday.
  pose proof (getTrendingProductsTry_chooses accessToken limit t t1 body posts
                Hrequest Hposts) as Htry. cbv zeta in Htry. fold isToday in Htry.
  pose proof (sortByVotes_perm (filter isToday posts)) as Hperm.
  pose proof (sortByVotes_sorted (filter isToday posts)) as Hsorted.
  set (sorted := sortByVotes (filter isToday posts)) in *.
  exists (match firstn limit sorted with [] => firstn limit posts | chosen => chosen end).
  split; [unfold getTrendingProducts, tryCatch; rewrite Htry; reflexivity |].
  assert (Hin_sorted : forall post, In post sorted <-> In post posts /\ isToday post = true).
  { intros post. rewrite <- filter_In. split; apply Permutation_in;
      [symmetry |]; exact Hperm. }
  split; [| split; [| split]].
  - destruct (firstn limit sorted) as [| x chosen] eqn:Hchosen.
    + rewrite length_firstn. lia.
    + rewrite <- Hchosen, length_firstn. lia.
  - intros post. destruct (firstn limit sorted) as [| x chosen] eqn:Hchosen.
    + apply In_firstn.
    + intros Hin. rewrite <- Hchosen in Hin.
      apply In_firstn in Hin. now apply Hin_sorted.
  - intros Hsome Hlimit.
    apply existsb_exists in Hsome. destruct Hsome as (witness & Hw & Hwtoday).
    assert (Hne : sorted <> []).
    { intros Hnil. assert (Hin : In witness sorted) by now apply Hin_sorted.
      rewrite Hnil in Hin. contradiction. }
    destruct sorted as [| s0 srest] eqn:Hs; [congruence |].
    destruct limit as [| limit']; [lia |]. cbn [firstn].
    rewrite <- (firstn_skipn limit' srest) in Hsorted, Hin_sorted.
    split; [discriminate |]. split; [| split].
    + apply Forall_forall. intros post Hin.
      apply (Hin_sorted post). destruct Hin as [<- | Hin]; [now left | right].
      apply in_or_app. now left.
    + change (s0 :: firstn limit' srest ++ skipn limit' srest)%list
        with ((s0 :: firstn limit' srest) ++ skipn limit' srest)%list in Hsorted.
      apply StronglySorted_app_l in Hsorted. exact Hsorted.
    + intros post Hin Htoday.
      assert (Hpost : In post (s0 :: firstn limit' srest ++ skipn limit' srest)%list)
        by now apply (Hin_sorted post).
      change (s0 :: firstn limit' srest ++ skipn limit' srest)%list
        with ((s0 :: firstn limit' srest) ++ skipn limit' srest)%list in Hpost, Hsorted.
      apply in_app_or in Hpost. destruct Hpost as [Hpost | Hpost]; [now left | right].
      split.
      * apply Forall_forall. intros c Hc.
        apply (StronglySorted_app_cross _ _ _ Hsorted c post Hc Hpost).
      * cbn [length]. f_equal. rewrite length_firstn.
        destruct (Nat.le_gt_cases limit' (length srest)) as [Hle | Hgt]; [lia |].
        rewrite skipn_all2 in Hpost by lia. contradiction.
  - intros Hnone.
    assert (Hnil : filter isToday posts = []).
    { destruct (filter isToday posts) as [| x rest] eqn:Hf; [reflexivity |].
      assert (Hx : In x (filter isToday posts)) by (rewrite Hf; now left).
      apply filter_In in Hx. destruct Hx as [Hx Htoday].
      assert (Hex : existsb isToday posts = true) by (apply existsb_exists; eauto).
      congruence. }
    subst sorted. rewrite Hnil. cbn. destruct limit; reflexivity.
Qed.

End ListingResults.

(* ====================================================================== *)
(** * Every streaming run: how it ends and how long it lasts *)
(* ====================================================================== *)

Section RunFacts.

Import Server Reading.

Variable sv : Services.

Lemma raceTimeout_bound {A} (m : Async A) ms msg t :
  (fst (raceTimeout m ms msg t) <= t + ms)%N.
Proof.
  unfold raceTimeout. destruct (m t) as [t1 o1].
  destruct (N.leb_spec t1 (t + ms)%N); cbn [fst]; lia.
Qed.

Lemma loopEnd_bound rest : forall i t,
  (loopEnd sv i t rest <= t + 8200 * N.of_nat (length rest))%N.
Proof.
  induction rest as [| p rest IH]; intros i t; cbn [loopEnd length]; [lia |].
  pose proof (raceTimeout_bound (analyzeProduct sv i p) 8000 "Analysis timeout" t) as Hrace.
  unfold itemRace. destruct (raceTimeout (analyzeProduct sv i p) 8000 "Analysis timeout" t)
    as [t' o]. cbn [fst] in Hrace.
  specialize (IH (S i) (t' + 200)%N). lia.
Qed.

Lemma expectedEventsFrom_not_terminal total items : forall c,
  Forall (fun ev => isTerminal ev = false) (expectedEventsFrom total c items).
Proof.
  induction items as [| item rest IH]; intros c; cbn; [constructor |].
  repeat constructor. apply IH.
Qed.

Lemma events_completedLog rt storesLatest t ps :
  events (completedLog rt sv storesLatest t ps)
  = ([ Status "Starting analysis..." "init" None;
       Status "Fetching trending products..." "fetch" None;
       Status ("Found " ++ Text.ofNat (length ps) ++ " products. Starting analysis...")
         "analyze" (Some (length ps)) ]
     ++ expectedEventsFrom (length ps) 1 (map attach (races sv 0 t ps))
     ++ [Complete (summaryOf rt sv t ps)])%list.
Proof.
  unfold completedLog, openingLog. rewrite !events_app, events_loopLog.
  destruct storesLatest; reflexivity.
Qed.

End RunFacts.

Section RunInvariants.

Import Server App Reading.

Variable rt : Runtime.
Variable storesLatest : bool.

(** X4.  Every streaming run, whatever the services answer, returns
    without throwing; it writes the head 200 and the [init] status
    first, [res.end()] last, and exactly one [error] or [complete]
    event, which is its last event; that event is [complete] exactly
    when the run reached the analysis loop. *)
Theorem streaming_run_ends_once (sv : Services) (t0 : N) (latest : option RunSummary) :
  let run := analyzeStream rt storesLatest sv
               {| clock := t0; latestAnalysisResults := latest |} in
  snd run = Resolve tt
  /\ (exists rest,
        logOf run
        = WriteHead 200 :: Send (Status "Starting analysis..." "init" None) :: rest)
  /\ (exists before, logOf run = before ++ [End])%list
  /\ (exists before terminal,
        events (logOf run) = (before ++ [terminal])%list
        /\ isTerminal terminal = true
        /\ Forall (fun ev => isTerminal ev = false) before
        /\ (isComplete terminal = true <-> exists t ps, reachesLoop sv t0 t ps)).
Proof.
  cbv zeta.
  destruct (presentToken (answer (getStoredToken sv))) as [token |] eqn:Htoken.
  - destruct (fetchRace sv token (tokenInstant sv t0)) as [t [[| p ps] | e]] eqn:Hfetch.
    + rewrite (analyzeStream_fetch_empty rt storesLatest sv t0 latest token t Htoken Hfetch).
      split; [reflexivity |]. split; [eexists; reflexivity |].
      split; [eexists [_; _; _; _; _]; reflexivity |].
      eexists [_; _], _. split; [reflexivity |]. split; [reflexivity |].
      split; [repeat constructor |]. split; [discriminate |].
      intros (t' & ps' & token' & Htoken' & Hfetch' & Hne).
      rewrite Htoken in Htoken'. injection Htoken' as <-.
      rewrite Hfetch in Hfetch'. injection Hfetch' as <- <-. congruence.
    + assert (Hloop : reachesLoop sv t0 t (p :: ps)).
      { exists token. split; [assumption | split; [assumption | discriminate]]. }
      rewrite (analyzeStream_completes rt storesLatest sv t0 latest t _ Hloop).
      unfold logOf. cbn [fst snd].
      split; [reflexivity |]. split; [eexists; reflexivity |].
      split.
      { unfold completedLog. eexists. rewrite !app_assoc.
        change [Send (Complete (summaryOf rt sv t (p :: ps))); End]
          with ([Send (Complete (summaryOf rt sv t (p :: ps)))] ++ [End])%list.
        rewrite app_assoc. reflexivity. }
      rewrite events_completedLog.
      eexists _, _. split; [rewrite app_assoc; reflexivity |].
      split; [reflexivity |]. split.
      * apply Forall_app. split; [repeat constructor |].
        apply expectedEventsFrom_not_terminal.
      * split; [eauto | reflexivity].
    + rewrite (analyzeStream_fetch_rejected rt storesLatest sv t0 latest token t e
                 Htoken Hfetch).
      split; [reflexivity |]. split; [eexists; reflexivity |].
      split; [eexists [_; _; _; _]; reflexivity |].
      eexists [_; _], _. split; [reflexivity |]. split; [reflexivity |].
      split; [repeat constructor |]. split; [discriminate |].
      intros (t' & ps' & token' & Htoken' & Hfetch' & Hne).
      rewrite Htoken in Htoken'. injection Htoken' as <-.
      rewrite Hfetch in Hfetch'. discriminate.
  - rewrite (analyzeStream_without_credential rt storesLatest sv t0 latest Htoken).
    split; [reflexivity |]. split; [eexists; reflexivity |].
    split; [eexists [_; _; _; _]; reflexivity |].
    eexists [_], _. split; [reflexivity |]. split; [reflexivity |].
    split; [repeat constructor |]. split; [discriminate |].
    intros (t' & ps' & token' & Htoken' & _). congruence.
Qed.

(** X5.  A streaming run is over at most 15000 ms after the token
    lookup settled, plus 8200 ms for each product event it wrote: each
    analysis is awaited for at most 8000 ms and followed by 200 ms. *)
Theorem streaming_run_duration (sv : Services) (t0 : N) (latest : option RunSummary) :
  let run := analyzeStream rt storesLatest sv
               {| clock := t0; latestAnalysisResults := latest |} in
  let analysed := length (productResults (events (logOf run))) in
  (clock (stateOf run) <= tokenInstant sv t0 + 15000 + 8200 * N.of_nat analysed)%N.
Proof.
  cbv zeta.
  destruct (presentToken (answer (getStoredToken sv))) as [token |] eqn:Htoken.
  - pose proof (raceTimeout_bound (getTrendingProducts sv token 10) 15000 "Fetch timeout"
                  (tokenInstant sv t0)) as Hrace.
    fold (fetchRace sv token) in Hrace.
    destruct (fetchRace sv token (tokenInstant sv t0)) as [t [[| p ps] | e]] eqn:Hfetch;
      cbn [fst] in Hrace.
    + rewrite (analyzeStream_fetch_empty rt storesLatest sv t0 latest token t Htoken Hfetch).
      unfold stateOf. cbn [fst snd clock]. lia.
    + assert (Hloop : reachesLoop sv t0 t (p :: ps)).
      { exists token. split; [assumption | split; [assumption | discriminate]]. }
      rewrite (analyzeStream_completes rt storesLatest sv t0 latest t _ Hloop).
      unfold stateOf, logOf. cbn [fst snd clock].
      rewrite events_completedLog. unfold productResults.
      rewrite !flat_map_app. fold productResults.
      rewrite productResults_expected. cbn [productResults flat_map app].
      rewrite app_nil_r, length_map, races_length.
      pose proof (loopEnd_bound sv (p :: ps) 0 t). lia.
    + rewrite (analyzeStream_fetch_rejected rt storesLatest sv t0 latest token t e
                 Htoken Hfetch).
      unfold stateOf. cbn [fst snd clock]. lia.
  - rewrite (analyzeStream_without_credential rt storesLatest sv t0 latest Htoken).
    unfold stateOf. cbn [fst snd clock]. lia.
Qed.

(** X6.  In the program, a streaming run analyses at most 10 products
    and is over at most 97 seconds after the token lookup settled,
    whatever the outside world answers. *)
Theorem program_run_is_bounded (w : World) (t0 : N) (latest : option RunSummary) :
  let run := analyzeStream rt storesLatest (wired rt w)
               {| clock := t0; latestAnalysisResults := latest |} in
  length (productResults (events (logOf run))) <= 10
  /\ (clock (stateOf run) <= t0 + latency (storedToken w) + 97000)%N.
Proof.
  cbv zeta. set (sv := wired rt w).
  assert (Hfetched : forall token t ps,
             fetchRace sv token (tokenInstant sv t0) = (t, Resolve ps) ->
             length ps <= 10 /\ (t <= t0 + latency (storedToken w) + 15000)%N).
  { intros token t ps Hfetch.
    pose proof (raceTimeout_bound (getTrendingProducts sv token 10) 15000 "Fetch timeout"
                  (tokenInstant sv t0)) as Hrace.
    fold (fetchRace sv token) in Hrace. rewrite Hfetch in Hrace. cbn [fst] in Hrace.
    split; [| exact Hrace].
    unfold fetchRace in Hfetch. apply raceTimeout_settles in Hfetch.
    destruct Hfetch as [[Hsource _] | (_ & Habs & _)]; [| discriminate].
    eapply getTrendingProducts_length. exact Hsource. }
  destruct (presentToken (answer (getStoredToken sv))) as [token |] eqn:Htoken.
  - pose proof (raceTimeout_bound (getTrendingProducts sv token 10) 15000 "Fetch timeout"
                  (tokenInstant sv t0)) as Hrace.
    fold (fetchRace sv token) in Hrace.
    destruct (fetchRace sv token (tokenInstant sv t0)) as [t [[| p ps] | e]] eqn:Hfetch;
      cbn [fst] in Hrace.
    + rewrite (analyzeStream_fetch_empty rt storesLatest sv t0 latest token t Htoken Hfetch).
      unfold stateOf, logOf. cbn [fst snd clock]. split; [cbn; lia |].
      unfold tokenInstant in Hrace. cbn [getStoredToken sv wired wiredWith] in Hrace. lia.
    + assert (Hloop : reachesLoop sv t0 t (p :: ps)).
      { exists token. split; [assumption | split; [assumption | discriminate]]. }
      destruct (Hfetched token t (p :: ps) Hfetch) as [Hlen Ht].
      rewrite (analyzeStream_completes rt storesLatest sv t0 latest t _ Hloop).
      unfold stateOf, logOf. cbn [fst snd clock].
      rewrite events_completedLog. unfold productResults.
      rewrite !flat_map_app. fold productResults.
      rewrite productResults_expected. cbn [productResults flat_map app].
      rewrite app_nil_r, length_map, races_length.
      split; [exact Hlen |].
      pose proof (loopEnd_bound sv (p :: ps) 0 t). lia.
    + rewrite (analyzeStream_fetch_rejected rt storesLatest sv t0 latest token t e
                 Htoken Hfetch).
      unfold stateOf, logOf. cbn [fst snd clock]. split; [cbn; lia |].
      unfold tokenInstant in Hrace. cbn [getStoredToken sv wired wiredWith] in Hrace. lia.
  - rewrite (analyzeStream_without_credential rt storesLatest sv t0 latest Htoken).
    unfold stateOf, logOf. cbn [fst snd clock]. split; [cbn; lia |].
    unfold tokenInstant. cbn [getStoredToken sv wired wiredWith]. lia.
Qed.

End RunInvariants.

(* ====================================================================== *)
(** * The analyses returned by the analyzer *)
(* ====================================================================== *)

Section FieldFacts.

Lemma getField_setField_same k v fields :
  getField k (setField k v fields) = Some v.
Proof.
  induction fields as [| [k' v'] rest IH]; cbn.
  - now rewrite String.eqb_refl.
  - destruct (String.eqb k k') eqn:Hk; cbn.
    + now rewrite String.eqb_refl.
    + now rewrite Hk.
Qed.

Lemma getField_setField_other k k' v fields :
  k' <> k -> getField k' (setField k v fields) = getField k' fields.
Proof.
  intros Hne. apply String.eqb_neq in Hne.
  induction fields as [| [k0 v0] rest IH]; cbn.
  - now rewrite Hne.
  - destruct (String.eqb k k0) eqn:Hk; cbn.
    + apply String.eqb_eq in Hk. subst k0. now rewrite Hne.
    + now rewrite IH.
Qed.

Lemma length_setField k v fields :
  length (setField k v fields)
  = match getField k fields with
    | Some _ => length fields
    | None => S (length fields)
    end.
Proof.
  induction fields as [| [k' v'] rest IH]; cbn; [reflexivity |].
  destruct (String.eqb k k'); cbn; [reflexivity |].
  rewrite IH. now destruct (getField k rest).
Qed.

End FieldFacts.

Section AnalysisFacts.

Import ChatGPTService.

Variable rt : Runtime.
Variable create : nat -> Timed (Outcome Completion).

(** The first attempt, when the completion arrives with a first choice. *)
Lemma analyzeProduct_first_choice p retryCount t completion c cs :
  answer (create retryCount) = Resolve completion ->
  choices completion = c :: cs ->
  analyzeProduct rt true create p retryCount t
  = tryCatch
      (setMetadata rt (parseAnalysis rt (content c)) completion p
         (t + latency (create retryCount))%N)
      (fun error => (now' <- now ;; ret (failedAnalysis rt error now'))%async)
      (t + latency (create retryCount))%N.
Proof.
  intros Hcall Hchoices. rewrite analyzeProduct_equation.
  unfold tryCatch, analyzeProductTry. cbn [negb].
  unfold bind at 1, external. rewrite Hcall.
  unfold bind at 1. rewrite Hchoices. unfold ret at 1.
  unfold bind at 1, now at 1.
  destruct (parseAnalysis rt (content c)) as [| b | z | s | items | fields];
    cbn [setMetadata]; unfold ret, throw; try reflexivity;
    unfold shouldRetry, networkCode, newError; cbn [status code];
    rewrite Bool.andb_false_r; reflexivity.
Qed.

(** X7.  When the completion of an attempt carries a first choice whose
    content parses to an object, [analyzeProduct] resolves, when that
    answer arrives, with that object and its [metadata] set: the
    [metadata] read back is the one written (instant, model, tokens used
    or 0, id and name of the product), replacing any [metadata] of the
    answer, and every other key reads as in the answer. *)
Theorem parsed_analysis_carries_metadata p retryCount t completion c cs text fields :
  answer (create retryCount) = Resolve completion ->
  choices completion = c :: cs ->
  content c = Some text ->
  JSON_parse rt text = Some (JObj fields) ->
  let t' := (t + latency (create retryCount))%N in
  exists result,
    analyzeProduct rt true create p retryCount t = (t', Resolve (JObj result))
    /\ getField "metadata" result
       = Some (JObj [ ("analyzedAt", JStr (toISOString rt (Z.of_N t')));
                      ("model", JStr "gpt-4o");
                      ("tokensUsed", JNum (match total_tokens completion with
                                           | Some n => n
                                           | None => 0%Z
                                           end));
                      ("productId", JStr (id p));
                      ("productName", JStr (name p)) ])
    /\ (forall k, k <> "metadata" -> getField k result = getField k fields).
Proof.
  intros Hcall Hchoices Hcontent Hparse. cbv zeta.
  rewrite (analyzeProduct_first_choice p retryCount t completion c cs Hcall Hchoices).
  unfold parseAnalysis. rewrite Hcontent, Hparse. cbn [setMetadata].
  eexists. split; [reflexivity |]. split.
  - apply getField_setField_same.
  - intros k Hk. now apply getField_setField_other.
Qed.

(** X8.  A content that [JSON.parse] rejects is not an error for
    [analyzeProduct]: it resolves at once, without retry, with an object
    that keeps the text under [rawResponse], says so under [error], and
    carries the metadata. *)
Theorem unparsable_answer_is_kept p retryCount t completion c cs text :
  answer (create retryCount) = Resolve completion ->
  choices completion = c :: cs ->
  content c = Some text ->
  JSON_parse rt text = None ->
  exists metadata,
    analyzeProduct rt true create p retryCount t
    = ((t + latency (create retryCount))%N,
       Resolve (JObj [ ("error", JStr "Failed to parse structured response");
                       ("rawResponse", JStr text);
                       ("summary",
                        JStr "Analysis completed but response format was invalid");
                       ("metadata", JObj metadata) ]))
    /\ getField "productId" metadata = Some (JStr (id p))
    /\ getField "model" metadata = Some (JStr "gpt-4o").
Proof.
  intros Hcall Hchoices Hcontent Hparse.
  rewrite (analyzeProduct_first_choice p retryCount t completion c cs Hcall Hchoices).
  unfold parseAnalysis. rewrite Hcontent, Hparse.
  eexists. split; [reflexivity |]. split; reflexivity.
Qed.

(** X9.  A completion without choice, or whose content is [null] or
    parses to [null], a number, a string or a boolean, makes the [try]
    block throw; that error is never retried: [analyzeProduct] resolves
    when the answer arrives with the failure object, whose [error] is
    the message of the [TypeError]. *)
Theorem degenerate_answer_is_not_retried p retryCount t completion :
  answer (create retryCount) = Resolve completion ->
  match choices completion with
  | [] => True
  | c :: _ =>
      match parseAnalysis rt (content c) with
      | JObj _ | JArr _ => False
      | _ => True
      end
  end ->
  let t' := (t + latency (create retryCount))%N in
  exists msg,
    analyzeProduct rt true create p retryCount t
    = (t', Resolve (failedAnalysis rt (newError msg) t'))
    /\ msg = match choices completion with
             | [] => cannotReadMessage rt
             | c :: _ => cannotSetMetadata rt (parseAnalysis rt (content c))
             end.
Proof.
  intros Hcall Hdegenerate. cbv zeta.
  destruct (choices completion) as [| c cs] eqn:Hchoices.
  - exists (cannotReadMessage rt). split; [| reflexivity].
    rewrite analyzeProduct_equation.
    unfold tryCatch, analyzeProductTry. cbn [negb].
    unfold bind at 1, external. rewrite Hcall.
    unfold bind at 1. rewrite Hchoices. unfold throw at 1.
    unfold shouldRetry, networkCode, newError; cbn [status code].
    rewrite Bool.andb_false_r. reflexivity.
  - exists (cannotSetMetadata rt (parseAnalysis rt (content c))). split; [| reflexivity].
    rewrite (analyzeProduct_first_choice p retryCount t completion c cs Hcall Hchoices).
    destruct (parseAnalysis rt (content c)); try contradiction; reflexivity.
Qed.

End AnalysisFacts.

(* ====================================================================== *)
(** * Retries: how many calls, how long *)
(* ====================================================================== *)

Section AnalyzerRetries.

Import ChatGPTService.

Variable rt : Runtime.
Variable openai : bool.

Lemma analyzeProductTry_ext create create' p retryCount t :
  create retryCount = create' retryCount ->
  analyzeProductTry rt openai create p retryCount t
  = analyzeProductTry rt openai create' p retryCount t.
Proof.
  intros Hsame. unfold analyzeProductTry. now rewrite Hsame.
Qed.

Lemma analyzeProductWith_ext create create' retriesLeft : forall p retryCount t,
  (forall k, retryCount <= k <= retryCount + retriesLeft -> create k = create' k) ->
  analyzeProductWith rt openai create retriesLeft p retryCount t
  = analyzeProductWith rt openai create' retriesLeft p retryCount t.
Proof.
  induction retriesLeft as [| n IH]; intros p retryCount t Hsame;
    cbn [analyzeProductWith]; unfold tryCatch;
    rewrite (analyzeProductTry_ext create create' p retryCount t) by (apply Hsame; lia);
    [reflexivity |].
  destruct (analyzeProductTry rt openai create' p retryCount t) as [t1 [a | e]];
    [reflexivity |].
  destruct (shouldRetry e); [| reflexivity].
  unfold bind, sleep. apply IH. intros k Hk. apply Hsame. lia.
Qed.

Lemma analyzeProductTry_bound create p retryCount t :
  (t <= fst (analyzeProductTry rt openai create p retryCount t)
   <= t + latency (create retryCount))%N.
Proof.
  unfold analyzeProductTry. destruct openai; cbn [negb].
  - unfold bind, external, now.
    destruct (answer (create retryCount)) as [completion | e]; [| cbn; lia].
    destruct (choices completion) as [| c cs]; [cbn; lia |]. cbn [ret].
    destruct (parseAnalysis rt (content c)); cbn; lia.
  - cbn. lia.
Qed.

(** The latencies of the calls [retryCount], ..., [retryCount + n]. *)
Lemma analyzeProductWith_bound create retriesLeft : forall p retryCount t,
  (t <= fst (analyzeProductWith rt openai create retriesLeft p retryCount t)
   <= t + fold_right N.add 0 (map (fun k => latency (create k))
                                  (seq retryCount (S retriesLeft)))
        + retryDelay * N.of_nat retriesLeft)%N.
Proof.
  induction retriesLeft as [| n IH]; intros p retryCount t;
    cbn [analyzeProductWith]; unfold tryCatch;
    pose proof (analyzeProductTry_bound create p retryCount t) as Htry;
    destruct (analyzeProductTry rt openai create p retryCount t) as [t1 [a | e]];
    cbn [fst] in Htry |- *; cbn [seq map fold_right]; try lia.
  - cbn. lia.
  - destruct (shouldRetry e).
    + unfold bind, sleep.
      specialize (IH p (S retryCount) (t1 + retryDelay)%N).
      cbn [seq map fold_right] in IH. unfold retryDelay in *. lia.
    + cbn. lia.
Qed.

(** X10.  [analyzeProduct(product)] calls the OpenAI endpoint at most
    four times: its result depends on the answers to the calls 0 to 3
    only, and it settles no later than the sum of their latencies plus
    three delays of 2000 ms after it was called. *)
Theorem analyzeProduct_calls_at_most_four_times create create' p t :
  create 0%nat = create' 0%nat ->
  create 1%nat = create' 1%nat ->
  create 2%nat = create' 2%nat ->
  create 3%nat = create' 3%nat ->
  analyzeProduct rt openai create p 0 t = analyzeProduct rt openai create' p 0 t
  /\ (t <= fst (analyzeProduct rt openai create p 0 t)
      <= t + (latency (create 0%nat) + latency (create 1%nat)
              + latency (create 2%nat) + latency (create 3%nat)) + 6000)%N.
Proof.
  intros H0 H1 H2 H3. split.
  - unfold analyzeProduct. apply analyzeProductWith_ext.
    intros [| [| [| [| k]]]] Hk; try assumption. unfold maxRetries in Hk. lia.
  - pose proof (analyzeProductWith_bound create 3 p 0 t) as Hbound.
    unfold analyzeProduct, maxRetries. cbn [Nat.sub].
    cbn [seq map fold_right] in Hbound. unfold retryDelay in Hbound. lia.
Qed.

End AnalyzerRetries.

Section ListingRetries.

Import ProductHuntService.

Variable rt : Runtime.
Variable restGet : Timed (Outcome RestBody).
Variable mathRandom : nat -> N.

Lemma makeGraphQLRequestWith_ext post post' retriesLeft : forall retryCount t,
  (forall k, retryCount <= k <= retryCount + retriesLeft -> post k = post' k) ->
  makeGraphQLRequestWith post retriesLeft retryCount t
  = makeGraphQLRequestWith post' retriesLeft retryCount t.
Proof.
  induction retriesLeft as [| n IH]; intros retryCount t Hsame;
    cbn [makeGraphQLRequestWith]; unfold tryCatch;
    rewrite (Hsame retryCount) by lia; [reflexivity |].
  destruct ((data <- external (post' retryCount) ;;
             match gql_errors data with
             | Some errors => throw (newError ("GraphQL errors: " ++ errors))
             | None => ret data
             end)%async t) as [t1 [a | e]]; [reflexivity |].
  destruct (shouldRetry e); [| reflexivity].
  unfold bind, sleep. apply IH. intros k Hk. apply Hsame. lia.
Qed.

Lemma graphqlAttempt_instant (post : nat -> Timed (Outcome GraphQLBody)) (retryCount : nat) t :
  fst ((data <- external (post retryCount) ;;
        match gql_errors data with
        | Some errors => throw (newError ("GraphQL errors: " ++ errors))
        | None => ret data
        end)%async t)
  = (t + latency (post retryCount))%N.
Proof.
  unfold bind, external.
  destruct (answer (post retryCount)) as [data | e]; [| reflexivity].
  destruct (gql_errors data); reflexivity.
Qed.

Lemma makeGraphQLRequestWith_bound post retriesLeft : forall retryCount t,
  (t <= fst (makeGraphQLRequestWith post retriesLeft retryCount t)
   <= t + fold_right N.add 0 (map (fun k => latency (post k))
                                  (seq retryCount (S retriesLeft)))
        + retryDelay * N.of_nat retriesLeft)%N.
Proof.
  induction retriesLeft as [| n IH]; intros retryCount t;
    cbn [makeGraphQLRequestWith]; unfold tryCatch;
    pose proof (graphqlAttempt_instant post retryCount t) as Hattempt;
    destruct ((data <- external (post retryCount) ;;
               match gql_errors data with
               | Some errors => throw (newError ("GraphQL errors: " ++ errors))
               | None => ret data
               end)%async t) as [t1 [data | e]];
    cbn [fst] in Hattempt; subst t1; cbn [seq map fold_right fst throw]; try lia.
  destruct (shouldRetry e); [| cbn [throw fst]; lia].
  unfold bind, sleep.
  specialize (IH (S retryCount) (t + latency (post retryCount) + retryDelay)%N).
  cbn [seq map fold_right] in IH. unfold retryDelay in *. lia.
Qed.

(** X11.  An answer of the GraphQL endpoint whose body lists [errors]
    is turned into the error [GraphQL errors: ...], which is thrown when
    the answer arrives and never retried. *)
Theorem graphql_errors_are_not_retried post retryCount t data errors :
  answer (post retryCount) = Resolve data ->
  gql_errors data = Some errors ->
  makeGraphQLRequest post retryCount t
  = ((t + latency (post retryCount))%N,
     Reject (newError ("GraphQL errors: " ++ errors))).
Proof.
  intros Hcall Herrors. rewrite makeGraphQLRequest_equation.
  unfold tryCatch, bind, external. rewrite Hcall, Herrors.
  unfold throw at 1. cbn [shouldRetry newError status code].
  rewrite Bool.andb_false_r. reflexivity.
Qed.

Lemma getTrendingProductsTry_instant post accessToken limit t :
  fst (getTrendingProductsTry rt post accessToken limit t)
  = fst (makeGraphQLRequest post 0 t).
Proof.
  unfold getTrendingProductsTry, bind.
  destruct (makeGraphQLRequest post 0 t) as [t1 [body | e]]; [| reflexivity].
  destruct (gql_posts body) as [posts |]; [| reflexivity]. cbn [now].
  destruct (firstn limit _); reflexivity.
Qed.

Lemma getTrendingProductsREST_instant accessToken limit t :
  fst (getTrendingProductsREST rt restGet accessToken limit t)
  = (t + latency restGet)%N.
Proof.
  unfold getTrendingProductsREST, tryCatch, bind, external.
  destruct (answer restGet) as [data | e]; [| reflexivity].
  destruct (rest_posts data); reflexivity.
Qed.

(** X12.  [getTrendingProducts] posts to the GraphQL endpoint at most
    four times and gets from the REST endpoint at most once: its result
    depends on the answers to the posts 0 to 3 only, and it settles no
    later than the sum of their latencies, three delays of 1000 ms and
    the latency of the REST endpoint after it was called. *)
Theorem getTrendingProducts_calls_are_bounded post post' accessToken limit t :
  post 0%nat = post' 0%nat ->
  post 1%nat = post' 1%nat ->
  post 2%nat = post' 2%nat ->
  post 3%nat = post' 3%nat ->
  getTrendingProducts rt post restGet mathRandom accessToken limit t
  = getTrendingProducts rt post' restGet mathRandom accessToken limit t
  /\ (t <= fst (getTrendingProducts rt post restGet mathRandom accessToken limit t)
      <= t + (latency (post 0%nat) + latency (post 1%nat)
              + latency (post 2%nat) + latency (post 3%nat)) + 3000
           + latency restGet)%N.
Proof.
  intros H0 H1 H2 H3.
  assert (Hrequest : forall t0, makeGraphQLRequest post 0 t0 = makeGraphQLRequest post' 0 t0).
  { intros t0. unfold makeGraphQLRequest. apply makeGraphQLRequestWith_ext.
    intros [| [| [| [| k]]]] Hk; try assumption. unfold maxRetries in Hk. lia. }
  split.
  - unfold getTrendingProducts, tryCatch, getTrendingProductsTry, bind at 1.
    unfold bind at 3. now rewrite Hrequest.
  - pose proof (makeGraphQLRequestWith_bound post 3 0 t) as Hbound.
    cbn [seq map fold_right] in Hbound. unfold retryDelay in Hbound.
    change (makeGraphQLRequestWith post 3 0 t) with (makeGraphQLRequest post 0 t) in Hbound.
    rewrite <- (getTrendingProductsTry_instant post accessToken limit t) in Hbound.
    unfold getTrendingProducts.
    set (handler := fun _ : Error => tryCatch _ _).
    unfold tryCatch.
    destruct (getTrendingProductsTry rt post accessToken limit t) as [t1 [ps | e]];
      cbn [fst] in Hbound |- *; [lia |].
    subst handler. cbn beta.
    pose proof (getTrendingProductsREST_instant accessToken limit t1) as Hrest.
    unfold tryCatch.
    destruct (getTrendingProductsREST rt restGet accessToken limit t1) as [t2 [ps | e']];
      cbn [fst] in Hrest; subst t2; cbn; lia.
Qed.

End ListingRetries.

(* ====================================================================== *)
(** * The rule-based analysis *)
(* ====================================================================== *)

Section FallbackFacts.

Import ChatGPTService.

Variable rt : Runtime.

(** X13.  The rule-based analysis names between one and five target
    users, so that [targetUsers[0]] is always there to be read for the
    summary; the general user is named exactly when no topic matches a
    keyword; and it lists at most three personas. *)
Theorem fallback_analysis_target_users (t : N) (p : Product) :
  let topicNames := map topic_name (topics p) in
  let users := fallbackTargetUsers topicNames in
  1 <= length users <= 5
  /\ nth_error users 0 = Some (nth 0 users generalUser)
  /\ (In generalUser users <->
      someTopic "developer" "tech" topicNames = false
      /\ someTopic "business" "productivity" topicNames = false
      /\ someTopic "design" "creative" topicNames = false
      /\ someTopic "ai" "machine learning" topicNames = false
      /\ someTopic "marketing" "social" topicNames = false)
  /\ field "targetUsers" (createFallbackAnalysis rt t p)
     = Some (JArr (map targetUserJSON users))
  /\ field "userPersonas" (createFallbackAnalysis rt t p)
     = Some (JArr (map (fun u => JStr (demographic u)) (firstn 3 users)))
  /\ length (firstn 3 users) <= 3.
Proof.
  cbv zeta.
  assert (Hfields :
            field "targetUsers" (createFallbackAnalysis rt t p)
            = Some (JArr (map targetUserJSON
                            (fallbackTargetUsers (map topic_name (topics p)))))
            /\ field "userPersonas" (createFallbackAnalysis rt t p)
               = Some (JArr (map (fun u => JStr (demographic u))
                               (firstn 3 (fallbackTargetUsers
                                            (map topic_name (topics p))))))).
  { split; reflexivity. }
  destruct Hfields as [Husers Hpersonas]. rewrite Husers, Hpersonas.
  clear Husers Hpersonas. unfold fallbackTargetUsers.
  destruct (someTopic "developer" "tech" _), (someTopic "business" "productivity" _),
    (someTopic "design" "creative" _), (someTopic "ai" "machine learning" _),
    (someTopic "marketing" "social" _);
    cbn [app length nth_error nth firstn];
    (split; [lia |]); (split; [reflexivity |]);
    (split; [| split; [reflexivity | split; [reflexivity | cbn; lia]]]);
    (split; [| intros (? & ? & ? & ? & ?); try discriminate; now left]);
    intros Hin; cbn [In] in Hin;
    repeat (destruct Hin as [Hin | Hin]; [discriminate Hin |]);
    try contradiction.
  repeat split.
Qed.

End FallbackFacts.

(* ====================================================================== *)
(** * The token store *)
(* ====================================================================== *)

Section TokenFacts.

Import AuthService.

Variable rt : Runtime.
Variable dateOf : JSON -> option Z.
Variable readFile : Timed (Outcome string).
Variable expired : Outcome bool.
Variable refresh : Timed (Outcome (list (string * JSON))).
Variable getToken : Timed (Outcome (list (string * JSON))).
Variable access : Timed (Outcome unit).
Variable mkdir : Timed (Outcome unit).
Variable writeFile : Timed (Outcome unit).

Lemma tryCatch_ret_resolves {A} (m : Async A) (v : A) t :
  exists t' a, tryCatch m (fun _ => ret v) t = (t', Resolve a).
Proof.
  unfold tryCatch. destruct (m t) as [t1 [a | e]]; eexists _, _; reflexivity.
Qed.

Lemma refreshToken_resolves self tokenData t :
  exists t' v,
    refreshToken self expired refresh access mkdir writeFile tokenData t
    = (t', Resolve v).
Proof.
  unfold refreshToken. apply tryCatch_ret_resolves.
Qed.

Lemma readStoredToken_resolves self t :
  exists t' v,
    readStoredToken rt dateOf self readFile expired refresh access mkdir writeFile t
    = (t', Resolve v).
Proof.
  unfold readStoredToken. apply tryCatch_ret_resolves.
Qed.

(** What the file gives when it is read to the end of the [try] block:
    the text parses to [token], which is not [null]. *)
Lemma readStoredToken_parsed self t tokenData token :
  answer readFile = Resolve tokenData ->
  JSON_parse rt tokenData = Some token ->
  token <> JNull ->
  readStoredToken rt dateOf self readFile expired refresh access mkdir writeFile t
  = (if isExpired dateOf (field "expires_at" token) (t + latency readFile)
     then refreshToken self expired refresh access mkdir writeFile token
            (t + latency readFile)%N
     else ((t + latency readFile)%N, Resolve (field "access_token" token))).
Proof.
  intros Hread Hparse Hnull.
  unfold readStoredToken, tryCatch. unfold bind at 1, external. rewrite Hread.
  unfold bind at 1. rewrite Hparse. unfold ret at 1.
  assert (Hprop : forall k t0, prop k token t0 = (t0, Resolve (field k token))).
  { intros k t0. destruct token; try reflexivity. congruence. }
  unfold bind at 1. rewrite Hprop. unfold bind at 1, now.
  destruct (isExpired dateOf (field "expires_at" token) (t + latency readFile)).
  - destruct (refreshToken_resolves self token (t + latency readFile)%N)
      as (t' & v & Hrefresh). now rewrite Hrefresh.
  - now rewrite Hprop.
Qed.

(** X14.  [getStoredToken()] never rejects.  A developer token is
    returned at once, whatever the token file holds; without one, a file
    that cannot be read, or whose text is not JSON or is [null], gives
    [null]. *)
Theorem stored_token_never_rejects (self : Service) (t : N) :
  let run := getStoredToken rt dateOf self readFile expired refresh access mkdir
               writeFile t in
  (exists v, snd run = Resolve v)
  /\ (forall token, developerToken self = Some token -> Text.truthy token = true ->
        run = (t, Resolve (Some (JStr token))))
  /\ (match developerToken self with Some token => Text.truthy token | None => false end
      = false ->
      match answer readFile with
      | Reject _ => run = ((t + latency readFile)%N, Resolve (Some JNull))
      | Resolve tokenData =>
          match JSON_parse rt tokenData with
          | None | Some JNull => run = ((t + latency readFile)%N, Resolve (Some JNull))
          | Some _ => True
          end
      end).
Proof.
  cbv zeta. unfold getStoredToken. split; [| split].
  - destruct (readStoredToken_resolves self t) as (t' & v & Hread).
    destruct (developerToken self) as [token |];
      [destruct (Text.truthy token) |]; rewrite ?Hread; eexists; reflexivity.
  - intros token -> ->. reflexivity.
  - intros Hnone.
    assert (Hrun : match developerToken self with
                   | Some token =>
                       if Text.truthy token then ret (Some (JStr token))
                       else readStoredToken rt dateOf self readFile expired refresh
                              access mkdir writeFile
                   | None => readStoredToken rt dateOf self readFile expired refresh
                               access mkdir writeFile
                   end
                   = readStoredToken rt dateOf self readFile expired refresh
                       access mkdir writeFile).
    { destruct (developerToken self) as [token |]; [| reflexivity].
      now rewrite Hnone. }
    rewrite Hrun. unfold readStoredToken, tryCatch, bind, external.
    destruct (answer readFile) as [tokenData | e]; [| reflexivity].
    destruct (JSON_parse rt tokenData) as [[| | | | |] |]; try exact I; reflexivity.
Qed.

(** X15.  A stored token that carries no expiry date, or one that is
    still to come, is returned as it is stored when the file has been
    read: the OAuth library is not called and nothing is written. *)
Theorem valid_stored_token_is_returned (self : Service) (t : N) tokenData fields :
  developerToken self = None ->
  answer readFile = Resolve tokenData ->
  JSON_parse rt tokenData = Some (JObj fields) ->
  isExpired dateOf (getField "expires_at" fields) (t + latency readFile) = false ->
  getStoredToken rt dateOf self readFile expired refresh access mkdir writeFile t
  = ((t + latency readFile)%N, Resolve (getField "access_token" fields)).
Proof.
  intros Hdev Hread Hparse Hvalid. unfold getStoredToken. rewrite Hdev.
  rewrite (readStoredToken_parsed self t tokenData (JObj fields) Hread Hparse)
    by discriminate.
  cbn [field]. now rewrite Hvalid.
Qed.

(** X16.  An expired stored token is only replaced through the OAuth
    client: [getStoredToken()] then gives something else than [null]
    only if a client is configured and the library did not throw, and,
    when the library finds the token expired, only if the refresh
    resolved and the new token could be written to the file (the refreshed
    token is lost when it cannot). *)
Theorem expired_token_needs_refresh (self : Service) (t : N) tokenData fields v t' :
  developerToken self = None ->
  answer readFile = Resolve tokenData ->
  JSON_parse rt tokenData = Some (JObj fields) ->
  isExpired dateOf (getField "expires_at" fields) (t + latency readFile) = true ->
  getStoredToken rt dateOf self readFile expired refresh access mkdir writeFile t
  = (t', Resolve v) ->
  v <> Some JNull ->
  client self = true
  /\ ((expired = Resolve false /\ v = getField "access_token" fields)
      \/ (expired = Resolve true
          /\ (exists refreshed,
                answer refresh = Resolve refreshed
                /\ v = getField "access_token" refreshed)
          /\ answer writeFile = Resolve tt
          /\ (answer access = Resolve tt \/ answer mkdir = Resolve tt))).
Proof.
  intros Hdev Hread Hparse Hexpired. unfold getStoredToken. rewrite Hdev.
  rewrite (readStoredToken_parsed self t tokenData (JObj fields) Hread Hparse)
    by discriminate.
  cbn [field]. rewrite Hexpired.
  unfold refreshToken, tryCatch.
  destruct (client self); cbn [negb]; [| cbn; intros [= <- <-]; congruence].
  destruct expired as [[|] | e]; [| | cbn; intros [= <- <-]; congruence].
  - unfold bind at 1, external.
    destruct (answer refresh) as [refreshed | e]; [| intros [= <- <-]; congruence].
    unfold storeToken, tryCatch, bind, external.
    destruct (answer access) as [[] | e1].
    + destruct (answer writeFile) as [[] | e2]; cbn; intros [= <- <-] Hv;
        [| congruence].
      split; [reflexivity |]. right. repeat split; eauto.
    + destruct (answer mkdir) as [[] | e2]; [| cbn; intros [= <- <-]; congruence].
      destruct (answer writeFile) as [[] | e3]; cbn; intros [= <- <-] Hv;
        [| congruence].
      split; [reflexivity |]. right. repeat split; eauto.
  - cbn. intros [= <- <-] Hv. split; [reflexivity |]. left. split; reflexivity.
Qed.

(** X17.  With a developer token in the environment (not the
    placeholder), no OAuth client is built even when client id and
    secret are set: the service is authenticated whatever the token
    file holds, the OAuth set-up answers 500, and so does a callback
    whose state is accepted. *)
Theorem developer_token_disables_oauth (env : Env) (token : string) (t : N)
        authorizeURL code state :
  PH_DEVELOPER_TOKEN env = Some token ->
  Text.truthy token = true ->
  token <> "your_developer_token" ->
  let self := constructor env in
  client self = false
  /\ isAuthenticated rt dateOf self readFile expired refresh access mkdir writeFile t
     = (t, Resolve true)
  /\ initiateAuth self authorizeURL t
     = (t, Resolve (ReplyJson 500 [ ("error", JStr "Product Hunt OAuth not configured.");
                                    ("configured", JBool false) ]))
  /\ (exists status body,
        snd (handleCallback self getToken access mkdir writeFile code state t)
        = Resolve (ReplyJson status body)
        /\ (status = 400 \/ status = 403 \/ status = 500)%N).
Proof.
  intros Htoken Htruthy Hplaceholder. cbv zeta.
  assert (Hself : constructor env = {| developerToken := Some token; client := false |}).
  { unfold constructor, configured. rewrite Htoken, Htruthy.
    apply String.eqb_neq in Hplaceholder. now rewrite Hplaceholder. }
  rewrite Hself. split; [reflexivity |]. split; [| split].
  - unfold isAuthenticated, bind, getStoredToken. cbn [developerToken].
    rewrite Htruthy. cbn. now rewrite Htruthy.
  - reflexivity.
  - unfold handleCallback, tryCatch. cbn [client].
    destruct (negb (truthyQuery code));
      [eexists _, _; split; [reflexivity | auto] |].
    unfold bind at 1, stateRefused.
    destruct (negb (truthyQuery state));
      [eexists _, _; split; [reflexivity | auto] |].
    destruct state as [[s | |] |];
      try (eexists _, _; split; [reflexivity | auto]).
    unfold ret at 1.
    destruct (negb (String.prefix "internal-setup-" s));
      eexists _, _; (split; [reflexivity | auto]).
Qed.

(** X18.  The callback exchanges the code only for a request that carries
    a code and, as state, a text that starts with [internal-setup-]; the
    state built by the set-up passes.  A request without code is answered
    400 at once; with a code, a state that is missing or a text without
    that prefix is answered 403 at once, and a state that is an array or
    an object is answered 500 at once, with the message of the error that
    the call of [startsWith] throws.  The callback redirects to the
    application only when the token was obtained and written. *)
Theorem callback_checks_code_and_state (self : Service)
        (code state : option QueryValue) (t : N) :
  let run := handleCallback self getToken access mkdir writeFile code state t in
  let hasCode := truthyQuery code in
  (hasCode = false ->
   run = (t, Resolve (ReplyJson 400 [("error", JStr "Authorization code not provided")])))
  /\ (hasCode = true ->
      state = None
      \/ (exists s, state = Some (QText s) /\ String.prefix "internal-setup-" s = false) ->
      run = (t, Resolve (ReplyJson 403 [("error", JStr "Unauthorized access attempt")])))
  /\ (hasCode = true ->
      state = Some QArray \/ state = Some QObject ->
      run = (t, Resolve (ReplyJson 500
                           [ ("error", JStr "Internal authentication failed");
                             ("message", JStr "state.startsWith is not a function") ])))
  /\ (forall t', run = (t', Resolve (Redirect "/?setup=complete")) ->
        hasCode = true
        /\ (exists s, state = Some (QText s) /\ String.prefix "internal-setup-" s = true)
        /\ client self = true
        /\ (exists token, answer getToken = Resolve token)
        /\ answer writeFile = Resolve tt)
  /\ (forall t0, String.prefix "internal-setup-" (setupState t0) = true).
Proof.
  cbv zeta. unfold handleCallback, tryCatch.
  set (hasCode := truthyQuery code).
  split; [| split; [| split; [| split]]].
  - intros ->. reflexivity.
  - intros -> [-> | [s [-> Hprefix]]]; [reflexivity |].
    cbn [negb]. unfold bind, stateRefused, truthyQuery.
    destruct s as [| c s]; [reflexivity |].
    cbn [Text.truthy negb]. unfold ret at 1. now rewrite Hprefix.
  - intros -> [-> | ->]; reflexivity.
  - intros t'. destruct hasCode; cbn [negb]; [| discriminate].
    unfold bind at 1, stateRefused.
    destruct state as [[s | |] |]; cbn [truthyQuery negb]; try discriminate.
    destruct (Text.truthy s) eqn:Htruthy; cbn [negb]; [| discriminate].
    unfold ret at 1.
    destruct (String.prefix "internal-setup-" s) eqn:Hprefix; cbn [negb];
      [| discriminate].
    destruct (client self); [| discriminate].
    unfold bind at 1, external.
    destruct (answer getToken) as [token | e]; [| discriminate].
    unfold storeToken, tryCatch, bind, external.
    destruct (answer access) as [[] | e1].
    + destruct (answer writeFile) as [[] | e2]; [| discriminate].
      intros _. repeat split; eauto.
    + destruct (answer mkdir) as [[] | e2]; [| discriminate].
      destruct (answer writeFile) as [[] | e3]; [| discriminate].
      intros _. repeat split; eauto.
  - intros t0. unfold setupState. cbn [append prefix].
    repeat (destruct (ascii_dec _ _) as [_ | Hne]; [| congruence]).
    destruct (Text.ofZ (Z.of_N t0)); reflexivity.
Qed.

End TokenFacts.

(* ====================================================================== *)
(** * Batches of analyses *)
(* ====================================================================== *)

Section BatchFacts.

Import ChatGPTBatch.

Variable rt : Runtime.
Variable analyzeProduct : nat -> Product -> Async JSON.

Lemma allSettled_bounds {A} (promises : list (Async A)) (t : N) (d : N) :
  (t <= fst (allSettled promises t))%N
  /\ (Forall (fun promise => (fst (promise t) <= t + d)%N) promises ->
      (fst (allSettled promises t) <= t + d)%N).
Proof.
  unfold allSettled. cbn [fst]. induction promises as [| m rest [IHlow IHhigh]];
    cbn [map fold_right].
  - split; intros; lia.
  - split; [lia |]. intros Hall. inversion Hall; subst.
    specialize (IHhigh ltac:(assumption)). lia.
Qed.

(** What one batch pushes: the analyses of its products, each started
    at [t]. *)
Lemma batch_results (t t1 : N) (batch : list Product) : forall i,
  map (fun pr => settledResult rt t1 (fst pr) (snd pr))
      (combine batch
         (snd (allSettled (map (fun kp => analyzeProduct (fst kp) (snd kp))
                               (combine (seq i (length batch)) batch)) t)))
  = map (fun kp => settledResult rt t1 (snd kp)
                     (snd (analyzeProduct (fst kp) (snd kp) t)))
        (combine (seq i (length batch)) batch).
Proof.
  unfold allSettled. cbn [snd].
  induction batch as [| p rest IH]; intros i; [reflexivity |].
  cbn [length seq combine map fst snd]. f_equal. apply IH.
Qed.

Lemma nth_error_batch (batch : list Product) : forall i j p,
  nth_error batch j = Some p ->
  nth_error (combine (seq i (length batch)) batch) j = Some ((i + j)%nat, p).
Proof.
  induction batch as [| q rest IH]; intros i [| j] p; cbn; try discriminate.
  - intros [= <-]. now rewrite Nat.add_0_r.
  - intros Hj. replace (i + S j)%nat with (S i + j)%nat by lia. now apply IH.
Qed.

Variable products : list Product.
Variable batchSize : nat.
Variable delayBetweenBatches : N.

Hypothesis positive : 0 < batchSize.

Lemma batchLoop_runs : forall fuel i results t,
  length products - i <= fuel ->
  exists t' new,
    batchLoop rt analyzeProduct products batchSize delayBetweenBatches fuel i results t
    = Some (t', (results ++ new)%list)
    /\ length new = length products - i
    /\ (t + delayBetweenBatches * N.of_nat ((length products - i - 1) / batchSize)
        <= t')%N
    /\ (forall d,
          (forall k p start, (fst (analyzeProduct k p start) <= start + d)%N) ->
          (t' <= t + d * N.of_nat ((length products - i + batchSize - 1) / batchSize)
                 + delayBetweenBatches
                   * N.of_nat ((length products - i - 1) / batchSize))%N)
    /\ (forall k p,
          nth_error products k = Some p -> i <= k ->
          exists start instant,
            nth_error new (k - i)
            = Some (settledResult rt instant p (snd (analyzeProduct k p start)))).
Proof.
  induction fuel as [| fuel IH]; intros i results t Hfuel.
  - assert (Hdone : (i <? length products)%nat = false) by (apply Nat.ltb_ge; lia).
    cbn [batchLoop]. rewrite Hdone. exists t, []. rewrite app_nil_r.
    replace (length products - i) with 0 by lia.
    rewrite (Nat.div_small (0 - 1) batchSize) by lia.
    rewrite (Nat.div_small (0 + batchSize - 1) batchSize) by lia.
    repeat split; try (cbn; lia).
    intros k p Hk Hik.
    assert (k < length products) by (apply nth_error_Some; congruence). lia.
  - cbn [batchLoop].
    destruct (Nat.ltb_spec i (length products)) as [Hlt | Hge].
    2:{ exists t, []. rewrite app_nil_r.
        replace (length products - i) with 0 by lia.
        rewrite (Nat.div_small (0 - 1) batchSize) by lia.
        rewrite (Nat.div_small (0 + batchSize - 1) batchSize) by lia.
        repeat split; try (cbn; lia).
        intros k p Hk Hik.
        assert (k < length products) by (apply nth_error_Some; congruence). lia. }
    set (batch := firstn batchSize (skipn i products)).
    set (promises := map (fun kp => analyzeProduct (fst kp) (snd kp))
                         (combine (seq i (length batch)) batch)).
    pose proof (batch_results t (fst (allSettled promises t)) batch i) as Hbatch.
    fold promises in Hbatch.
    destruct (allSettled_bounds promises t 0) as [Hlow _].
    assert (Hhigh : forall d,
               (forall k p start, (fst (analyzeProduct k p start) <= start + d)%N) ->
               (fst (allSettled promises t) <= t + d)%N).
    { intros d Hd. apply (allSettled_bounds promises t d).
      unfold promises. apply Forall_map, Forall_forall. intros kp _. apply Hd. }
    destruct (allSettled promises t) as [t1 batchResults]. cbn [fst snd] in *.
    rewrite Hbatch. clear Hbatch.
    set (pushed := map (fun kp => settledResult rt t1 (snd kp)
                                    (snd (analyzeProduct (fst kp) (snd kp) t)))
                       (combine (seq i (length batch)) batch)).
    assert (Hlen : length batch = Nat.min batchSize (length products - i)).
    { unfold batch. now rewrite length_firstn, length_skipn. }
    assert (Hpushed : length pushed = Nat.min batchSize (length products - i)).
    { unfold pushed. rewrite length_map, length_combine, length_seq. lia. }
    assert (Hnth : forall k p,
               nth_error products k = Some p -> i <= k -> k < i + batchSize ->
               nth_error pushed (k - i)
               = Some (settledResult rt t1 p (snd (analyzeProduct k p t)))).
    { intros k p Hk Hik Hkb. unfold pushed.
      assert (Hj : nth_error batch (k - i) = Some p).
      { unfold batch. rewrite nth_error_firstn.
        destruct (Nat.ltb_spec (k - i) batchSize); [| lia].
        rewrite nth_error_skipn. now replace (i + (k - i)) with k by lia. }
      rewrite (nth_error_map _ _ _), (nth_error_batch batch i (k - i) p Hj).
      cbn [option_map fst snd]. now replace (i + (k - i)) with k by lia. }
    destruct (Nat.ltb_spec (i + batchSize) (length products)) as [Hmore | Hlast].
    + destruct (IH (i + batchSize) (results ++ pushed)%list
                  (t1 + delayBetweenBatches)%N) as (t' & new & Hrun & Hnew & Hdelay & Hupper & Hrest);
        [lia |].
      exists t', (pushed ++ new)%list. rewrite app_assoc. split; [exact Hrun |].
      assert (Hdiv : (length products - i - 1) / batchSize
                     = S ((length products - (i + batchSize) - 1) / batchSize)).
      { replace (length products - i - 1)
          with (length products - (i + batchSize) - 1 + 1 * batchSize) by lia.
        rewrite Nat.div_add by lia. lia. }
      assert (Hdiv' : (length products - i + batchSize - 1) / batchSize
                      = S ((length products - (i + batchSize) + batchSize - 1) / batchSize)).
      { replace (length products - i + batchSize - 1)
          with (length products - (i + batchSize) + batchSize - 1 + 1 * batchSize) by lia.
        rewrite Nat.div_add by lia. lia. }
      split; [rewrite length_app, Hpushed, Hnew; lia |].
      split; [rewrite Hdiv; lia |].
      split.
      * intros d Hd. specialize (Hupper d Hd). specialize (Hhigh d Hd).
        rewrite Hdiv, Hdiv'. lia.
      * intros k p Hk Hik.
        destruct (Nat.lt_ge_cases k (i + batchSize)) as [Hin | Hout].
        -- exists t, t1. rewrite nth_error_app1 by lia. now apply Hnth.
        -- destruct (Hrest k p Hk Hout) as (start & instant & Hfound).
           exists start, instant. rewrite nth_error_app2 by lia.
           rewrite Hpushed. now replace (k - i - Nat.min batchSize (length products - i))
             with (k - (i + batchSize)) by lia.
    + assert (Hdone : (i + batchSize <? length products)%nat = false)
        by (apply Nat.ltb_ge; lia).
      destruct fuel as [| fuel']; cbn [batchLoop]; rewrite Hdone;
        exists t1, pushed;
        (split; [reflexivity |]);
        rewrite (Nat.div_small (length products - i - 1) batchSize) by lia;
        assert (Hone : (length products - i + batchSize - 1) / batchSize = 1)
          by (symmetry; apply (Nat.div_unique _ _ 1 (length products - i - 1)); lia);
        rewrite Hone;
        (split; [rewrite Hpushed; lia |]);
        (split; [lia |]);
        (split; [intros d Hd; specialize (Hhigh d Hd); lia |]);
        intros k p Hk Hik;
        assert (k < length products) by (apply nth_error_Some; congruence);
        exists t, t1; apply Hnth; auto; lia.
Qed.

(** X19.  With a positive batch size, [analyzeProductsBatch] returns
    one result for each product, in the order of the products: the
    value its analysis resolved with, or the error object built from
    its rejection.  The analyses of a batch run together: when each one
    settles within [d] of its start, the call lasts at most [d] for each
    batch, plus the delays; and the delay is slept between batches only,
    not after the last one. *)
Theorem batch_results_in_order (fuel : nat) (t : N) :
  length products <= fuel ->
  let batches := (length products + batchSize - 1) / batchSize in
  let delays := (length products - 1) / batchSize in
  exists t' results,
    analyzeProductsBatch rt analyzeProduct products batchSize delayBetweenBatches fuel t
    = Some (t', results)
    /\ length results = length products
    /\ (forall k p,
          nth_error products k = Some p ->
          exists start instant,
            nth_error results k
            = Some (settledResult rt instant p (snd (analyzeProduct k p start))))
    /\ (t + delayBetweenBatches * N.of_nat delays <= t')%N
    /\ (forall d,
          (forall k p start, (fst (analyzeProduct k p start) <= start + d)%N) ->
          (t' <= t + d * N.of_nat batches + delayBetweenBatches * N.of_nat delays)%N).
Proof.
  intros Hfuel. cbv zeta. unfold analyzeProductsBatch.
  destruct (batchLoop_runs fuel 0 [] t) as (t' & new & Hrun & Hlen & Hlow & Hhigh & Hnth);
    [lia |].
  rewrite Nat.sub_0_r in *. cbn [app] in Hrun.
  exists t', new. split; [exact Hrun |]. split; [exact Hlen |].
  split; [| split; [exact Hlow | exact Hhigh]].
  intros k p Hk. destruct (Hnth k p Hk) as (start & instant & Hfound); [lia |].
  rewrite Nat.sub_0_r in Hfound. eauto.
Qed.

End BatchFacts.

Section BatchWithoutSize.

Import ChatGPTBatch.

Variable rt : Runtime.
Variable analyzeProduct : nat -> Product -> Async JSON.

(** X20.  With a batch size of 0 and at least one product, the loop of
    [analyzeProductsBatch] never ends: after any number of rounds it is
    still at index 0, sleeping the delay. *)
Theorem batch_size_zero_never_returns (products : list Product)
        (delayBetweenBatches : N) (fuel : nat) (t : N) :
  products <> [] ->
  analyzeProductsBatch rt analyzeProduct products 0 delayBetweenBatches fuel t = None.
Proof.
  intros Hne. unfold analyzeProductsBatch.
  assert (Hlt : (0 <? length products)%nat = true).
  { apply Nat.ltb_lt. destruct products; [congruence | cbn; lia]. }
  generalize (@nil JSON) as results. revert t.
  induction fuel as [| fuel IH]; intros t results; cbn [batchLoop]; rewrite Hlt;
    [reflexivity |].
  cbn [firstn length seq combine map Nat.add]. unfold allSettled.
  cbn [map fold_right fst snd combine]. rewrite Hlt. apply IH.
Qed.

End BatchWithoutSize.

(* ====================================================================== *)
(** * The stored files *)
(* ====================================================================== *)

Section StoredFileFacts.

Import DataService.

Lemma insertByCreated_perm x sorted :
  Permutation (x :: sorted) (insertByCreated x sorted).
Proof.
  induction sorted as [| y rest IH]; cbn [insertByCreated]; [reflexivity |].
  destruct (created y <=? created x)%Z; [reflexivity |].
  rewrite perm_swap. now apply perm_skip.
Qed.

Lemma sortByCreated_perm files : Permutation files (sortByCreated files).
Proof.
  unfold sortByCreated. induction files as [| x rest IH]; cbn [fold_right]; [constructor |].
  rewrite <- insertByCreated_perm. now apply perm_skip.
Qed.

Lemma insertByCreated_sorted x sorted :
  StronglySorted (fun a b => (created b <= created a)%Z) sorted ->
  StronglySorted (fun a b => (created b <= created a)%Z) (insertByCreated x sorted).
Proof.
  induction sorted as [| y rest IH]; cbn [insertByCreated]; intros Hsorted.
  - repeat constructor.
  - apply StronglySorted_inv in Hsorted. destruct Hsorted as [Hrest Hall].
    destruct (Z.leb_spec (created y) (created x)) as [Hle | Hgt].
    + constructor; [now constructor |].
      constructor; [exact Hle |].
      eapply Forall_impl; [| exact Hall]. cbn. intros; lia.
    + constructor; [now apply IH |].
      rewrite <- insertByCreated_perm. constructor; [lia | exact Hall].
Qed.

Lemma sortByCreated_sorted files :
  StronglySorted (fun a b => (created b <= created a)%Z) (sortByCreated files).
Proof.
  unfold sortByCreated. induction files as [| x rest IH]; cbn [fold_right]; [constructor |].
  now apply insertByCreated_sorted.
Qed.

Lemma candidate_spared name :
  candidate name = true ->
  endsWith ".json" name = true
  /\ name <> "access_token.json" /\ name <> "latest.json".
Proof.
  unfold candidate. intros H.
  apply andb_prop in H. destruct H as [H Hlatest].
  apply andb_prop in H. destruct H as [Hjson Htoken].
  apply negb_true_iff in Hlatest, Htoken.
  apply String.eqb_neq in Hlatest, Htoken. auto.
Qed.

Variable join : string -> string.
Variable readdir : Timed (Outcome (list string)).
Variable stat : string -> Timed (Outcome Z).
Variable unlink : string -> Timed (Outcome unit).

Lemma statOperation_run file t :
  statOperation stat file t
  = ([Stat (snd file)],
     ((t + latency (stat (snd file)))%N,
      match answer (stat (snd file)) with
      | Resolve birthtime =>
          Resolve {| filename := fst file; path := snd file; created := birthtime |}
      | Reject e => Reject e
      end)).
Proof.
  unfold statOperation, fbind, call, fret.
  destruct (answer (stat (snd file))); reflexivity.
Qed.

Lemma all_stat_calls jsonFiles t :
  fst (all (map (statOperation stat) jsonFiles) t) = map (fun file => Stat (snd file)) jsonFiles.
Proof.
  unfold all. rewrite !map_map.
  assert (Hcalls : concat (map (fun file => fst (statOperation stat file t)) jsonFiles)
                   = map (fun file => Stat (snd file)) jsonFiles).
  { induction jsonFiles as [| file rest IH]; [reflexivity |].
    cbn [map concat]. rewrite IH, statOperation_run. reflexivity. }
  destruct (firstRejection _) as [[t' e] |]; cbn [fst]; exact Hcalls.
Qed.

Lemma all_stat_resolved jsonFiles t t' files :
  snd (all (map (statOperation stat) jsonFiles) t) = (t', Resolve files) ->
  map (fun file => (filename file, path file)) files = jsonFiles.
Proof.
  unfold all. rewrite !map_map.
  destruct (firstRejection _) as [[t1 e] |] eqn:Hfirst; cbn [snd]; [discriminate |].
  intros [= _ <-]. clear t'.
  induction jsonFiles as [| [name p] rest IH]; [reflexivity |].
  cbn [map firstRejection] in Hfirst. rewrite statOperation_run in Hfirst.
  cbn [snd fst] in Hfirst.
  cbn [map]. unfold resolved. cbn [flat_map]. rewrite statOperation_run. cbn [snd fst].
  destruct (answer (stat p)) as [birthtime | e].
  - cbn [app map filename path]. f_equal. apply IH. exact Hfirst.
  - destruct (firstRejection _) as [[t2 e2] |]; [destruct (t2 <? _)%N |]; discriminate.
Qed.

(** The birth time of a file with its stats is the one [fs.stat]
    answered for its path. *)
Lemma all_stat_created jsonFiles t t' files :
  snd (all (map (statOperation stat) jsonFiles) t) = (t', Resolve files) ->
  Forall (fun file => answer (stat (path file)) = Resolve (created file)) files.
Proof.
  unfold all. rewrite !map_map.
  destruct (firstRejection _) as [[t1 e] |] eqn:Hfirst; cbn [snd]; [discriminate |].
  intros [= _ <-]. clear t'.
  induction jsonFiles as [| [name p] rest IH]; [constructor |].
  cbn [map firstRejection] in Hfirst. rewrite statOperation_run in Hfirst.
  cbn [snd fst] in Hfirst.
  cbn [map]. unfold resolved. cbn [flat_map]. rewrite statOperation_run. cbn [snd fst].
  destruct (answer (stat p)) as [birthtime | e] eqn:Hstat.
  - cbn [app]. constructor; [exact Hstat | apply IH; exact Hfirst].
  - destruct (firstRejection _) as [[t2 e2] |]; [destruct (t2 <? _)%N |]; discriminate.
Qed.

(** The calls of the loop: the files are unlinked in order, up to the
    first failure. *)
Lemma unlinkAll_calls filesToDelete : forall t,
  exists n,
    fst (unlinkAll unlink filesToDelete t)
    = map (fun file => Unlink (path file)) (firstn n filesToDelete)
    /\ (forall t' u, snd (unlinkAll unlink filesToDelete t) = (t', Resolve u) ->
          firstn n filesToDelete = filesToDelete).
Proof.
  induction filesToDelete as [| file rest IH]; intros t.
  - exists 0. split; [reflexivity | reflexivity].
  - cbn [unlinkAll]. unfold fbind, call.
    destruct (answer (unlink (path file))) as [[] | e].
    + destruct (IH (t + latency (unlink (path file)))%N) as (n & Hcalls & Hall).
      destruct (unlinkAll unlink rest (t + latency (unlink (path file)))%N)
        as [calls r]. cbn [fst snd] in *.
      exists (S n). cbn [firstn map app]. rewrite Hcalls. split; [reflexivity |].
      intros t' u Hr. f_equal. eapply Hall; eauto.
    + exists 1. cbn [firstn map fst snd]. split; [reflexivity | discriminate].
Qed.

(** The run of [cleanupOldFiles], case by case. *)
Lemma cleanupOldFiles_run (keepCount : nat) (t : N) :
  cleanupOldFiles join readdir stat unlink keepCount t
  = match answer readdir with
    | Reject e => ([Readdir], ((t + latency readdir)%N, Reject e))
    | Resolve files =>
        let jsonFiles := map (fun name => (name, join name)) (filter candidate files) in
        let stats := map (fun file : string * string => Stat (snd file)) jsonFiles in
        match snd (all (map (statOperation stat) jsonFiles) (t + latency readdir)%N) with
        | (t1, Reject e) => (Readdir :: stats, (t1, Reject e))
        | (t1, Resolve filesWithStats) =>
            let filesToDelete := skipn keepCount (sortByCreated filesWithStats) in
            let unlinks := unlinkAll unlink filesToDelete t1 in
            (Readdir :: stats ++ fst unlinks,
             (fst (snd unlinks),
              match snd (snd unlinks) with
              | Resolve _ =>
                  Resolve {| success := true;
                             deletedCount := length filesToDelete;
                             remainingCount :=
                               length filesWithStats - length filesToDelete |}
              | Reject e => Reject e
              end))
        end
    end.
Proof.
  unfold cleanupOldFiles, ftry. unfold fbind at 1, call at 1.
  destruct (answer readdir) as [files | e]; [| reflexivity].
  cbv zeta.
  set (jsonFiles := map (fun name => (name, join name)) (filter candidate files)).
  unfold fbind at 1.
  pose proof (all_stat_calls jsonFiles (t + latency readdir)%N) as Hstats.
  destruct (all (map (statOperation stat) jsonFiles) (t + latency readdir)%N)
    as [statCalls [t1 [filesWithStats | e]]]; cbn [fst snd] in Hstats |- *;
    subst statCalls.
  - unfold fbind at 1.
    destruct (unlinkAll unlink (skipn keepCount (sortByCreated filesWithStats)) t1)
      as [unlinkCalls [t2 [[] | e]]]; cbn [fst snd fret fthrow app];
      rewrite ?app_nil_r; reflexivity.
  - cbn [fthrow app]. rewrite app_nil_r. reflexivity.
Qed.

(** X21.  [cleanupOldFiles(keepCount)] unlinks only files of the data
    directory whose name ends with [.json] and is neither
    [access_token.json] nor [latest.json].  When it resolves, it has kept
    the [keepCount] newest of them (all of them when there are fewer) and
    unlinked exactly the others, and it returns their numbers: with each
    file taken with the birth time that [fs.stat] answered for its path,
    every file unlinked is at most as recent as every file kept. *)
Theorem cleanup_keeps_the_newest (keepCount : nat) (t : N) :
  let run := cleanupOldFiles join readdir stat unlink keepCount t in
  (forall p, In (Unlink p) (fst run) ->
     exists files name,
       answer readdir = Resolve files /\ In name files /\ p = join name
       /\ endsWith ".json" name = true
       /\ name <> "access_token.json" /\ name <> "latest.json")
  /\ (forall t' result, snd run = (t', Resolve result) ->
        exists files kept deleted,
          answer readdir = Resolve files
          /\ Permutation (map filename (kept ++ deleted)) (filter candidate files)
          /\ length kept = Nat.min keepCount (length (filter candidate files))
          /\ filter (fun c => match c with Unlink _ => true | _ => false end) (fst run)
             = map (fun file => Unlink (join (filename file))) deleted
          /\ (forall file, In file (kept ++ deleted) ->
                path file = join (filename file)
                /\ answer (stat (join (filename file))) = Resolve (created file))
          /\ (forall k d, In k kept -> In d deleted -> (created d <= created k)%Z)
          /\ success result = true
          /\ deletedCount result = length deleted
          /\ remainingCount result = length kept).
Proof.
  cbv zeta. rewrite cleanupOldFiles_run.
  destruct (answer readdir) as [files | e].
  2:{ cbn [fst snd]. split; [| discriminate]. intros p [H | []]. discriminate H. }
  cbv zeta.
  set (jsonFiles := map (fun name => (name, join name)) (filter candidate files)).
  pose proof (all_stat_resolved jsonFiles (t + latency readdir)%N) as Hresolved.
  pose proof (all_stat_created jsonFiles (t + latency readdir)%N) as Hcreated.
  assert (Hnostat : forall p, ~ In (Unlink p)
                                 (map (fun file : string * string => Stat (snd file))
                                      jsonFiles)).
  { intros p Hin. apply in_map_iff in Hin. destruct Hin as (file & Hfile & _).
    discriminate Hfile. }
  destruct (snd (all (map (statOperation stat) jsonFiles) (t + latency readdir)%N))
    as [t1 [filesWithStats | e]].
  2:{ cbn [fst snd]. split; [| discriminate].
      intros p [H | Hin]; [discriminate H | now apply Hnostat in Hin]. }
  specialize (Hresolved t1 filesWithStats eq_refl).
  specialize (Hcreated t1 filesWithStats eq_refl).
  set (sorted := sortByCreated filesWithStats).
  assert (Hpaths : forall file, In file sorted ->
                                In (filename file) (filter candidate files)
                                /\ path file = join (filename file)).
  { intros file Hin.
    apply (Permutation_in _ (Permutation_sym (sortByCreated_perm filesWithStats))) in Hin.
    assert (Hpair : In (filename file, path file) jsonFiles).
    { rewrite <- Hresolved. apply in_map_iff. eauto. }
    unfold jsonFiles in Hpair. apply in_map_iff in Hpair.
    destruct Hpair as (name & [= Hname Hpath] & Hcandidate).
    subst name. auto. }
  destruct (unlinkAll_calls (skipn keepCount sorted) t1) as (n & Hcalls & Hall).
  destruct (unlinkAll unlink (skipn keepCount sorted) t1) as [unlinkCalls [t2 o]].
  cbn [fst snd] in Hcalls, Hall |- *. split.
  - intros p [H | Hin]; [discriminate H |].
    apply in_app_or in Hin. destruct Hin as [Hin | Hin]; [now apply Hnostat in Hin |].
    rewrite Hcalls in Hin.
    apply in_map_iff in Hin. destruct Hin as (file & [= <-] & Hin).
    apply In_firstn, In_skipn in Hin.
    destruct (Hpaths file Hin) as [Hname Hpath].
    apply filter_In in Hname. destruct Hname as [Hname Hcandidate].
    destruct (candidate_spared _ Hcandidate) as (Hjson & Htoken & Hlatest).
    exists files, (filename file). repeat split; auto.
  - intros t' result. destruct o as [[] | e]; [| discriminate]. intros [= <- <-].
    specialize (Hall t2 tt eq_refl). rewrite Hall in Hcalls.
    exists files, (firstn keepCount sorted), (skipn keepCount sorted).
    split; [reflexivity |].
    rewrite firstn_skipn.
    assert (Hnames : map filename filesWithStats = filter candidate files).
    { assert (H : map fst (map (fun file => (filename file, path file)) filesWithStats)
                  = map fst jsonFiles) by now rewrite Hresolved.
      unfold jsonFiles in H. rewrite !map_map in H. cbn [fst] in H.
      now rewrite map_id in H. }
    assert (Hlen : length sorted = length (filter candidate files)).
    { rewrite <- Hnames, length_map. symmetry.
      apply Permutation_length, sortByCreated_perm. }
    split.
    { rewrite <- Hnames. apply Permutation_map, Permutation_sym, sortByCreated_perm. }
    split; [rewrite length_firstn; lia |].
    split.
    { cbn [filter]. rewrite filter_app.
      assert (Hnone : forall l : list (string * string),
                 filter (fun c => match c with Unlink _ => true | _ => false end)
                   (map (fun file : string * string => Stat (snd file)) l) = []).
      { induction l as [| j rest IH]; [reflexivity | exact IH]. }
      rewrite Hnone, Hcalls. cbn [app].
      assert (Hsub : forall file, In file (skipn keepCount sorted) ->
                                  path file = join (filename file)).
      { intros file Hin. apply Hpaths. apply (In_skipn _ _ _ Hin). }
      clear Hcalls Hall. revert Hsub.
      generalize (skipn keepCount sorted) as deleted.
      induction deleted as [| d rest IH]; intros Hsub; [reflexivity |].
      cbn [map filter]. rewrite IH by (intros; apply Hsub; now right).
      rewrite (Hsub d) by now left. reflexivity. }
    split.
    { intros file Hin.
      destruct (Hpaths file Hin) as [_ Hpath]. split; [exact Hpath |].
      rewrite <- Hpath.
      apply (Permutation_in _ (Permutation_sym (sortByCreated_perm filesWithStats)))
        in Hin.
      rewrite Forall_forall in Hcreated. now apply Hcreated. }
    split.
    { intros k d Hk Hd.
      pose proof (sortByCreated_sorted filesWithStats) as Hsorted.
      fold sorted in Hsorted. rewrite <- (firstn_skipn keepCount sorted) in Hsorted.
      apply (StronglySorted_app_cross _ _ _ Hsorted k d Hk Hd). }
    split; [reflexivity |]. split; [reflexivity |].
    cbn [remainingCount]. rewrite length_skipn, length_firstn.
    assert (length filesWithStats = length sorted)
      by (apply Permutation_length, sortByCreated_perm).
    lia.
Qed.

End StoredFileFacts.

Section FilenameFacts.

Import DataService.

Lemma includes_skip needle c a rest :
  a <> c ->
  Text.includes (String c needle) (String a rest) = Text.includes (String c needle) rest.
Proof.
  intros Hne. cbn [Text.includes prefix].
  destruct (ascii_dec c a) as [-> |]; [congruence | reflexivity].
Qed.

Lemma includes_char_cons c a rest :
  Text.includes (String c "") (String a rest)
  = Ascii.eqb a c || Text.includes (String c "") rest.
Proof.
  cbn [Text.includes prefix]. destruct (ascii_dec c a) as [-> | Hne].
  - rewrite Ascii.eqb_refl. now destruct rest.
  - apply not_eq_sym, Ascii.eqb_neq in Hne. now rewrite Hne.
Qed.

Lemma dashed_char c :
  (if Ascii.eqb c ":" || Ascii.eqb c "." then "-"%char else c) <> "."%char.
Proof.
  destruct (Ascii.eqb_spec c ":") as [-> |]; [discriminate |].
  destruct (Ascii.eqb_spec c ".") as [-> |]; [discriminate | assumption].
Qed.

(** No two dots in a row once colons and dots are dashes, whatever
    follows without dot at its head. *)
Lemma includes_dots_dashed s tail :
  Text.includes ".." tail = false ->
  Text.includes ".." (dashColonsAndDots s ++ tail) = false.
Proof.
  intros Htail. induction s as [| c rest IH]; cbn [dashColonsAndDots append];
    [exact Htail |].
  rewrite includes_skip; [exact IH | apply dashed_char].
Qed.

Lemma includes_char_dashed c s tail :
  c <> "-"%char ->
  Text.includes (String c "") s = false ->
  Text.includes (String c "") tail = false ->
  Text.includes (String c "") (dashColonsAndDots s ++ tail) = false.
Proof.
  intros Hdash Hs Htail. induction s as [| a rest IH]; cbn [dashColonsAndDots append];
    [exact Htail |].
  rewrite includes_char_cons in Hs |- *.
  apply Bool.orb_false_iff in Hs. destruct Hs as [Ha Hrest].
  rewrite (IH Hrest), Bool.orb_false_r.
  destruct (Ascii.eqb a ":" || Ascii.eqb a "."); [| exact Ha].
  apply Ascii.eqb_neq. congruence.
Qed.

Lemma string_app_assoc (a b c : string) : (a ++ (b ++ c) = (a ++ b) ++ c)%string.
Proof.
  induction a as [| x a IH]; cbn [append]; [reflexivity | now rewrite IH].
Qed.

Lemma endsWith_app suffix pre : endsWith suffix (pre ++ suffix) = true.
Proof.
  induction pre as [| c rest IH]; cbn [append].
  - destruct suffix; cbn [endsWith]; now rewrite String.eqb_refl.
  - cbn [endsWith]. destruct (String.eqb _ suffix); [reflexivity | exact IH].
Qed.

Variable rt : Runtime.

(** X22.  A name generated for a saved analysis can be fetched and is
    subject to cleaning: provided the ISO date of the instant holds no
    slash or backslash, as no ISO date does, [getDataByFilename] does
    not refuse it, [getStoredData] lists it and [cleanupOldFiles] counts
    it among the files it may delete. *)
Theorem generated_name_is_accepted (t : N) :
  Text.includes "/" (toISOString rt (Z.of_N t)) = false ->
  Text.includes "\" (toISOString rt (Z.of_N t)) = false ->
  let name := generateFilename rt "product_analysis" t in
  refused name = false /\ listed name = true /\ candidate name = true.
Proof.
  intros Hslash Hback. cbv zeta. unfold generateFilename.
  set (iso := toISOString rt (Z.of_N t)) in *.
  assert (Hjson : endsWith ".json" ("product_analysis" ++ "_" ++ dashColonsAndDots iso ++ ".json")
                  = true).
  { rewrite !string_app_assoc. apply endsWith_app. }
  assert (Htoken : String.eqb ("product_analysis" ++ "_" ++ dashColonsAndDots iso ++ ".json")
                     "access_token.json" = false) by reflexivity.
  assert (Hlatest : String.eqb ("product_analysis" ++ "_" ++ dashColonsAndDots iso ++ ".json")
                      "latest.json" = false) by reflexivity.
  unfold refused, listed, candidate. rewrite Hjson, Htoken, Hlatest.
  split; [| split; reflexivity].
  cbn [append].
  rewrite !includes_skip by discriminate.
  rewrite includes_dots_dashed by reflexivity.
  rewrite !includes_char_dashed by (reflexivity || assumption || discriminate).
  reflexivity.
Qed.

End FilenameFacts.

Section LookupFacts.

Import DataService.

Variable rt : Runtime.
Variable join : string -> string.
Variable access : string -> Timed (Outcome unit).
Variable readFile : string -> Timed (Outcome string).
Variable syntaxError : string -> string.

(** The run of [getDataByFilename], case by case. *)
Lemma getDataByFilename_run (name : string) (t : N) :
  getDataByFilename rt join access readFile syntaxError name t
  = if refused name then
      ([], (t, Resolve {| status := 400;
                          body := [("error", JStr "Invalid filename")] |}))
    else
      let t1 := (t + latency (access (join name)))%N in
      let t2 := (t1 + latency (readFile (join name)))%N in
      match answer (access (join name)) with
      | Reject _ =>
          ([Access (join name)],
           (t1, Resolve {| status := 404;
                           body := [("error", JStr "File not found")] |}))
      | Resolve _ =>
          ([Access (join name); ReadFile (join name)],
           (t2,
            Resolve
              match answer (readFile (join name)) with
              | Reject e =>
                  {| status := 500;
                     body := [ ("error", JStr "Failed to read file");
                               ("message", JStr (message e)) ] |}
              | Resolve content =>
                  match JSON_parse rt content with
                  | None =>
                      {| status := 500;
                         body := [ ("error", JStr "Failed to read file");
                                   ("message", JStr (syntaxError content)) ] |}
                  | Some data =>
                      {| status := 200;
                         body := [ ("success", JBool true);
                                   ("filename", JStr name);
                                   ("data", data) ] |}
                  end
              end))
      end.
Proof.
  unfold getDataByFilename, ftry.
  destruct (refused name); [reflexivity |].
  unfold fbind at 1, fbind at 1, call at 1.
  destruct (answer (access (join name))) as [[] | e1]; cbn [fret app negb];
    [| reflexivity].
  unfold fbind, call.
  destruct (answer (readFile (join name))) as [content | e2]; [| reflexivity].
  destruct (JSON_parse rt content) as [data |]; reflexivity.
Qed.

(** X23.  [getDataByFilename] always answers, with status 200, 400, 404
    or 500.  A name that includes [..], a slash or a backslash is
    answered 400 at once, before any call to the file system; for any
    other name the only path accessed or read is the name joined to the
    data directory, and the answer is 200 exactly when that file is
    accessible, is read and parses, with the value parsed as [data]. *)
Theorem lookup_checks_the_name (name : string) (t : N) :
  let run := getDataByFilename rt join access readFile syntaxError name t in
  (exists reply,
     snd (snd run) = Resolve reply
     /\ In (status reply) [200; 400; 404; 500]%N
     /\ (status reply = 200%N <->
         refused name = false
         /\ answer (access (join name)) = Resolve tt
         /\ exists content data,
              answer (readFile (join name)) = Resolve content
              /\ JSON_parse rt content = Some data
              /\ body reply = [ ("success", JBool true);
                                ("filename", JStr name);
                                ("data", data) ]))
  /\ (refused name = true ->
      run = ([], (t, Resolve {| status := 400;
                                body := [("error", JStr "Invalid filename")] |})))
  /\ (forall c, In c (fst run) ->
        refused name = false
        /\ (c = Access (join name) \/ c = ReadFile (join name))).
Proof.
  cbv zeta. rewrite getDataByFilename_run.
  destruct (refused name) eqn:Hrefused.
  - cbn. split; [| split; [reflexivity | intros c []]].
    eexists. split; [reflexivity |]. split; [cbn; auto |].
    cbn [status]. split; [discriminate | intros [H _]; discriminate H].
  - cbv zeta. destruct (answer (access (join name))) as [[] | e1]; cbn [fst snd].
    + split; [| split; [discriminate | intros c [<- | [<- | []]]; auto]].
      destruct (answer (readFile (join name))) as [content | e2].
      * destruct (JSON_parse rt content) as [data |] eqn:Hparse.
        -- eexists. split; [reflexivity |]. split; [cbn; auto |].
           cbn [status body]. split; [| reflexivity].
           intros _. repeat split. exists content, data. auto.
        -- eexists. split; [reflexivity |]. split; [cbn; auto 6 |].
           cbn [status]. split; [discriminate |].
           intros (_ & _ & content' & data & [= <-] & Hdata & _). congruence.
      * eexists. split; [reflexivity |]. split; [cbn; auto 6 |].
        cbn [status]. split; [discriminate |].
        intros (_ & _ & content' & data & Hread & _). discriminate Hread.
    + split; [| split; [discriminate | intros c [<- | []]; auto]].
      eexists. split; [reflexivity |]. split; [cbn; auto 6 |].
      cbn [status]. split; [discriminate |].
      intros (_ & Haccess & _). discriminate Haccess.
Qed.

End LookupFacts.

(* ====================================================================== *)
(** * The error middleware *)
(* ====================================================================== *)

Section ErrorFacts.

Import ErrorHandler.

Variable rt : Runtime.

Lemma getField_setField k k' v fields :
  getField k' (setField k v fields)
  = if String.eqb k' k then Some v else getField k' fields.
Proof.
  destruct (String.eqb_spec k' k) as [-> | Hne].
  - apply getField_setField_same.
  - now apply getField_setField_other.
Qed.

Lemma getField_spread k details : forall base,
  NoDup (map fst details) ->
  getField k (spread base details)
  = match getField k details with
    | Some v => Some v
    | None => getField k base
    end.
Proof.
  unfold spread. induction details as [| [k' v'] rest IH]; intros base Hnodup;
    cbn [fold_left getField fst snd map]; [reflexivity |].
  inversion Hnodup as [| ? ? Hnotin Hrest]; subst.
  rewrite (IH _ Hrest), getField_setField.
  destruct (String.eqb_spec k k') as [-> | Hne]; [| reflexivity].
  destruct (getField k' rest) as [v |] eqn:Hfound; [| reflexivity].
  exfalso. apply Hnotin. clear - Hfound.
  induction rest as [| [k0 v0] rest IH]; [discriminate |].
  cbn [getField] in Hfound. cbn [map fst].
  destruct (String.eqb_spec k' k0) as [-> | Hne]; [now left | right; auto].
Qed.

Lemma classify_not_validation error :
  name error <> "ValidationError" ->
  snd (classify error) = [].
Proof.
  intros Hname. unfold classify. apply String.eqb_neq in Hname. rewrite Hname.
  repeat (match goal with
          | |- context [if ?b then _ else _] => destruct b
          | |- context [match ?o with Some _ => _ | None => _ end] => destruct o
          end; try reflexivity).
Qed.

(** X24.  In production an answer with status 500 carries nothing of
    the error: its message is [Internal Server Error] and its body has
    the five fixed keys only.  And no error but a [ValidationError],
    whose details are sent, adds a key to the body: no stack is sent. *)
Theorem production_hides_internal_errors (error : Thrown) (url : string) (t : N) :
  let reply := handleError rt (Some "production") error url t in
  (status reply = 500%N ->
   body reply = [ ("error", JBool true);
                  ("message", JStr "Internal Server Error");
                  ("statusCode", JNum 500);
                  ("timestamp", JStr (toISOString rt (Z.of_N t)));
                  ("path", JStr url) ])
  /\ (name error <> "ValidationError" ->
      map fst (body reply) = ["error"; "message"; "statusCode"; "timestamp"; "path"]
      /\ getField "stack" (body reply) = None).
Proof.
  cbv zeta. unfold handleError.
  assert (Hprod : production (Some "production") = true) by reflexivity.
  rewrite Hprod. cbn [andb negb].
  split.
  - destruct (classify error) as [[statusCode msg] details0].
    destruct (N.eqb_spec statusCode 500) as [-> | Hne]; cbn [status body].
    + reflexivity.
    + intros Hstatus. congruence.
  - intros Hname. pose proof (classify_not_validation error Hname) as Hnone.
    destruct (classify error) as [[statusCode msg] details0]. cbn [snd] in Hnone. subst.
    destruct (statusCode =? 500)%N; split; reflexivity.
Qed.

(** X25.  Outside production the stack of the error is sent under
    [stack], whatever the details hold.  The details of a
    [ValidationError] are sent key by key and replace the fixed keys of
    the same name in the body ([message], [statusCode], ...); the status
    of the answer itself stays 400. *)
Theorem development_sends_stack_and_details (NODE_ENV : option string)
        (error : Thrown) (url : string) (t : N) (trace : string)
        (sent : list (string * JSON)) :
  NODE_ENV <> Some "production" ->
  stack error = Some trace ->
  name error = "ValidationError" ->
  details error = Some sent ->
  NoDup (map fst sent) ->
  let reply := handleError rt NODE_ENV error url t in
  status reply = 400%N
  /\ getField "stack" (body reply) = Some (JStr trace)
  /\ (forall k v, getField k sent = Some v -> k <> "stack" ->
        getField k (body reply) = Some v)
  /\ (getField "message" sent = None ->
      getField "message" (body reply) = Some (JStr "Validation Error")).
Proof.
  intros Henv Hstack Hname Hdetails Hnodup. cbv zeta.
  assert (Hprod : production NODE_ENV = false).
  { unfold production. destruct NODE_ENV as [env |]; [| reflexivity].
    apply String.eqb_neq. congruence. }
  unfold handleError, classify. rewrite Hname, Hprod, Hstack, Hdetails.
  cbn [String.eqb Ascii.eqb Bool.eqb andb negb status body].
  assert (Hnodup' : NoDup (map fst (setField "stack" (JStr trace) sent))).
  { clear - Hnodup. induction sent as [| [k v] rest IH]; cbn [setField map fst].
    - repeat constructor. intros [].
    - inversion Hnodup as [| ? ? Hnotin Hrest]; subst.
      destruct (String.eqb_spec "stack" k) as [<- | Hne]; cbn [map fst].
      + now constructor.
      + constructor; [| now apply IH].
        intros Hin. apply Hnotin. clear - Hin Hne.
        induction rest as [| [k0 v0] rest IH]; cbn [setField map fst In] in *.
        * destruct Hin as [<- | []]. congruence.
        * destruct (String.eqb_spec "stack" k0) as [<- | Hne0]; cbn [map fst In] in Hin.
          -- destruct Hin as [<- | Hin]; [congruence | now right].
          -- destruct Hin as [<- | Hin]; [now left | right; auto]. }
  split; [reflexivity |]. split; [| split].
  - rewrite getField_spread by exact Hnodup'. now rewrite getField_setField_same.
  - intros k v Hk Hne. rewrite getField_spread by exact Hnodup'.
    rewrite getField_setField_other by exact Hne. now rewrite Hk.
  - intros Hnone. rewrite getField_spread by exact Hnodup'.
    rewrite getField_setField_other by discriminate. now rewrite Hnone.
Qed.

(** X26.  A request that no route matched is answered 404 with the
    message [Not Found] and the requested path: the text built by
    [handle404] for its error is not the message sent, and the stack is
    sent outside production only. *)
Theorem unknown_route_is_answered_404 (NODE_ENV : option string)
        (originalUrl url trace : string) (t : N) :
  handleError rt NODE_ENV (handle404 originalUrl trace) url t
  = {| status := 404;
       body :=
         ([ ("error", JBool true);
            ("message", JStr "Not Found");
            ("statusCode", JNum 404);
            ("timestamp", JStr (toISOString rt (Z.of_N t)));
            ("path", JStr url) ]
          ++ (if production NODE_ENV then [] else [("stack", JStr trace)]))%list |}.
Proof.
  unfold handleError. cbn [classify handle404 name String.eqb Ascii.eqb Bool.eqb].
  destruct (production NODE_ENV); reflexivity.
Qed.

End ErrorFacts.

(* ====================================================================== *)
(** * Products by date range; access by domain *)
(* ====================================================================== *)

Section DateRangeFacts.

Import ProductHuntService DateRange.

Variable rt : Runtime.
Variable graphqlPost : nat -> Timed (Outcome GraphQLBody).
Variable restGet : Timed (Outcome RestBody).
Variable mathRandom : nat -> N.

(** X27.  [getProductsByDateRange] over the listing source never
    rejects.  It resolves with at most [limit] products, all of them
    among those of [getTrendingProducts], each created from the start
    date to the end date, both included; a product whose date cannot be
    read is dropped, and a start or end date that cannot be read gives
    the empty list, not an error. *)
Theorem date_range_filters_the_listing (accessToken startDate endDate : string)
        (limit : nat) (t : N) :
  let source := getTrendingProducts rt graphqlPost restGet mathRandom in
  exists t' fetched kept,
    source accessToken limit t = (t', Resolve fetched)
    /\ getProductsByDateRange rt source accessToken startDate endDate limit t
       = (t', Resolve kept)
    /\ length kept <= limit
    /\ (forall p, In p kept ->
          In p fetched
          /\ exists first last created,
               Date_parse rt startDate = Some first
               /\ Date_parse rt endDate = Some last
               /\ Date_parse rt (createdAt p) = Some created
               /\ (first <= created <= last)%Z)
    /\ (Date_parse rt startDate = None \/ Date_parse rt endDate = None -> kept = []).
Proof.
  cbv zeta.
  destruct (getTrendingProducts_resolves rt graphqlPost restGet mathRandom
              accessToken limit t) as (t' & fetched & Hsource).
  pose proof (getTrendingProducts_length rt graphqlPost restGet mathRandom
                accessToken limit t t' fetched Hsource) as Hlimit.
  exists t', fetched.
  unfold getProductsByDateRange, tryCatch, bind. rewrite Hsource. cbn [ret].
  eexists. split; [reflexivity |]. split; [reflexivity |].
  split; [| split].
  - etransitivity; [apply filter_length_le | exact Hlimit].
  - intros p Hin. apply filter_In in Hin. destruct Hin as [Hin Hkept].
    split; [exact Hin |]. cbv zeta in Hkept.
    apply andb_prop in Hkept. destruct Hkept as [Hfirst Hlast].
    unfold notBefore, notAfter in *.
    destruct (Date_parse rt (createdAt p)) as [created |]; [| discriminate].
    destruct (Date_parse rt startDate) as [first |]; [| discriminate].
    destruct (Date_parse rt endDate) as [last |]; [| discriminate].
    exists first, last, created. repeat split; lia.
  - intros Hinvalid.
    induction fetched as [| p rest IH] in Hinvalid |- *; [reflexivity |].
    cbn [filter].
    assert (Hdrop : notBefore (Date_parse rt (createdAt p)) (Date_parse rt startDate)
                    && notAfter (Date_parse rt (createdAt p)) (Date_parse rt endDate)
                    = false).
    { unfold notBefore, notAfter.
      destruct Hinvalid as [-> | ->]; destruct (Date_parse rt (createdAt p));
        rewrite ?Bool.andb_false_r; reflexivity. }
    cbv zeta. rewrite Hdrop. now apply IH.
Qed.

End DateRangeFacts.

Section DomainFacts.

Import InternalAuth.

Lemma splitCommas_concat s : forall piece,
  String.concat "," (splitCommas piece s) = (piece ++ s)%string.
Proof.
  induction s as [| c rest IH]; intros piece; cbn [splitCommas].
  - cbn. clear. induction piece as [| a piece IH]; cbn; [reflexivity | now f_equal].
  - destruct (Ascii.eqb_spec c ",") as [-> | Hne].
    + specialize (IH EmptyString). cbn [append] in IH.
      cbn [String.concat].
      destruct (splitCommas "" rest) as [| piece' others] eqn:Hsplit.
      * destruct rest; cbn in Hsplit; [discriminate |].
        destruct (Ascii.eqb _ _); discriminate.
      * rewrite IH. reflexivity.
    + rewrite IH. rewrite <- string_app_assoc. reflexivity.
Qed.

Lemma includes_char_app c a b :
  Text.includes (String c "") (a ++ b)
  = Text.includes (String c "") a || Text.includes (String c "") b.
Proof.
  induction a as [| x a IH]; cbn [append].
  - destruct b; reflexivity.
  - rewrite !includes_char_cons, IH. now rewrite Bool.orb_assoc.
Qed.

Lemma splitCommas_pieces s : forall piece,
  Text.includes "," piece = false ->
  Forall (fun entry => Text.includes "," entry = false) (splitCommas piece s).
Proof.
  induction s as [| c rest IH]; intros piece Hpiece; cbn [splitCommas].
  - now repeat constructor.
  - destruct (Ascii.eqb_spec c ",") as [-> | Hne].
    + constructor; [exact Hpiece | now apply IH].
    + apply IH. rewrite includes_char_app, Hpiece, includes_char_cons.
      apply Ascii.eqb_neq in Hne. now rewrite Hne.
Qed.

(** X28.  [checkEnvironment] lets every request through outside
    production, and in production when [ALLOWED_DOMAINS] is not set or
    empty.  Otherwise it lets through exactly the requests whose [Host]
    is one of the comma-separated entries of [ALLOWED_DOMAINS], compared
    as they are written (joined by commas the entries give the variable
    back), and answers 403 to the others, a request without [Host]
    included. *)
Theorem domain_check_decides (NODE_ENV ALLOWED_DOMAINS host : option string) :
  let decision := checkEnvironment NODE_ENV ALLOWED_DOMAINS host in
  (NODE_ENV <> Some "production" -> decision = Next)
  /\ (match ALLOWED_DOMAINS with Some domains => Text.truthy domains | None => false end
      = false -> decision = Next)
  /\ (forall domains,
        NODE_ENV = Some "production" ->
        ALLOWED_DOMAINS = Some domains ->
        Text.truthy domains = true ->
        exists entries,
          String.concat "," entries = domains
          /\ Forall (fun entry => Text.includes "," entry = false) entries
          /\ (decision = Next <-> exists h, host = Some h /\ In h entries)
          /\ (decision = Next
              \/ decision
                 = Deny 403 [ ("error", JStr "Access denied");
                              ("message",
                               JStr "This internal tool is not accessible from this domain") ])).
Proof.
  cbv zeta. unfold checkEnvironment. split; [| split].
  - intros Henv.
    assert (Hprod : match NODE_ENV with
                    | Some env => String.eqb env "production"
                    | None => false
                    end = false).
    { destruct NODE_ENV as [env |]; [| reflexivity]. apply String.eqb_neq. congruence. }
    now rewrite Hprod.
  - intros Hnone. destruct ALLOWED_DOMAINS as [domains |].
    + rewrite Hnone. cbn. now rewrite Bool.andb_false_r.
    + cbn. now rewrite Bool.andb_false_r.
  - intros domains -> -> Htruthy. rewrite Htruthy, String.eqb_refl.
    exists (splitCommas "" domains).
    split; [apply splitCommas_concat |].
    split; [now apply splitCommas_pieces |].
    assert (Hlen : (0 <? length (splitCommas "" domains))%nat = true).
    { apply Nat.ltb_lt. destruct domains as [| c rest]; cbn [splitCommas].
      - cbn; lia.
      - destruct (Ascii.eqb c ","); [cbn; lia |].
        generalize ("" ++ String c "")%string. clear.
        induction rest as [| c rest IH]; intros piece; cbn [splitCommas]; [cbn; lia |].
        destruct (Ascii.eqb c ","); [cbn; lia | apply IH]. }
    rewrite Hlen. cbn [andb].
    destruct host as [h |]; cbn [negb].
    + destruct (existsb (String.eqb h) (splitCommas "" domains)) eqn:Hfound; cbn [negb].
      * split; [| now left]. split; [| reflexivity]. intros _.
        apply existsb_exists in Hfound. destruct Hfound as (entry & Hin & Heq).
        apply String.eqb_eq in Heq. subst entry. eauto.
      * split; [| now right]. split; [discriminate |].
        intros (h' & [= <-] & Hin).
        assert (Hyes : existsb (String.eqb h) (splitCommas "" domains) = true).
        { apply existsb_exists. exists h. split; [exact Hin | apply String.eqb_refl]. }
        congruence.
    + split; [| now right]. split; [discriminate |].
      intros (h' & Hhost & _). discriminate Hhost.
Qed.

End DomainFacts.

(* ====================================================================== *)
(** * The other services on small inputs *)
(* ====================================================================== *)

Section MoreChecks.

Import Server App Examples Worlds.

Example today_before_votes :
  map id (match snd (ProductHuntService.getTrendingProducts calendar busyDay noRest
                       (fun k => N.of_nat k) "token" 2 0%N) with
          | Resolve ps => ps
          | Reject _ => []
          end)
  = ["many"; "few"].
Proof. reflexivity. Qed.

Example four_posts_then_rest_then_mock :
  fst (ProductHuntService.getTrendingProducts calendar alwaysLimited noRest
         (fun k => N.of_nat k) "token" 2 0%N)
  = 3500%N.
Proof. reflexivity. Qed.

Example four_calls_then_failure :
  ChatGPTService.analyzeProduct calendar true alwaysRefused (item "A") 0 0%N
  = (6400%N, Resolve (ChatGPTService.failedAnalysis calendar rateLimited 6400)).
Proof. reflexivity. Qed.

Example batches_of_two :
  ChatGPTBatch.analyzeProductsBatch calendar analyzer
    [item "A"; item "B"; item "C"] 2 5000 3 0%N
  = Some (5100%N,
          [ fine;
            JObj [ ("error", JStr "quota exceeded"); ("productId", JStr "B");
                   ("productName", JStr "Item B"); ("analyzedAt", JStr "50") ];
            fine ]).
Proof. reflexivity. Qed.

Example stored_tokens :
  AuthService.getStoredToken calendar calendarDate oauthService
    (mkTimed 3 (Resolve "fresh token")) (Resolve true) refreshed done done done 0%N
  = (3%N, Resolve (Some (JStr "stored")))
  /\ AuthService.getStoredToken calendar calendarDate oauthService
       (mkTimed 3 (Resolve "old token")) (Resolve true) refreshed done done done 100%N
     = (135%N, Resolve (Some (JStr "renewed")))
  /\ AuthService.getStoredToken calendar calendarDate oauthService
       (mkTimed 3 (Resolve "old token")) (Resolve true) refreshed done done
       (mkTimed 1 (Reject (newError "EACCES"))) 100%N
     = (135%N, Resolve (Some JNull))
  /\ AuthService.getStoredToken calendar calendarDate oauthService
       (mkTimed 3 (Reject (newError "ENOENT"))) (Resolve true) refreshed done done done
       100%N
     = (103%N, Resolve (Some JNull)).
Proof. repeat split. Qed.

Example names_of_files :
  DataService.dashColonsAndDots "2024-01-02T03:04:05.678Z" = "2024-01-02T03-04-05-678Z"
  /\ DataService.generateFilename calendar "product_analysis" 1234
     = "product_analysis_1234.json"
  /\ map DataService.refused ["../x"; "a/b"; "a\b"; "a..json"; "access_token.json"]
     = [true; true; true; true; false]
  /\ map DataService.candidate directory
     = [true; false; true; false; false; true; true].
Proof. repeat split. Qed.

Example the_two_newest_are_kept :
  DataService.cleanupOldFiles dataPath (mkTimed 5 (Resolve directory)) birthtimes
    (fun _ => done) 2 0%N
  = ([ DataService.Readdir;
       DataService.Stat "data/a3.json"; DataService.Stat "data/a1.json";
       DataService.Stat "data/a4.json"; DataService.Stat "data/a2.json";
       DataService.Unlink "data/a2.json"; DataService.Unlink "data/a1.json" ],
     (9%N, Resolve {| DataService.success := true;
                      DataService.deletedCount := 2;
                      DataService.remainingCount := 2 |})).
Proof. reflexivity. Qed.

Example details_replace_the_message :
  ErrorHandler.handleError calendar (Some "production") invalidLimit "/api" 7
  = {| ErrorHandler.status := 400;
       ErrorHandler.body :=
         [ ("error", JBool true); ("message", JStr "too small");
           ("statusCode", JNum 400); ("timestamp", JStr "7"); ("path", JStr "/api");
           ("field", JStr "limit") ] |}.
Proof. reflexivity. Qed.

Example domains_as_written :
  InternalAuth.splitCommas "" "a.com, b.com,," = ["a.com"; " b.com"; ""; ""]
  /\ InternalAuth.checkEnvironment (Some "production") (Some "a.com, b.com")
       (Some "a.com") = InternalAuth.Next
  /\ (exists body,
        InternalAuth.checkEnvironment (Some "production") (Some "a.com, b.com")
          (Some "b.com") = InternalAuth.Deny 403 body).
Proof. repeat split. eexists. reflexivity. Qed.

(** [?code=c&state=a&state=b] gives an array as state, [?code=c&state=]
    the empty text, and [?code=c&state=internal-setup-1] a state that is
    accepted. *)
Example callback_by_state :
  AuthService.handleCallback oauthService refreshed done done done
    (Some (AuthService.QText "c")) (Some AuthService.QArray) 0%N
  = (0%N,
     Resolve (AuthService.ReplyJson 500
                [ ("error", JStr "Internal authentication failed");
                  ("message", JStr "state.startsWith is not a function") ]))
  /\ AuthService.handleCallback oauthService refreshed done done done
       (Some (AuthService.QText "c")) (Some (AuthService.QText "")) 0%N
     = (0%N,
        Resolve (AuthService.ReplyJson 403 [("error", JStr "Unauthorized access attempt")]))
  /\ AuthService.handleCallback oauthService refreshed done done done
       (Some (AuthService.QText "c")) (Some (AuthService.QText "internal-setup-1")) 0%N
     = (32%N, Resolve (AuthService.Redirect "/?setup=complete")).
Proof. repeat split. Qed.

End MoreChecks.

(* ====================================================================== *)
(** * The properties of the services at concrete inputs *)
(* ====================================================================== *)

Section MoreConcreteRuns.

Import Server App Examples Worlds.

Lemma getTrendingProducts_prefers_today_witness :
  let isToday :=
    ProductHuntService.launchedToday calendar (localMidnight calendar (Z.of_N 100)) in
  exists chosen,
    ProductHuntService.getTrendingProducts calendar busyDay noRest (fun k => N.of_nat k)
      "token" 2 0%N
    = (100%N, Resolve (map (ProductHuntService.transformProduct calendar 100) chosen))
    /\ length chosen <= 2
    /\ (forall post, In post chosen -> In post todaysPosts)
    /\ (existsb isToday todaysPosts = true -> 1 <= 2 ->
        chosen <> []
        /\ Forall (fun post => isToday post = true) chosen
        /\ StronglySorted
             (fun a b => (Reading.votesOf b <= Reading.votesOf a)%Z) chosen
        /\ (forall post, In post todaysPosts -> isToday post = true ->
              In post chosen
              \/ Forall (fun c => (Reading.votesOf post <= Reading.votesOf c)%Z) chosen
                 /\ length chosen = 2))
    /\ (existsb isToday todaysPosts = false -> chosen = firstn 2 todaysPosts).
Proof.
  exact (getTrendingProducts_prefers_today calendar busyDay noRest (fun k => N.of_nat k)
           "token" 2 0%N 100%N todaysBody todaysPosts eq_refl eq_refl).
Defined.

Lemma parsed_analysis_carries_metadata_witness :
  exists result,
    ChatGPTService.analyzeProduct calendar true (answers (Some "{}")) (item "A") 0 0%N
    = (10%N, Resolve (JObj result))
    /\ getField "metadata" result
       = Some (JObj [ ("analyzedAt", JStr "10"); ("model", JStr "gpt-4o");
                      ("tokensUsed", JNum 12); ("productId", JStr "A");
                      ("productName", JStr "Item A") ])
    /\ (forall k, k <> "metadata" -> getField k result = getField k []).
Proof.
  exact (parsed_analysis_carries_metadata calendar (answers (Some "{}")) (item "A") 0 0%N
           (completionOf (Some "{}")) {| ChatGPTService.content := Some "{}" |} []
           "{}" [] eq_refl eq_refl eq_refl eq_refl).
Defined.

Lemma unparsable_answer_is_kept_witness :
  exists metadata,
    ChatGPTService.analyzeProduct calendar true (answers (Some "Sorry."))
      (item "A") 0 0%N
    = (10%N,
       Resolve (JObj [ ("error", JStr "Failed to parse structured response");
                       ("rawResponse", JStr "Sorry.");
                       ("summary",
                        JStr "Analysis completed but response format was invalid");
                       ("metadata", JObj metadata) ]))
    /\ getField "productId" metadata = Some (JStr "A")
    /\ getField "model" metadata = Some (JStr "gpt-4o").
Proof.
  exact (unparsable_answer_is_kept calendar (answers (Some "Sorry.")) (item "A") 0 0%N
           (completionOf (Some "Sorry."))
           {| ChatGPTService.content := Some "Sorry." |} [] "Sorry."
           eq_refl eq_refl eq_refl eq_refl).
Defined.

Lemma degenerate_answer_is_not_retried_witness :
  exists msg,
    ChatGPTService.analyzeProduct calendar true (answers None) (item "A") 0 0%N
    = (10%N, Resolve (ChatGPTService.failedAnalysis calendar (newError msg) 10))
    /\ msg = "Cannot create property 'metadata'".
Proof.
  exact (degenerate_answer_is_not_retried calendar (answers None) (item "A") 0 0%N
           (completionOf None) eq_refl I).
Defined.

Lemma analyzeProduct_calls_at_most_four_times_witness :
  ChatGPTService.analyzeProduct calendar true refusedFourTimes (item "A") 0 0%N
  = ChatGPTService.analyzeProduct calendar true alwaysRefused (item "A") 0 0%N
  /\ (0 <= fst (ChatGPTService.analyzeProduct calendar true refusedFourTimes
                  (item "A") 0 0%N)
      <= 0 + (100 + 100 + 100 + 100) + 6000)%N.
Proof.
  exact (analyzeProduct_calls_at_most_four_times calendar true refusedFourTimes
           alwaysRefused (item "A") 0%N eq_refl eq_refl eq_refl eq_refl).
Defined.

Lemma graphql_errors_are_not_retried_witness :
  ProductHuntService.makeGraphQLRequest refusedQuery 0 0%N
  = (100%N, Reject (newError "GraphQL errors: [{}]")).
Proof.
  exact (graphql_errors_are_not_retried refusedQuery 0 0%N
           {| ProductHuntService.gql_errors := Some "[{}]";
              ProductHuntService.gql_posts := None |} "[{}]" eq_refl eq_refl).
Defined.

Lemma getTrendingProducts_calls_are_bounded_witness :
  ProductHuntService.getTrendingProducts calendar limitedFourTimes noRest
    (fun k => N.of_nat k) "token" 2 0%N
  = ProductHuntService.getTrendingProducts calendar alwaysLimited noRest
      (fun k => N.of_nat k) "token" 2 0%N
  /\ (0 <= fst (ProductHuntService.getTrendingProducts calendar limitedFourTimes noRest
                  (fun k => N.of_nat k) "token" 2 0%N)
      <= 0 + (100 + 100 + 100 + 100) + 3000 + 100)%N.
Proof.
  exact (getTrendingProducts_calls_are_bounded calendar noRest (fun k => N.of_nat k)
           limitedFourTimes alwaysLimited "token" 2 0%N eq_refl eq_refl eq_refl eq_refl).
Defined.

Lemma valid_stored_token_is_returned_witness :
  AuthService.getStoredToken calendar calendarDate oauthService
    (mkTimed 3 (Resolve "fresh token")) (Resolve true) refreshed done done done 0%N
  = (3%N, Resolve (Some (JStr "stored"))).
Proof.
  exact (valid_stored_token_is_returned calendar calendarDate
           (mkTimed 3 (Resolve "fresh token")) (Resolve true) refreshed done done done
           oauthService 0%N "fresh token"
           [("access_token", JStr "stored"); ("expires_at", JStr "5000")]
           eq_refl eq_refl eq_refl eq_refl).
Defined.

Lemma expired_token_needs_refresh_witness :
  AuthService.client oauthService = true
  /\ ((Resolve true = Resolve false
       /\ Some (JStr "renewed")
          = getField "access_token"
              [("access_token", JStr "stale"); ("expires_at", JStr "10")])
      \/ (Resolve true = Resolve true
          /\ (exists tokenFields,
                answer refreshed = Resolve tokenFields
                /\ Some (JStr "renewed") = getField "access_token" tokenFields)
          /\ answer done = Resolve tt
          /\ (answer done = Resolve tt \/ answer done = Resolve tt))).
Proof.
  refine (expired_token_needs_refresh calendar calendarDate
            (mkTimed 3 (Resolve "old token")) (Resolve true) refreshed done done done
            oauthService 100%N "old token"
            [("access_token", JStr "stale"); ("expires_at", JStr "10")]
            (Some (JStr "renewed")) 135%N
            eq_refl eq_refl eq_refl eq_refl eq_refl _).
  discriminate.
Defined.

Lemma developer_token_disables_oauth_witness :
  let self := AuthService.constructor developerEnv in
  AuthService.client self = false
  /\ AuthService.isAuthenticated calendar calendarDate self
       (mkTimed 3 (Reject (newError "ENOENT"))) (Resolve true) refreshed done done done
       0%N
     = (0%N, Resolve true)
  /\ AuthService.initiateAuth self (fun state => Resolve ("https://ph/" ++ state)) 0%N
     = (0%N,
        Resolve (AuthService.ReplyJson 500
                   [ ("error", JStr "Product Hunt OAuth not configured.");
                     ("configured", JBool false) ]))
  /\ (exists status body,
        snd (AuthService.handleCallback self refreshed done done done
               (Some (AuthService.QText "code"))
               (Some (AuthService.QText "internal-setup-1")) 0%N)
        = Resolve (AuthService.ReplyJson status body)
        /\ (status = 400 \/ status = 403 \/ status = 500)%N).
Proof.
  refine (developer_token_disables_oauth calendar calendarDate
            (mkTimed 3 (Reject (newError "ENOENT"))) (Resolve true) refreshed refreshed
            done done done developerEnv "dev-token" 0%N
            (fun state => Resolve ("https://ph/" ++ state))
            (Some (AuthService.QText "code"))
            (Some (AuthService.QText "internal-setup-1")) eq_refl eq_refl _).
  discriminate.
Defined.

Lemma batch_results_in_order_witness :
  exists t' results,
    ChatGPTBatch.analyzeProductsBatch calendar analyzer
      [item "A"; item "B"; item "C"] 2 5000 3 0%N
    = Some (t', results)
    /\ length results = 3
    /\ (forall k p,
          nth_error [item "A"; item "B"; item "C"] k = Some p ->
          exists start instant,
            nth_error results k
            = Some (ChatGPTBatch.settledResult calendar instant p
                      (snd (analyzer k p start))))
    /\ (0 + 5000 * N.of_nat 1 <= t')%N
    /\ (forall d,
          (forall k p start, (fst (analyzer k p start) <= start + d)%N) ->
          (t' <= 0 + d * N.of_nat 2 + 5000 * N.of_nat 1)%N).
Proof.
  refine (batch_results_in_order calendar analyzer [item "A"; item "B"; item "C"]
            2 5000 _ 3 0%N _); cbn; lia.
Defined.

Lemma batch_size_zero_never_returns_witness :
  ChatGPTBatch.analyzeProductsBatch calendar analyzer [item "A"] 0 5000 7 0%N = None.
Proof.
  refine (batch_size_zero_never_returns calendar analyzer [item "A"] 5000 7 0%N _).
  discriminate.
Defined.

Lemma generated_name_is_accepted_witness :
  let name := DataService.generateFilename calendar "product_analysis" 1234 in
  DataService.refused name = false
  /\ DataService.listed name = true
  /\ DataService.candidate name = true.
Proof.
  exact (generated_name_is_accepted calendar 1234 eq_refl eq_refl).
Defined.

Lemma development_sends_stack_and_details_witness :
  let reply := ErrorHandler.handleError calendar None invalidLimit "/api" 7 in
  ErrorHandler.status reply = 400%N
  /\ getField "stack" (ErrorHandler.body reply) = Some (JStr "at validate")
  /\ (forall k v,
        getField k [("field", JStr "limit"); ("message", JStr "too small")] = Some v ->
        k <> "stack" ->
        getField k (ErrorHandler.body reply) = Some v)
  /\ (getField "message" [("field", JStr "limit"); ("message", JStr "too small")] = None ->
      getField "message" (ErrorHandler.body reply) = Some (JStr "Validation Error")).
Proof.
  refine (development_sends_stack_and_details calendar None invalidLimit "/api" 7
            "at validate" [("field", JStr "limit"); ("message", JStr "too small")]
            _ eq_refl eq_refl eq_refl _).
  - discriminate.
  - repeat constructor; cbn; intuition discriminate.
Defined.

End MoreConcreteRuns.
